(** * staramr: the BLAST job scheduler ([staramr/blast/BlastHandler.py])

    A shallow embedding of the [BlastHandler] class and the properties of
    its scheduling, draining and life-cycle methods.

    The handler is a mutable Python object whose methods touch the file
    system, a thread pool and a dictionary shared with the caller.  Every
    method is therefore embedded as a computation in a state-and-exception
    monad over the pair (handler object, world); a raised exception keeps
    the state reached so far, as in Python.

    The [db] subcommands ([staramr/subcommand/Database.py]) are embedded
    in the same way over a terminal (files, standard input, trace of the
    calls to their collaborators). *)

From stdpp Require Import gmap strings list fin_maps.
From Stdlib Require Import ZArith Ascii.

Local Open Scope Z_scope.

(** ** Paths ([os.path], POSIX flavour) *)

Module path.

Definition sep : ascii := "/"%char.

(** [sep in p] *)
Fixpoint has_sep (p : string) : bool :=
  match p with
  | EmptyString => false
  | String c r => if Ascii.eqb c sep then true else has_sep r
  end.

(** [posixpath.basename]: [p[p.rfind('/') + 1:]], the part of [p] that
    follows its last separator. *)
Fixpoint basename (p : string) : string :=
  match p with
  | EmptyString => EmptyString
  | String c r =>
      if Ascii.eqb c sep then basename r
      else if has_sep r then basename r
      else p
  end.

Definition startswith_sep (p : string) : bool :=
  match p with
  | String c _ => Ascii.eqb c sep
  | EmptyString => false
  end.

Fixpoint endswith_sep (p : string) : bool :=
  match p with
  | EmptyString => false
  | String c EmptyString => Ascii.eqb c sep
  | String _ r => endswith_sep r
  end.

(** [posixpath.join(a, b)]:
    [if b.startswith('/'): path = b]
    [elif not path or path.endswith('/'): path += b]
    [else: path += '/' + b]. *)
Definition join (a b : string) : string :=
  if startswith_sep b then b
  else if bool_decide (a = "") || endswith_sep a then a +:+ b
  else a +:+ "/" +:+ b.

End path.

(** ** Exceptions *)

(** The exception classes that the scheduler raises or lets through.
    [Exception] keeps the tuple of constructor arguments ([e.args]). *)
Inductive exn : Type :=
| Exception (args : list string)
| KeyError (key : string)
| AttributeError (msg : string)
| ValueError (msg : string)
| FileExistsError (filename : string)
| OSError (errno : Z) (filename : string)
| CalledProcessError (returncode : Z) (cmd : list string)
| ApplicationError (returncode : Z) (cmd stdout stderr : string)
| BlastProcessError (message : string) (cause : exn).

(** Outcome of a call: [inl e] when it raised [e], [inr v] when it
    returned [v]. *)
Definition result (A : Type) : Type := (exn + A)%type.

(** ** A state-and-exception monad *)

Section Monad.
Context {S : Type}.

Definition M (A : Type) : Type := S -> result A * S.

Definition ret {A} (a : A) : M A := fun s => (inr a, s).

Definition raise {A} (e : exn) : M A := fun s => (inl e, s).

Definition bind {A B} (c : M A) (k : A -> M B) : M B :=
  fun s => match c s with
           | (inl e, s') => (inl e, s')
           | (inr a, s') => k a s'
           end.

Definition gets {A} (f : S -> A) : M A := fun s => (inr (f s), s).

Definition modify (f : S -> S) : M unit := fun s => (inr tt, f s).

(** [try: c  except ... as e: handler e], where [handler] re-raises
    what the clause does not catch. *)
Definition try_except {A} (c : M A) (handler : exn -> M A) : M A :=
  fun s => match c s with
           | (inl e, s') => handler e s'
           | (inr a, s') => (inr a, s')
           end.
End Monad.

Arguments M : clear implicits.

Declare Scope monad_scope.
Delimit Scope monad_scope with monad.
Notation "x <- c1 ;; c2" := (bind c1 (fun x => c2))
  (at level 100, c1 at next level, right associativity) : monad_scope.
Notation "c1 ;; c2" := (bind c1 (fun _ => c2))
  (at level 100, right associativity) : monad_scope.
Local Open Scope monad_scope.

(** [for x in l: body x] *)
Fixpoint for_ {S A} (l : list A) (body : A -> M S unit) : M S unit :=
  match l with
  | [] => ret tt
  | x :: l' => body x ;; for_ l' body
  end.

(** A [for] loop whose body appends one element to local lists; the
    elements are returned in iteration order. *)
Fixpoint for_collect {S A B} (l : list A) (body : A -> M S B) : M S (list B) :=
  match l with
  | [] => ret []
  | x :: l' => b <- body x ;; bs <- for_collect l' body ;; ret (b :: bs)
  end.

(** ** Python dictionaries with insertion order *)

Module dict.
Section Dict.
Context {V : Type}.

Definition keys (d : list (string * V)) : list string := d.*1.

(** [d[k]], [None] standing for [KeyError]. *)
Fixpoint get (k : string) (d : list (string * V)) : option V :=
  match d with
  | [] => None
  | (k', v) :: d' => if decide (k' = k) then Some v else get k d'
  end.

(** [del d[k]] *)
Fixpoint del (k : string) (d : list (string * V)) : list (string * V) :=
  match d with
  | [] => []
  | (k', v) :: d' => if decide (k' = k) then del k d' else (k', v) :: del k d'
  end.
End Dict.
End dict.

(** ** Data model *)

(** The interface of [AbstractBlastDatabase] that the handler uses. *)
Record AbstractBlastDatabase : Type := {
  get_name : string;
  get_database_names : list string;
  get_path : string -> string;
}.

(** A future is identified by the call that was submitted for it. *)
Inductive Future : Type :=
| make_blast_db_future (path : string)
| launch_blast_future (query db output : string).

Record ThreadPoolExecutor : Type := {
  _max_workers : Z;
  _work_queue : list Future;
}.

Definition loc := nat.

(** What lies outside the handler object: the file system as the set of
    existing paths, the dictionary objects shared with the caller, the
    executors that were shut down, and the trace of [Future.result()]
    calls.  Files written by pool workers are not tracked: [fs] changes
    only through the calling thread. *)
Record World : Type := {
  fs : gset string;
  heap : gmap loc (list (string * option AbstractBlastDatabase));
  retired : list ThreadPoolExecutor;
  waited : list Future;
}.

Record BlastHandler : Type := {
  _threads : Z;
  _output_directory : string;
  _input_genomes_tmp_dir : string;
  _blast_database_objects_map : loc;
  _pointfinder_configured : bool;
  _thread_pool_executor : option ThreadPoolExecutor;
  _blast_map : gmap string (gmap string (gmap string string));
  _future_blasts_map : gmap string (list Future);
}.

Definition set_thread_pool_executor (x : option ThreadPoolExecutor) (h : BlastHandler) :=
  {| _threads := _threads h; _output_directory := _output_directory h;
     _input_genomes_tmp_dir := _input_genomes_tmp_dir h;
     _blast_database_objects_map := _blast_database_objects_map h;
     _pointfinder_configured := _pointfinder_configured h;
     _thread_pool_executor := x;
     _blast_map := _blast_map h; _future_blasts_map := _future_blasts_map h |}.

Definition set_blast_map (x : gmap string (gmap string (gmap string string))) (h : BlastHandler) :=
  {| _threads := _threads h; _output_directory := _output_directory h;
     _input_genomes_tmp_dir := _input_genomes_tmp_dir h;
     _blast_database_objects_map := _blast_database_objects_map h;
     _pointfinder_configured := _pointfinder_configured h;
     _thread_pool_executor := _thread_pool_executor h;
     _blast_map := x; _future_blasts_map := _future_blasts_map h |}.

Definition set_future_blasts_map (x : gmap string (list Future)) (h : BlastHandler) :=
  {| _threads := _threads h; _output_directory := _output_directory h;
     _input_genomes_tmp_dir := _input_genomes_tmp_dir h;
     _blast_database_objects_map := _blast_database_objects_map h;
     _pointfinder_configured := _pointfinder_configured h;
     _thread_pool_executor := _thread_pool_executor h;
     _blast_map := _blast_map h; _future_blasts_map := x |}.

Definition set_fs (x : gset string) (w : World) :=
  {| fs := x; heap := heap w; retired := retired w; waited := waited w |}.

Definition set_heap (x : gmap loc (list (string * option AbstractBlastDatabase))) (w : World) :=
  {| fs := fs w; heap := x; retired := retired w; waited := waited w |}.

Definition set_retired (x : list ThreadPoolExecutor) (w : World) :=
  {| fs := fs w; heap := heap w; retired := x; waited := waited w |}.

Definition set_waited (x : list Future) (w : World) :=
  {| fs := fs w; heap := heap w; retired := retired w; waited := x |}.

(** The state a method runs in: [self] and the world. *)
Definition State : Type := (BlastHandler * World)%type.

Definition self_get {A} (f : BlastHandler -> A) : M State A := gets (fun s => f s.1).
Definition self_set (f : BlastHandler -> BlastHandler) : M State unit :=
  modify (fun s => (f s.1, s.2)).
Definition world_get {A} (f : World -> A) : M State A := gets (fun s => f s.2).
Definition world_set (f : World -> World) : M State unit :=
  modify (fun s => (s.1, f s.2)).

(** ** The environment *)

(** What the handler cannot decide by itself: how the operating system
    and the two external tools answer.  A child process is described by
    its exit status and streams; [mkdir_errno] and [symlink_errno] say
    when the operating system refuses a call on an absent path. *)
Record External : Type := {
  abspath : string -> string;
  mkdir_errno : string -> option Z;
  symlink_errno : string -> string -> option Z;
  run_makeblastdb : list string -> Z;
  run_blastn : string -> string -> string -> Z * string * string;
  blastn_str : string -> string -> string -> string;
}.

Section BlastHandler.
Context (os : External).

(** *** Operating-system calls *)

Definition path_exists (p : string) : M State bool :=
  world_get (fun w => bool_decide (p ∈ fs w)).

Definition os_mkdir (p : string) : M State unit :=
  e <- path_exists p ;;
  if (e : bool) then raise (FileExistsError p)
  else match mkdir_errno os p with
       | Some n => raise (OSError n p)
       | None => world_set (fun w => set_fs ({[ p ]} ∪ fs w) w)
       end.

Definition os_symlink (src dst : string) : M State unit :=
  e <- path_exists dst ;;
  if (e : bool) then raise (FileExistsError dst)
  else match symlink_errno os src dst with
       | Some n => raise (OSError n dst)
       | None => world_set (fun w => set_fs ({[ dst ]} ∪ fs w) w)
       end.

(** *** The worker functions *)

(** [subprocess.run(command, ..., check=True)] *)
Definition _make_blast_db (path_ : string) : result unit :=
  let command := ["makeblastdb"; "-in"; path_; "-dbtype"; "nucl"; "-parse_seqids"] in
  let returncode := run_makeblastdb os command in
  if decide (returncode = 0) then inr tt
  else inl (CalledProcessError returncode command).

(** The command-line object raises [ApplicationError] on a non-zero
    exit status; the method raises on a non-empty error stream. *)
Definition _launch_blast (query db output : string) : result unit :=
  let '(returncode, stdout, stderr) := run_blastn os query db output in
  if decide (returncode = 0) then
    if decide (stderr = "") then inr tt
    else inl (Exception ["error with [" +:+ blastn_str os query db output
                           +:+ "], stderr=" +:+ stderr])
  else inl (ApplicationError returncode (blastn_str os query db output) stdout stderr).

(** *** The thread pool *)

(** [ThreadPoolExecutor(max_workers=n)] *)
Definition new_ThreadPoolExecutor (max_workers : Z) : M State ThreadPoolExecutor :=
  if decide (max_workers <= 0) then raise (ValueError "max_workers must be greater than 0")
  else ret {| _max_workers := max_workers; _work_queue := [] |}.

(** [executor.shutdown()]: waits for the submitted calls; the executor
    takes no further work. *)
Definition shutdown (ex : ThreadPoolExecutor) : M State unit :=
  world_set (fun w => set_retired (retired w ++ [ex]) w).

(** [self._thread_pool_executor.submit(fn, *args)] *)
Definition submit (call : Future) : M State Future :=
  ex <- self_get _thread_pool_executor ;;
  match ex with
  | None => raise (AttributeError "'NoneType' object has no attribute 'submit'")
  | Some ex =>
      self_set (set_thread_pool_executor
                  (Some {| _max_workers := _max_workers ex;
                           _work_queue := _work_queue ex ++ [call] |})) ;;
      ret call
  end.

(** What the call behind a future ends with. *)
Definition outcome (f : Future) : result unit :=
  match f with
  | make_blast_db_future p => _make_blast_db p
  | launch_blast_future query db output => _launch_blast query db output
  end.

(** [future.result()]: waits for the call and re-raises what it raised. *)
Definition Future_result (f : Future) : M State unit :=
  world_set (fun w => set_waited (waited w ++ [f]) w) ;;
  match outcome f with
  | inl e => raise e
  | inr _ => ret tt
  end.

(** *** Methods of [BlastHandler] *)

Definition reset : M State unit :=
  ex <- self_get _thread_pool_executor ;;
  match ex with
  | Some ex => shutdown ex
  | None => ret tt
  end ;;
  threads <- self_get _threads ;;
  ex' <- new_ThreadPoolExecutor threads ;;
  self_set (set_thread_pool_executor (Some ex')) ;;
  self_set (set_blast_map ∅) ;;
  self_set (set_future_blasts_map ∅) ;;
  dir <- self_get _input_genomes_tmp_dir ;;
  e <- path_exists dir ;;
  if (e : bool) then ret tt
  else os_mkdir dir.

Definition __init__ (blast_database_objects_map : loc) (threads : option Z)
    (output_directory : option string) : World -> result BlastHandler * World :=
  fun w =>
    match threads with
    | None => (inl (Exception ["threads is None"]), w)
    | Some threads =>
      match output_directory with
      | None => (inl (Exception ["output_directory is None"]), w)
      | Some output_directory =>
        let d := heap w !!! blast_database_objects_map in
        match dict.get "pointfinder" d with
        | None => (inl (KeyError "pointfinder"), w)
        | Some entry =>
          let configured := match entry with None => false | Some _ => true end in
          let w1 :=
            match entry with
            | None => set_heap (<[blast_database_objects_map := dict.del "pointfinder" d]> (heap w)) w
            | Some _ => w
            end in
          let self :=
            {| _threads := threads;
               _output_directory := output_directory;
               _input_genomes_tmp_dir := path.join output_directory "input-genomes";
               _blast_database_objects_map := blast_database_objects_map;
               _pointfinder_configured := configured;
               _thread_pool_executor := None;
               _blast_map := ∅;
               _future_blasts_map := ∅ |} in
          match reset (self, w1) with
          | (inl e, (_, w2)) => (inl e, w2)
          | (inr _, (self', w2)) => (inr self', w2)
          end
        end
      end
    end.

Definition _get_blast_map (name : string) : M State (gmap string (gmap string string)) :=
  bm <- self_get _blast_map ;;
  match bm !! name with
  | Some g => ret g
  | None => self_set (set_blast_map (<[name := ∅]> bm)) ;; ret ∅
  end.

Definition _get_future_blasts_from_map (name : string) : M State (list Future) :=
  fm <- self_get _future_blasts_map ;;
  match fm !! name with
  | Some l => ret l
  | None => self_set (set_future_blasts_map (<[name := []]> fm)) ;; ret []
  end.

(** The name of the result file of one alignment. *)
Definition blast_out_path (output_directory file_name database_name name : string) : string :=
  path.join output_directory
    (file_name +:+ "." +:+ database_name +:+ "." +:+ name +:+ ".blast.tsv").

(** The body of the loop of [_schedule_blast].  The dictionaries that
    [_get_blast_map] and [setdefault] return are the stored objects, so
    the assignment is an update of [self._blast_map] in place; likewise
    for [append] on the list of futures. *)
Definition schedule_database (file : string) (blast_database : AbstractBlastDatabase)
    (database_name : string) : M State unit :=
  let database := get_path blast_database database_name in
  let file_name := path.basename file in
  output_directory <- self_get _output_directory ;;
  let blast_out :=
    blast_out_path output_directory file_name database_name (get_name blast_database) in
  e <- path_exists blast_out ;;
  if (e : bool) then raise (Exception ["Error, blast_out [%s] already exists"; blast_out])
  else
    g <- _get_blast_map (get_name blast_database) ;;
    let inner : gmap string string := default ∅ (g !! file_name) in
    self_set (fun h => set_blast_map
      (<[get_name blast_database := <[file_name := <[database_name := blast_out]> inner]> g]>
         (_blast_map h)) h) ;;
    future_blast <- submit (launch_blast_future database file blast_out) ;;
    l <- _get_future_blasts_from_map (get_name blast_database) ;;
    self_set (fun h => set_future_blasts_map
      (<[get_name blast_database := (l ++ [future_blast])%list]> (_future_blasts_map h)) h).

Definition _schedule_blast (file : string) (blast_database : option AbstractBlastDatabase)
    : M State unit :=
  match blast_database with
  | None => raise (AttributeError "'NoneType' object has no attribute 'get_database_names'")
  | Some blast_database =>
      for_ (get_database_names blast_database) (schedule_database file blast_database)
  end.

Definition _make_db_from_input_files (db_dir : string) (files : list string)
    : M State (list string) :=
  made <- for_collect files (fun file =>
    let destination := path.join db_dir (path.basename file) in
    os_symlink (abspath os file) destination ;;
    future <- submit (make_blast_db_future destination) ;;
    ret (destination, future)) ;;
  let db_files := made.*1 in
  let future_makeblastdbs := made.*2 in
  try_except (for_ future_makeblastdbs Future_result)
    (fun e => match e with
              | CalledProcessError _ _ => raise (BlastProcessError "Error running makeblastdb" e)
              | _ => raise e
              end) ;;
  ret db_files.

Definition run_blasts (files : list string) : M State unit :=
  db_dir <- self_get _input_genomes_tmp_dir ;;
  db_files <- _make_db_from_input_files db_dir files ;;
  for_ db_files (fun file =>
    names <- gets (fun s : State => dict.keys (heap s.2 !!! _blast_database_objects_map s.1)) ;;
    for_ names (fun name =>
      entry <- gets (fun s : State => dict.get name (heap s.2 !!! _blast_database_objects_map s.1)) ;;
      match entry with
      | None => raise (KeyError name)
      | Some database_object => _schedule_blast file database_object
      end)).

Definition is_pointfinder_configured : M State bool :=
  self_get _pointfinder_configured.

Definition get_resfinder_outputs : M State (gmap string (gmap string string)) :=
  futures <- _get_future_blasts_from_map "resfinder" ;;
  for_ futures Future_result ;;
  _get_blast_map "resfinder".

Definition get_pointfinder_outputs : M State (gmap string (gmap string string)) :=
  configured <- is_pointfinder_configured ;;
  if (configured : bool) then
    futures <- _get_future_blasts_from_map "pointfinder" ;;
    for_ futures Future_result ;;
    _get_blast_map "pointfinder"
  else raise (Exception ["Error, pointfinder has not been configured"]).

End BlastHandler.

(** ** Clients *)

(** The public methods, and what a client that calls them one after the
    other (catching what they raise) leaves behind. *)
Inductive method : Type :=
| call_reset
| call_run_blasts (files : list string)
| call_is_pointfinder_configured
| call_get_resfinder_outputs
| call_get_pointfinder_outputs.

Definition call (os : External) (m : method) (s : State) : State :=
  match m with
  | call_reset => (reset os s).2
  | call_run_blasts files => (run_blasts os files s).2
  | call_is_pointfinder_configured => (is_pointfinder_configured s).2
  | call_get_resfinder_outputs => (get_resfinder_outputs os s).2
  | call_get_pointfinder_outputs => (get_pointfinder_outputs os s).2
  end.

Definition calls (os : External) (ms : list method) (s : State) : State :=
  fold_left (fun s m => call os m s) ms s.

(** The states of a handler that was constructed and then used. *)
Inductive reachable (os : External) : State -> Prop :=
| reachable_init l threads output_directory w h w' :
    __init__ os l threads output_directory w = (inr h, w') ->
    reachable os (h, w')
| reachable_call s m :
    reachable os s -> reachable os (call os m s).

(** A handler that was just constructed, or just reset. *)
Inductive fresh (os : External) : State -> Prop :=
| fresh_init l threads output_directory w h w' :
    __init__ os l threads output_directory w = (inr h, w') ->
    fresh os (h, w')
| fresh_reset s s' :
    reachable os s -> reset os s = (inr tt, s') ->
    fresh os s'.

(** The handles of a group, in the order in which they were appended. *)
Definition handles (s : State) (name : string) : list Future :=
  default [] (_future_blasts_map s.1 !! name).

(** The result map of a group. *)
Definition group_results (s : State) (name : string) : gmap string (gmap string string) :=
  default ∅ (_blast_map s.1 !! name).

(** ** Relations between states *)

(** A computation is [stable] for a relation when the relation holds
    between the state it starts in and the state it leaves, whether it
    returns or raises. *)
Definition stable {S A} (R : relation S) (c : M S A) : Prop :=
  forall s r s', c s = (r, s') -> R s s'.

(** The attributes that are set once by the constructor, the shared
    dictionaries, the files that exist and the presence of an executor
    are kept by every method. *)
Record frame (s s' : State) : Prop := {
  frame_threads : _threads s'.1 = _threads s.1;
  frame_output_directory : _output_directory s'.1 = _output_directory s.1;
  frame_input_genomes_tmp_dir : _input_genomes_tmp_dir s'.1 = _input_genomes_tmp_dir s.1;
  frame_blast_database_objects_map :
    _blast_database_objects_map s'.1 = _blast_database_objects_map s.1;
  frame_pointfinder_configured : _pointfinder_configured s'.1 = _pointfinder_configured s.1;
  frame_heap : heap s'.2 = heap s.2;
  frame_fs : fs s.2 ⊆ fs s'.2;
  frame_executor : is_Some (_thread_pool_executor s.1) -> is_Some (_thread_pool_executor s'.1);
}.

(** The state that [reset] builds in memory, before it looks at the
    working directory. *)
Definition reset_state (s : State) : State :=
  (set_future_blasts_map ∅ (set_blast_map ∅ (set_thread_pool_executor
     (Some {| _max_workers := _threads s.1; _work_queue := [] |}) s.1)),
   match _thread_pool_executor s.1 with
   | Some ex => set_retired (retired s.2 ++ [ex]) s.2
   | None => s.2
   end).

(** What holds of a handler in use: the thread count is positive, the
    working directory exists and there is an executor. *)
Record in_use (s : State) : Prop := {
  in_use_threads : 0 < _threads s.1;
  in_use_dir : _input_genomes_tmp_dir s.1 ∈ fs s.2;
  in_use_executor : is_Some (_thread_pool_executor s.1);
}.

(** ** Reading the result map *)

(** [bm[name][file_name][database_name]] *)
Definition entry (bm : gmap string (gmap string (gmap string string)))
    (name file_name database_name : string) : option string :=
  match bm !! name with
  | Some g => match g !! file_name with
              | Some inner => inner !! database_name
              | None => None
              end
  | None => None
  end.

(** The dictionary of database objects that the handler works with. *)
Definition working_dict (s : State) : list (string * option AbstractBlastDatabase) :=
  heap s.2 !!! _blast_database_objects_map s.1.

(** The alignments of one input file: the groups in the order of the
    dictionary, then the sub-databases of the group. *)
Definition jobs_of_file (d : list (string * option AbstractBlastDatabase)) (file : string)
    : list (string * AbstractBlastDatabase * string) :=
  kv ← d;
  match kv.2 with
  | Some blast_database => (fun dn => (file, blast_database, dn)) <$> get_database_names blast_database
  | None => []
  end.

(** The alignments of one run in the order of submission: input files
    outermost. *)
Definition jobs (d : list (string * option AbstractBlastDatabase)) (db_files : list string)
    : list (string * AbstractBlastDatabase * string) :=
  file ← db_files; jobs_of_file d file.

Definition job_out (output_directory : string) (j : string * AbstractBlastDatabase * string) : string :=
  blast_out_path output_directory (path.basename j.1.1) j.2 (get_name j.1.2).

Definition job_future (output_directory : string) (j : string * AbstractBlastDatabase * string) : Future :=
  launch_blast_future (get_path j.1.2 j.2) j.1.1 (job_out output_directory j).

Definition is_launch_blast (f : Future) : bool :=
  match f with
  | launch_blast_future _ _ _ => true
  | make_blast_db_future _ => false
  end.

Definition enqueue (call : Future) (ex : ThreadPoolExecutor) : ThreadPoolExecutor :=
  {| _max_workers := _max_workers ex; _work_queue := _work_queue ex ++ [call] |}.

(** A working set: every key of the dictionary holds a database object. *)
Definition working_set (d : list (string * option AbstractBlastDatabase)) : Prop :=
  NoDup (dict.keys d) /\ forall k v, (k, v) ∈ d -> is_Some v.

(** A valid configuration: a working set in which every database object
    goes by the name of its key. *)
Definition valid_configuration (d : list (string * option AbstractBlastDatabase)) : Prop :=
  working_set d /\
  forall k blast_database, (k, Some blast_database) ∈ d -> get_name blast_database = k.

(** What a caller passes to the constructor: every key other than
    [pointfinder] holds a database object. *)
Definition caller_map (d : list (string * option AbstractBlastDatabase)) : Prop :=
  NoDup (dict.keys d) /\
  forall k v, (k, v) ∈ d -> k <> "pointfinder" -> is_Some v.

(** Between two states, the entries that were added to the result map
    are for links in [db_files], and the handles that were added are
    alignments against links in [db_files]. *)
Definition adds_only (db_files : list string) (s s' : State) : Prop :=
  (forall name file_name database_name,
     is_Some (entry (_blast_map s'.1) name file_name database_name) ->
     is_Some (entry (_blast_map s.1) name file_name database_name) \/
     exists file, file ∈ db_files /\ file_name = path.basename file) /\
  (forall name f,
     f ∈ handles s' name ->
     f ∈ handles s name \/
     exists query file output, f = launch_blast_future query file output /\ file ∈ db_files).

(** ** The preparation stage, one input file at a time *)

(** The link that stands for an input file in the working directory. *)
Definition destination (db_dir file : string) : string :=
  path.join db_dir (path.basename file).

Definition makeblastdb_command (path_ : string) : list string :=
  ["makeblastdb"; "-in"; path_; "-dbtype"; "nucl"; "-parse_seqids"].

(** The state after the link of an input file was made and its index
    build submitted. *)
Definition linked (db_dir : string) (s : State) (file : string) : State :=
  (set_thread_pool_executor
     (enqueue (make_blast_db_future (destination db_dir file)) <$> _thread_pool_executor s.1) s.1,
   set_fs ({[ destination db_dir file ]} ∪ fs s.2) s.2).

(** Every link of the input files can be made: the links are distinct,
    none exists, and the operating system refuses none. *)
Definition links_fresh (os : External) (s : State) (files : list string) : Prop :=
  let db_dir := _input_genomes_tmp_dir s.1 in
  NoDup (destination db_dir <$> files) /\
  Forall (fun file => (destination db_dir file ∉ fs s.2) /\
                      symlink_errno os (abspath os file) (destination db_dir file) = None) files.

(** Between two states, only index builds were submitted to the
    executor, and the result and handle maps are the same. *)
Definition index_only (s s' : State) : Prop :=
  _blast_map s'.1 = _blast_map s.1 /\
  _future_blasts_map s'.1 = _future_blasts_map s.1 /\
  match _thread_pool_executor s.1 with
  | Some ex => exists l,
      _thread_pool_executor s'.1 =
        Some {| _max_workers := _max_workers ex; _work_queue := _work_queue ex ++ l |} /\
      Forall (fun f => is_launch_blast f = false) l
  | None => _thread_pool_executor s'.1 = None
  end.

(** ** Scheduling, one alignment at a time *)

(** One pass through the body of the loop of [_schedule_blast]. *)
Definition schedule_job (j : string * AbstractBlastDatabase * string) : M State unit :=
  schedule_database j.1.1 j.1.2 j.2.

(** [bm[name].setdefault(file_name, {})[database_name] = out], with
    [bm[name]] created when it is missing. *)
Definition registered (bm : gmap string (gmap string (gmap string string)))
    (name file_name database_name out : string) : gmap string (gmap string (gmap string string)) :=
  let g := default ∅ (bm !! name) in
  <[name := <[file_name := <[database_name := out]> (default ∅ (g !! file_name))]> g]> bm.

(** The state after an alignment was registered and submitted. *)
Definition scheduled (s : State) (j : string * AbstractBlastDatabase * string) : State :=
  let out := job_out (_output_directory s.1) j in
  let future := job_future (_output_directory s.1) j in
  let name := get_name j.1.2 in
  (set_future_blasts_map
     (<[name := handles s name ++ [future]]> (_future_blasts_map s.1))
     (set_thread_pool_executor (enqueue future <$> _thread_pool_executor s.1)
        (set_blast_map (registered (_blast_map s.1) name (path.basename j.1.1) j.2 out) s.1)),
   s.2).

(** The key under which an alignment is registered. *)
Definition job_key (j : string * AbstractBlastDatabase * string) : string * string * string :=
  (get_name j.1.2, path.basename j.1.1, j.2).

(** Every dictionary of sub-database names in the result map has an
    entry. *)
Definition no_empty_inner (bm : gmap string (gmap string (gmap string string))) : Prop :=
  forall name g file_name (inner : gmap string string),
    bm !! name = Some g -> g !! file_name = Some inner -> inner <> ∅.

(** ** Further notions *)

(** The handler that the constructor builds, before and after its call
    of [reset]. *)
Definition init_world (l : loc) (entry : option AbstractBlastDatabase) (w : World) : World :=
  match entry with
  | None => set_heap (<[l := dict.del "pointfinder" (heap w !!! l)]> (heap w)) w
  | Some _ => w
  end.

Definition init_handler (l : loc) (t : Z) (o : string) (entry : option AbstractBlastDatabase)
    : BlastHandler :=
  {| _threads := t;
     _output_directory := o;
     _input_genomes_tmp_dir := path.join o "input-genomes";
     _blast_database_objects_map := l;
     _pointfinder_configured := match entry with Some _ => true | None => false end;
     _thread_pool_executor := Some {| _max_workers := t; _work_queue := [] |};
     _blast_map := ∅;
     _future_blasts_map := ∅ |}.

(** The executor of the handler has as many workers as the constructor
    was given threads. *)
Definition pool_sized (s : State) : Prop :=
  exists ex, _thread_pool_executor s.1 = Some ex /\ _max_workers ex = _threads s.1.

Definition keeps_pool_sized (s s' : State) : Prop :=
  _threads s'.1 = _threads s.1 /\ (pool_sized s -> pool_sized s').

(** Between two states, nothing but the trace of waited handles has
    changed, up to empty entries that were created in the two maps. *)
Definition read_only (s s' : State) : Prop :=
  (forall name, handles s' name = handles s name) /\
  (forall name, group_results s' name = group_results s name) /\
  _thread_pool_executor s'.1 = _thread_pool_executor s.1 /\
  fs s'.2 = fs s.2 /\ heap s'.2 = heap s.2 /\ retired s'.2 = retired s.2.

(** The failure that draining a list of handles raises: that of the
    first handle that failed. *)
Fixpoint first_failure (os : External) (l : list Future) : result unit :=
  match l with
  | [] => inr tt
  | f :: l' => match outcome os f with
               | inl e => inl e
               | inr _ => first_failure os l'
               end
  end.

(** A run that nothing stops: the handler is in use, the dictionary is
    a working set, every link can be made, every index build exits with
    status 0, and no output path of an alignment exists or is one of the
    links. *)
Definition ready_to_run (os : External) (s : State) (files : list string) : Prop :=
  let db_dir := _input_genomes_tmp_dir s.1 in
  in_use s /\
  working_set (working_dict s) /\
  links_fresh os s files /\
  Forall (fun file =>
    run_makeblastdb os (makeblastdb_command (destination db_dir file)) = 0) files /\
  Forall (fun j =>
    (job_out (_output_directory s.1) j ∉ fs s.2) /\
    (job_out (_output_directory s.1) j ∉ destination db_dir <$> files))
    (jobs (working_dict s) (destination db_dir <$> files)).

(** The number of sub-databases of all groups of a dictionary. *)
Definition sub_database_count (d : list (string * option AbstractBlastDatabase)) : nat :=
  sum_list_with (fun kv : string * option AbstractBlastDatabase =>
                   match kv.2 with
                   | Some blast_database => length (get_database_names blast_database)
                   | None => 0%nat
                   end) d.

(** ** The [db] subcommands ([staramr/subcommand/Database.py])

    The subcommands drive collaborators that are not part of this
    development: the argument parser, the database managers and their
    handlers, the table of drugs, the terminal.  A call to a collaborator
    is recorded in a trace, and what it raises or returns is taken from
    the environment. *)

Module cli.

Inductive error : Type :=
| CommandParseException (msg : string) (print_help : option bool)
| DatabaseErrorException (msg : string)
| DatabaseNotFoundException (msg : string)
| EOFError
| OSError (errno : Z) (filename : string)
| OtherError (name msg : string).

(** [AMRDatabasesManager.create_default_manager()] and
    [AMRDatabasesManager(directory)]. *)
Inductive manager : Type :=
| default_manager
| manager_at (directory : string).

(** The handler that [manager.get_database_handler(...)] returns, with
    the argument [force_use_git] if one was passed. *)
Definition handler : Type := (manager * option bool)%type.

Inductive call : Type :=
| SubCommand_run
| print_help
| create_default_manager
| new_AMRDatabasesManager (directory : string)
| get_database_handler (m : manager) (force_use_git : option bool)
| handler_build (h : handler) (resfinder_commit pointfinder_commit : option string)
| handler_update (h : handler) (resfinder_commit pointfinder_commit : option string)
| handler_info (h : handler)
| restore_default
| new_ARGDrugTable
| get_resistance_table_info
| get_string_with_spacing
| stdout_write (text : string)
| logger_error (msg : string)
| input (prompt : string)
| mkdir (path_ : string).

(** The parsed arguments that the subcommands read. *)
Record Args : Type := {
  db_command : option string;
  destination : string;
  resfinder_commit : option string;
  pointfinder_commit : option string;
  update_default : bool;
  directories : list string;
  force : bool;
}.

Record Terminal : Type := {
  files : gset string;
  stdin : list string;
  trace : list call;
}.

Definition set_files (x : gset string) (t : Terminal) : Terminal :=
  {| files := x; stdin := stdin t; trace := trace t |}.
Definition set_stdin (x : list string) (t : Terminal) : Terminal :=
  {| files := files t; stdin := x; trace := trace t |}.
Definition set_trace (x : list call) (t : Terminal) : Terminal :=
  {| files := files t; stdin := stdin t; trace := x |}.

Section Cli.
(** The rows of information about a database. *)
Context {item : Type}.

Record Collaborators : Type := {
  get_default_database_directory : string;
  (** what a call raises, if it raises *)
  raises : call -> option error;
  database_info : handler -> list item;
  resistance_table_info : list item;
  string_with_spacing : list item -> string;
  str_lower : string -> string;
  str_strip : string -> string;
}.

Context (env : Collaborators).

Definition C (A : Type) : Type := Terminal -> (error + A) * Terminal.

Definition ret {A} (a : A) : C A := fun t => (inr a, t).
Definition raise {A} (e : error) : C A := fun t => (inl e, t).
Definition bind {A B} (c : C A) (k : A -> C B) : C B :=
  fun t => match c t with
           | (inl e, t') => (inl e, t')
           | (inr a, t') => k a t'
           end.

(** [try: c  except ... as e: handler e] *)
Definition try_except {A} (c : C A) (handler : error -> C A) : C A :=
  fun t => match c t with
           | (inl e, t') => handler e t'
           | (inr a, t') => (inr a, t')
           end.

Declare Scope cli_scope.
Notation "x <- c1 ;; c2" := (bind c1 (fun x => c2))
  (at level 100, c1 at next level, right associativity) : cli_scope.
Notation "c1 ;; c2" := (bind c1 (fun _ => c2))
  (at level 100, right associativity) : cli_scope.
Local Open Scope cli_scope.

Fixpoint for_ {A} (l : list A) (body : A -> C unit) : C unit :=
  match l with
  | [] => ret tt
  | x :: l' => body x ;; for_ l' body
  end.

(** A call to a collaborator: it is recorded, then it raises or
    returns. *)
Definition do (c : call) : C unit :=
  fun t =>
    let t' := set_trace (trace t ++ [c]) t in
    match raises env c with
    | Some e => (inl e, t')
    | None => (inr tt, t')
    end.

(** [logger.error(msg)] *)
Definition log_error (msg : string) : C unit :=
  fun t => (inr tt, set_trace (trace t ++ [logger_error msg]) t).

Definition path_exists (p : string) : C bool :=
  fun t => (inr (bool_decide (p ∈ files t)), t).

(** [os.mkdir(p)] *)
Definition os_mkdir (p : string) : C unit :=
  e <- path_exists p ;;
  if (e : bool) then raise (OtherError "FileExistsError" p)
  else do (mkdir p) ;;
       fun t => (inr tt, set_files ({[ p ]} ∪ files t) t).

(** [input(prompt)]: the next line of the standard input, [EOFError]
    at its end. *)
Definition read_input (prompt : string) : C string :=
  do (input prompt) ;;
  fun t => match stdin t with
           | [] => (inl EOFError, t)
           | line :: rest => (inr line, set_stdin rest t)
           end.

(** [Database.run] *)
Definition Database_run (args : Args) : C unit :=
  do SubCommand_run ;;
  match db_command args with
  | None => do print_help
  | Some _ => ret tt
  end.

(** [Build.run]; [_default_dir] is the attribute that [_setup_args]
    has set. *)
Definition Build_run (_default_dir : string) (args : Args) : C unit :=
  Database_run args ;;
  e <- path_exists (destination args) ;;
  (if (e : bool) then
     if decide (destination args = _default_dir) then
       raise (CommandParseException
                ("Error, default destination [" +:+ destination args +:+ "] already exists")
                (Some true))
     else
       raise (CommandParseException
                ("Error, destination [" +:+ destination args +:+ "] already exists")
                None)
   else os_mkdir (destination args)) ;;
  database_handler <-
    (if decide (destination args = get_default_database_directory env) then
       do create_default_manager ;;
       do (get_database_handler default_manager None) ;;
       ret (default_manager, None)
     else
       do (new_AMRDatabasesManager (destination args)) ;;
       do (get_database_handler (manager_at (destination args)) None) ;;
       ret (manager_at (destination args), None)) ;;
  do (handler_build database_handler (resfinder_commit args) (pointfinder_commit args)).

(** [Update.run] *)
Definition Update_run (args : Args) : C unit :=
  Database_run args ;;
  if decide (length (directories args) = 0%nat) then
    if negb (update_default args) then
      raise (CommandParseException
               "Must pass at least one directory to update, or use '--update-default'"
               (Some true))
    else
      try_except
        (do create_default_manager ;;
         do (get_database_handler default_manager (Some true)) ;;
         do (handler_update (default_manager, Some true)
               (resfinder_commit args) (pointfinder_commit args)))
        (fun e =>
           match e with
           | DatabaseErrorException _ =>
               log_error "Could not update default database. Please try restoring with 'staramr db restore'" ;;
               raise e
           | _ => raise e
           end)
  else
    for_ (directories args) (fun directory =>
      do (new_AMRDatabasesManager directory) ;;
      do (get_database_handler (manager_at directory) None) ;;
      do (handler_update (manager_at directory, None)
            (resfinder_commit args) (pointfinder_commit args))).

(** What an answer to the question of [_confirm_restore] means, if it
    means anything. *)
Definition answer (response : string) : option bool :=
  if decide (response = "y" \/ response = "yes") then Some true
  else if decide (response = "n" \/ response = "no") then Some false
  else None.

(** [RestoreDefault._confirm_restore]: the loop asks until an answer
    means something; every turn reads a line, so the loop is a recursion
    on the number of lines that are left, and ends in [EOFError] when
    none is. *)
Fixpoint confirm_loop (fuel : nat) : C bool :=
  match fuel with
  | O => read_input "Restore the default ResFinder/PointFinder databases (Y/N)? " ;;
         raise EOFError
  | S fuel' =>
      line <- read_input "Restore the default ResFinder/PointFinder databases (Y/N)? " ;;
      let response := str_strip env (str_lower env line) in
      if decide (response = "y" \/ response = "yes") then ret true
      else if decide (response = "n" \/ response = "no") then ret false
      else confirm_loop fuel'
  end.

Definition _confirm_restore : C bool :=
  fun t => confirm_loop (length (stdin t)) t.

(** [RestoreDefault.run] *)
Definition RestoreDefault_run (args : Args) : C unit :=
  Database_run args ;;
  do create_default_manager ;;
  response <- (if negb (force args) then _confirm_restore else ret true) ;;
  if (response : bool) then do restore_default else ret tt.

(** The body of the [try] of [Info.run] for a handler. *)
Definition write_info (database_handler : handler) : C unit :=
  do (handler_info database_handler) ;;
  do get_resistance_table_info ;;
  do get_string_with_spacing ;;
  do (stdout_write (string_with_spacing env
                      (database_info env database_handler ++ resistance_table_info env))).

(** [Info.run] *)
Definition Info_run (args : Args) : C unit :=
  Database_run args ;;
  do new_ARGDrugTable ;;
  if decide (length (directories args) = 0%nat) then
    do create_default_manager ;;
    do (get_database_handler default_manager None) ;;
    try_except (write_info (default_manager, None))
      (fun e =>
         match e with
         | DatabaseNotFoundException _ =>
             log_error "No database found. Perhaps try restoring the default with 'staramr db restore'"
         | _ => raise e
         end)
  else
    for_ (directories args) (fun directory =>
      try_except
        (do (new_AMRDatabasesManager directory) ;;
         do (get_database_handler (manager_at directory) None) ;;
         write_info (manager_at directory, None))
        (fun e =>
           match e with
           | DatabaseNotFoundException _ =>
               log_error ("Database not found in [" +:+ directory
                          +:+ "]. Perhaps try building with 'staramr db build --dir "
                          +:+ directory +:+ "'")
           | _ => raise e
           end)).

(** *** What the properties of the subcommands are stated with *)

(** The calls that were made between two states of the terminal. *)
Definition since (t t' : Terminal) : list call :=
  drop (length (trace t)) (trace t').

(** The calls of a list up to the first one that raises, with what it
    raises. *)
Fixpoint first_raising (cs : list call) : option (list call * error) :=
  match cs with
  | [] => None
  | c :: cs' =>
      match raises env c with
      | Some e => Some ([c], e)
      | None => match first_raising cs' with
                | Some (pre, e) => Some (c :: pre, e)
                | None => None
                end
      end
  end.

(** No call of a list raises. *)
Definition quiet (cs : list call) : Prop :=
  Forall (fun c => raises env c = None) cs.

(** The calls of [Database.run]. *)
Definition Database_calls (args : Args) : list call :=
  SubCommand_run :: match db_command args with
                    | None => [print_help]
                    | Some _ => []
                    end.

(** The calls of [Build.run] for a destination that does not exist. *)
Definition build_calls (args : Args) : list call :=
  let m := if decide (destination args = get_default_database_directory env)
           then default_manager else manager_at (destination args) in
  [mkdir (destination args);
   if decide (destination args = get_default_database_directory env)
   then create_default_manager else new_AMRDatabasesManager (destination args);
   get_database_handler m None;
   handler_build (m, None) (resfinder_commit args) (pointfinder_commit args)].

(** The calls of [Update.run] for a directory, and for the default
    database. *)
Definition update_calls (args : Args) (directory : string) : list call :=
  [new_AMRDatabasesManager directory;
   get_database_handler (manager_at directory) None;
   handler_update (manager_at directory, None)
     (resfinder_commit args) (pointfinder_commit args)].

Definition update_default_calls (args : Args) : list call :=
  [create_default_manager;
   get_database_handler default_manager (Some true);
   handler_update (default_manager, Some true)
     (resfinder_commit args) (pointfinder_commit args)].

(** The calls inside the [try] of [Info.run] for a handler. *)
Definition write_info_calls (h : handler) : list call :=
  [handler_info h;
   get_resistance_table_info;
   get_string_with_spacing;
   stdout_write (string_with_spacing env (database_info env h ++ resistance_table_info env))].

(** The calls inside the [try] of [Info.run] for a directory. *)
Definition info_try_calls (directory : string) : list call :=
  new_AMRDatabasesManager directory ::
  get_database_handler (manager_at directory) None ::
  write_info_calls (manager_at directory, None).

(** What [Info.run] does for a directory when the only exception that
    is raised is [DatabaseNotFoundException]: the calls up to the one
    that raises, and then the error that is logged. *)
Definition info_calls (directory : string) : list call :=
  let cs := info_try_calls directory in
  match first_raising cs with
  | None => cs
  | Some (pre, _) =>
      pre ++ [logger_error ("Database not found in [" +:+ directory
                            +:+ "]. Perhaps try building with 'staramr db build --dir "
                            +:+ directory +:+ "'")]
  end.

(** A call on the default manager, on its handler or on the default
    database. *)
Definition on_default (c : call) : bool :=
  match c with
  | create_default_manager | restore_default
  | get_database_handler default_manager _
  | handler_build (default_manager, _) _ _
  | handler_update (default_manager, _) _ _
  | handler_info (default_manager, _) => true
  | _ => false
  end.

(** The directory whose manager a call makes. *)
Definition visited (c : call) : option string :=
  match c with
  | new_AMRDatabasesManager directory => Some directory
  | _ => None
  end.

Definition is_input (c : call) : bool :=
  match c with
  | input _ => true
  | _ => false
  end.

Definition restore_prompt : string :=
  "Restore the default ResFinder/PointFinder databases (Y/N)? ".

(** What [_confirm_restore] compares with the four answers. *)
Definition response (line : string) : string :=
  str_strip env (str_lower env line).

End Cli.

Definition set_update_default (b : bool) (args : Args) : Args :=
  {| db_command := db_command args;
     destination := destination args;
     resfinder_commit := resfinder_commit args;
     pointfinder_commit := pointfinder_commit args;
     update_default := b;
     directories := directories args;
     force := force args |}.

End cli.

(** ** Example data *)

Module Example.
Definition tool_ok : External :=
  {| abspath := fun p => "/work/" +:+ p;
     mkdir_errno := fun _ => None;
     symlink_errno := fun _ _ => None;
     run_makeblastdb := fun _ => 0;
     run_blastn := fun _ _ _ => (0, "", "");
     blastn_str := fun query db output => "blastn -query " +:+ query +:+ " -db " +:+ db |}.

(** As [tool_ok], but [makeblastdb] exits with status 1. *)
Definition tool_bad_index : External :=
  {| abspath := abspath tool_ok;
     mkdir_errno := mkdir_errno tool_ok;
     symlink_errno := symlink_errno tool_ok;
     run_makeblastdb := fun _ => 1;
     run_blastn := run_blastn tool_ok;
     blastn_str := blastn_str tool_ok |}.

(** As [tool_ok], but [blastn] writes to its error stream when it
    queries the sub-database file [db/b.fsa]. *)
Definition tool_bad_blast : External :=
  {| abspath := abspath tool_ok;
     mkdir_errno := mkdir_errno tool_ok;
     symlink_errno := symlink_errno tool_ok;
     run_makeblastdb := run_makeblastdb tool_ok;
     run_blastn := fun query _ _ =>
       if decide (query = "db/b.fsa") then (0, "", "BLAST Database error") else (0, "", "");
     blastn_str := blastn_str tool_ok |}.

Definition resfinder : AbstractBlastDatabase :=
  {| get_name := "resfinder";
     get_database_names := ["a"; "b"];
     get_path := fun n => "db/" +:+ n +:+ ".fsa" |}.

Definition pointfinder : AbstractBlastDatabase :=
  {| get_name := "pointfinder";
     get_database_names := ["gyrA"];
     get_path := fun n => "pf/" +:+ n +:+ ".fsa" |}.

(** A group without sub-databases. *)
Definition resfinder_empty : AbstractBlastDatabase :=
  {| get_name := "resfinder";
     get_database_names := [];
     get_path := fun n => "db/" +:+ n +:+ ".fsa" |}.

Definition d_res : list (string * option AbstractBlastDatabase) :=
  [("resfinder", Some resfinder); ("pointfinder", None)].
Definition d_both : list (string * option AbstractBlastDatabase) :=
  [("resfinder", Some resfinder); ("pointfinder", Some pointfinder)].
Definition d_empty_group : list (string * option AbstractBlastDatabase) :=
  [("resfinder", Some resfinder_empty); ("pointfinder", None)].

(** The world before the constructor is called: the output directory
    exists; the caller's dictionary is at location 0. *)
Definition world_of (d : list (string * option AbstractBlastDatabase)) : World :=
  {| fs := {[ "out" ]}; heap := {[ 0%nat := d ]}; retired := []; waited := [] |}.

(** The handler and the world that
    [BlastHandler(d, threads=2, output_directory="out")] leaves. *)
Definition h_fresh (configured : bool) : BlastHandler :=
  {| _threads := 2;
     _output_directory := "out";
     _input_genomes_tmp_dir := "out/input-genomes";
     _blast_database_objects_map := 0%nat;
     _pointfinder_configured := configured;
     _thread_pool_executor := Some {| _max_workers := 2; _work_queue := [] |};
     _blast_map := ∅;
     _future_blasts_map := ∅ |}.

Definition w_fresh (d : list (string * option AbstractBlastDatabase)) : World :=
  {| fs := {[ "out/input-genomes"; "out" ]};
     heap := {[ 0%nat := d ]};
     retired := [];
     waited := [] |}.

(** Only the mandatory group is configured. *)
Definition s_res : State := (h_fresh false, w_fresh (dict.del "pointfinder" d_res)).

(** Both groups are configured. *)
Definition s_both : State := (h_fresh true, w_fresh d_both).

(** The mandatory group has no sub-database. *)
Definition s_empty_group : State :=
  (h_fresh false, w_fresh (dict.del "pointfinder" d_empty_group)).

(** As [s_res], in an output directory that holds a result file. *)
Definition s_collide : State :=
  (h_fresh false,
   {| fs := {[ "out/input-genomes"; "out"; "out/x.fa.b.resfinder.blast.tsv" ]};
      heap := {[ 0%nat := dict.del "pointfinder" d_res ]};
      retired := [];
      waited := [] |}).

(** As [tool_ok], but the operating system refuses every [mkdir] with
    [EACCES]. *)
Definition tool_no_mkdir : External :=
  {| abspath := abspath tool_ok;
     mkdir_errno := fun _ => Some 13;
     symlink_errno := symlink_errno tool_ok;
     run_makeblastdb := run_makeblastdb tool_ok;
     run_blastn := run_blastn tool_ok;
     blastn_str := blastn_str tool_ok |}.

(** As [s_res], but the working directory is not there. *)
Definition s_no_dir : State := (h_fresh false, world_of (dict.del "pointfinder" d_res)).

(** The mandatory group holds no database object. *)
Definition d_none : list (string * option AbstractBlastDatabase) :=
  [("resfinder", None); ("pointfinder", None)].
Definition s_none : State := (h_fresh false, w_fresh (dict.del "pointfinder" d_none)).
End Example.

(** A check of [valid_configuration] that computes. *)
Definition check_configuration (d : list (string * option AbstractBlastDatabase)) : bool :=
  bool_decide (NoDup (dict.keys d)) &&
  forallb (fun kv : string * option AbstractBlastDatabase =>
             match kv.2 with
             | Some blast_database => bool_decide (get_name blast_database = kv.1)
             | None => false
             end) d.

(** ** Example data for the [db] subcommands *)

Module DbExample.

(** [str.lower] and [str.strip] on ASCII text. *)
Definition lower_ascii (c : ascii) : ascii :=
  let n := nat_of_ascii c in
  if ((65 <=? n) && (n <=? 90))%nat then ascii_of_nat (n + 32) else c.

Fixpoint lower (s : string) : string :=
  match s with
  | EmptyString => EmptyString
  | String c r => String (lower_ascii c) (lower r)
  end.

Definition is_space (c : ascii) : bool :=
  let n := nat_of_ascii c in
  ((n =? 32) || ((9 <=? n) && (n <=? 13)))%nat.

Fixpoint lstrip (s : string) : string :=
  match s with
  | EmptyString => EmptyString
  | String c r => if is_space c then lstrip r else s
  end.

Fixpoint rstrip (s : string) : string :=
  match s with
  | EmptyString => EmptyString
  | String c r =>
      match rstrip r with
      | EmptyString => if is_space c then EmptyString else String c EmptyString
      | r' => String c r'
      end
  end.

Definition strip (s : string) : string := rstrip (lstrip s).

(** Collaborators that never raise; the rows of information are
    strings. *)
Definition tools : @cli.Collaborators string :=
  {| cli.get_default_database_directory := "/opt/staramr/databases";
     cli.raises := fun _ => None;
     cli.database_info := fun h => match h.1 with
                                   | cli.default_manager => ["default"]
                                   | cli.manager_at directory => [directory]
                                   end;
     cli.resistance_table_info := ["drugs"];
     cli.string_with_spacing := String.concat " ";
     cli.str_lower := lower;
     cli.str_strip := strip |}.

(** As [tools], but there is no database in directory [b], and the
    default manager has no handler to give. *)
Definition tools_missing : @cli.Collaborators string :=
  {| cli.get_default_database_directory := cli.get_default_database_directory tools;
     cli.raises := fun c =>
       match c with
       | cli.handler_info (cli.manager_at directory, _) =>
           if decide (directory = "b")
           then Some (cli.DatabaseNotFoundException "b") else None
       | cli.get_database_handler cli.default_manager _ =>
           Some (cli.DatabaseNotFoundException "default")
       | _ => None
       end;
     cli.database_info := cli.database_info tools;
     cli.resistance_table_info := cli.resistance_table_info tools;
     cli.string_with_spacing := cli.string_with_spacing tools;
     cli.str_lower := lower;
     cli.str_strip := strip |}.

(** As [tools], but the update of the database in directory [b] and
    the update of the default database fail. *)
Definition tools_failing : @cli.Collaborators string :=
  {| cli.get_default_database_directory := cli.get_default_database_directory tools;
     cli.raises := fun c =>
       match c with
       | cli.handler_update (cli.manager_at directory, _) _ _ =>
           if decide (directory = "b")
           then Some (cli.DatabaseErrorException "b") else None
       | cli.handler_update (cli.default_manager, _) _ _ =>
           Some (cli.DatabaseErrorException "default")
       | _ => None
       end;
     cli.database_info := cli.database_info tools;
     cli.resistance_table_info := cli.resistance_table_info tools;
     cli.string_with_spacing := cli.string_with_spacing tools;
     cli.str_lower := lower;
     cli.str_strip := strip |}.

(** [staramr db build --dir databases --pointfinder-commit abc] *)
Definition args_build : cli.Args :=
  {| cli.db_command := Some "build";
     cli.destination := "databases";
     cli.resfinder_commit := None;
     cli.pointfinder_commit := Some "abc";
     cli.update_default := false;
     cli.directories := [];
     cli.force := false |}.

(** [staramr db update -d a b c] *)
Definition args_update : cli.Args :=
  {| cli.db_command := Some "update";
     cli.destination := "";
     cli.resfinder_commit := None;
     cli.pointfinder_commit := None;
     cli.update_default := true;
     cli.directories := ["a"; "b"; "c"];
     cli.force := false |}.

(** [staramr db update -d] *)
Definition args_update_default : cli.Args :=
  {| cli.db_command := Some "update";
     cli.destination := "";
     cli.resfinder_commit := None;
     cli.pointfinder_commit := None;
     cli.update_default := true;
     cli.directories := [];
     cli.force := false |}.

(** [staramr db info a b c] and [staramr db info] *)
Definition args_info : cli.Args :=
  {| cli.db_command := Some "info";
     cli.destination := "";
     cli.resfinder_commit := None;
     cli.pointfinder_commit := None;
     cli.update_default := false;
     cli.directories := ["a"; "b"; "c"];
     cli.force := false |}.

Definition args_info_default : cli.Args :=
  {| cli.db_command := Some "info";
     cli.destination := "";
     cli.resfinder_commit := None;
     cli.pointfinder_commit := None;
     cli.update_default := false;
     cli.directories := [];
     cli.force := false |}.

(** [staramr db restore] and [staramr db restore --force] *)
Definition args_restore (force : bool) : cli.Args :=
  {| cli.db_command := Some "restore";
     cli.destination := "";
     cli.resfinder_commit := None;
     cli.pointfinder_commit := None;
     cli.update_default := false;
     cli.directories := [];
     cli.force := force |}.

(** A terminal where the directory [databases] exists and the user is
    about to type three lines. *)
Definition terminal : cli.Terminal :=
  {| cli.files := {[ "databases" ]};
     cli.stdin := ["maybe"; " Yes "; "n"];
     cli.trace := [] |}.

(** A terminal without files, where the user types nothing that means
    something. *)
Definition terminal_empty : cli.Terminal :=
  {| cli.files := ∅;
     cli.stdin := ["maybe"; "perhaps"];
     cli.trace := [] |}.

End DbExample.

(** * Properties *)

(** ** Paths *)

Lemma append_cons c (r b : string) : String c r +:+ b = String c (r +:+ b).
Proof. reflexivity. Qed.

Lemma basename_no_sep p : path.has_sep (path.basename p) = false.
Proof.
  induction p as [|c r IH]; simpl; [done|].
  destruct (Ascii.eqb c path.sep) eqn:Hc; [done|].
  destruct (path.has_sep r) eqn:Hr; [done|].
  simpl. by rewrite Hc.
Qed.

Lemma basename_id p : path.has_sep p = false -> path.basename p = p.
Proof.
  destruct p as [|c r]; simpl; [done|].
  destruct (Ascii.eqb c path.sep); [done|]. by intros ->.
Qed.

Lemma has_sep_app a b : path.has_sep (a +:+ b) = path.has_sep a || path.has_sep b.
Proof.
  induction a as [|c r IH]; [done|].
  rewrite append_cons. simpl. by destruct (Ascii.eqb c path.sep).
Qed.

Lemma basename_app_sep a b :
  path.has_sep b = false -> path.basename (a +:+ "/" +:+ b) = b.
Proof.
  intros Hb. induction a as [|c r IH].
  - simpl. by apply basename_id.
  - rewrite append_cons. simpl. rewrite IH. rewrite has_sep_app. simpl.
    rewrite orb_true_r. by destruct (Ascii.eqb c path.sep).
Qed.

Lemma endswith_sep_split a :
  path.endswith_sep a = true -> exists a', a = a' +:+ "/".
Proof.
  induction a as [|c r IH]; simpl; [done|].
  destruct r as [|c' r'].
  - intros Hc. apply Ascii.eqb_eq in Hc. subst c. by exists "".
  - intros Hr. destruct (IH Hr) as [a' Ha']. exists (String c a'). rewrite Ha'. reflexivity.
Qed.

Lemma startswith_no_sep b : path.has_sep b = false -> path.startswith_sep b = false.
Proof.
  destruct b as [|c r]; simpl; [done|]. by destruct (Ascii.eqb c path.sep).
Qed.

Lemma app_assoc_str (a b c : string) : (a +:+ b) +:+ c = a +:+ (b +:+ c).
Proof. induction a as [|x r IH]; [done|]. rewrite !append_cons. by rewrite IH. Qed.

(** The link that is made for an input file goes by the file's own base
    name. *)
Lemma basename_join_basename db_dir file :
  path.basename (path.join db_dir (path.basename file)) = path.basename file.
Proof.
  pose proof (basename_no_sep file) as Hb.
  unfold path.join. rewrite (startswith_no_sep _ Hb).
  destruct (bool_decide (db_dir = "")) eqn:He; simpl.
  - apply bool_decide_eq_true in He. subst db_dir. simpl. by apply basename_id.
  - destruct (path.endswith_sep db_dir) eqn:Hs.
    + destruct (endswith_sep_split _ Hs) as [a' ->].
      rewrite app_assoc_str. by apply basename_app_sep.
    + by apply basename_app_sep.
Qed.

(** Joining onto a directory name that is not empty and has no trailing
    separator puts one separator in between. *)
Lemma join_plain a b :
  a <> "" -> path.endswith_sep a = false -> path.startswith_sep b = false ->
  path.join a b = a +:+ "/" +:+ b.
Proof.
  intros Ha Hs Hb. unfold path.join. rewrite Hb, Hs.
  by rewrite bool_decide_eq_false_2.
Qed.

(** ** Dictionaries *)

Lemma dict_get_None {V} k (d : list (string * V)) :
  dict.get k d = None <-> k ∉ dict.keys d.
Proof.
  unfold dict.keys. induction d as [|[k' v] d IH]; simpl.
  - split; [|done]. intros _. apply not_elem_of_nil.
  - destruct (decide (k' = k)) as [->|Hne].
    + split; [done|]. intros H. exfalso. apply H. left.
    + rewrite IH. rewrite not_elem_of_cons.
      split; [intros ?; split; [congruence | done] | by intros [_ ?]].
Qed.

Lemma dict_get_elem {V} k v (d : list (string * V)) :
  NoDup (dict.keys d) -> (k, v) ∈ d -> dict.get k d = Some v.
Proof.
  unfold dict.keys. induction d as [|[k' v'] d IH]; simpl; intros Hnd Hin.
  - by apply elem_of_nil in Hin.
  - apply NoDup_cons in Hnd as [Hk' Hnd].
    apply elem_of_cons in Hin as [Heq|Hin].
    + inversion Heq; subst. by rewrite decide_True.
    + destruct (decide (k' = k)) as [->|Hne]; [|by apply IH].
      exfalso. apply Hk'. apply list_elem_of_fmap. by exists (k, v).
Qed.

Lemma dict_get_Some_elem {V} k v (d : list (string * V)) :
  dict.get k d = Some v -> (k, v) ∈ d.
Proof.
  induction d as [|[k' v'] d IH]; simpl; [done|].
  destruct (decide (k' = k)) as [->|Hne].
  - intros [= ->]. left.
  - intros H. right. by apply IH.
Qed.

Lemma dict_del_keys {V} k (d : list (string * V)) : k ∉ dict.keys (dict.del k d).
Proof.
  unfold dict.keys. induction d as [|[k' v] d IH]; simpl.
  - apply not_elem_of_nil.
  - destruct (decide (k' = k)); [done|]. simpl. rewrite not_elem_of_cons.
    split; [congruence | done].
Qed.

Lemma dict_del_get_ne {V} k k0 (d : list (string * V)) :
  k0 <> k -> dict.get k0 (dict.del k d) = dict.get k0 d.
Proof.
  intros Hne. induction d as [|[k' v] d IH]; simpl; [done|].
  destruct (decide (k' = k)) as [->|Hk].
  - rewrite IH. by rewrite decide_False.
  - simpl. by rewrite IH.
Qed.

Lemma dict_del_elem {V} k k0 v (d : list (string * V)) :
  (k0, v) ∈ dict.del k d <-> (k0, v) ∈ d /\ k0 <> k.
Proof.
  induction d as [|[k' v'] d IH]; simpl.
  - split; [intros H; by apply elem_of_nil in H | intros [H _]; by apply elem_of_nil in H].
  - destruct (decide (k' = k)) as [->|Hk].
    + rewrite IH, elem_of_cons. split; [intros [? ?]; split; [by right | done]|].
      intros [[Heq|Hin] Hne]; [inversion Heq; congruence | done].
    + rewrite !elem_of_cons, IH. split; [|intros [[?|?] ?]; [by left | by right]].
      intros [Heq|[Hin Hne]]; [inversion Heq; subst; auto | auto].
Qed.

Lemma dict_del_NoDup {V} k (d : list (string * V)) :
  NoDup (dict.keys d) -> NoDup (dict.keys (dict.del k d)).
Proof.
  unfold dict.keys. induction d as [|[k' v] d IH]; simpl; [done|].
  intros Hnd. apply NoDup_cons in Hnd as [Hk' Hnd].
  destruct (decide (k' = k)); [by apply IH|].
  simpl. apply NoDup_cons. split; [|by apply IH].
  intros Hin. apply Hk'. apply list_elem_of_fmap in Hin as [[k1 v1] [-> Hin]].
  apply dict_del_elem in Hin as [Hin _]. apply list_elem_of_fmap. by exists (k1, v1).
Qed.

(** ** Loops *)

Ltac munfold :=
  unfold self_get, self_set, world_get, world_set in *;
  unfold bind, ret, raise, gets, modify, try_except in *.

Lemma for_app {S A} (l1 l2 : list A) (body : A -> M S unit) s :
  for_ (l1 ++ l2) body s =
    match for_ l1 body s with
    | (inl e, s') => (inl e, s')
    | (inr _, s') => for_ l2 body s'
    end.
Proof.
  revert s. induction l1 as [|x l1 IH]; intros s; simpl; [done|].
  unfold bind. destruct (body x s) as [[e|[]] s1]; [done|]. apply IH.
Qed.

(** A loop whose iterations all return. *)
Lemma for_returns {S A} (I : list A -> S -> Prop) (l : list A) (body : A -> M S unit) s s' :
  I [] s ->
  (forall done x s1 s2, I done s1 -> body x s1 = (inr tt, s2) -> I (done ++ [x]) s2) ->
  for_ l body s = (inr tt, s') ->
  I l s'.
Proof.
  intros Hs Hstep. revert s Hs.
  assert (Hgen : forall done s, I done s -> for_ l body s = (inr tt, s') -> I (done ++ l) s').
  { induction l as [|x l IH]; intros done s Hs; simpl.
    - intros [= <-]. by rewrite app_nil_r.
    - unfold bind. destruct (body x s) as [[e|[]] s1] eqn:Hx; [done|].
      intros Hl. rewrite cons_middle, app_assoc. eapply IH; [|done]. eauto. }
  intros s Hs Hl. by apply (Hgen [] s).
Qed.

(** A loop that raises does so in one iteration, after the iterations
    before it returned. *)
Lemma for_raises {S A} (l : list A) (body : A -> M S unit) s e s' :
  for_ l body s = (inl e, s') ->
  exists pre x post s1,
    l = pre ++ x :: post /\ for_ pre body s = (inr tt, s1) /\ body x s1 = (inl e, s').
Proof.
  revert s. induction l as [|x l IH]; intros s; simpl; [done|].
  unfold bind. destruct (body x s) as [[e1|[]] s1] eqn:Hx.
  - intros [= -> ->]. by exists [], x, l, s.
  - intros Hl. destruct (IH _ Hl) as (pre & y & post & s2 & -> & Hpre & Hy).
    exists (x :: pre), y, post, s2. split; [done|]. split; [|done].
    simpl. unfold bind. by rewrite Hx.
Qed.

(** ** What no method changes *)

Section Stable.
Context {S : Type} (R : relation S) `{!PreOrder R}.

Lemma stable_ret {A} (a : A) : stable R (ret a).
Proof. intros s r s' [= <- <-]. reflexivity. Qed.

Lemma stable_raise {A} e : stable R (raise (A := A) e).
Proof. intros s r s' [= <- <-]. reflexivity. Qed.

Lemma stable_gets {A} (f : S -> A) : stable R (gets f).
Proof. intros s r s' [= <- <-]. reflexivity. Qed.

Lemma stable_modify (f : S -> S) : (forall s, R s (f s)) -> stable R (modify f).
Proof. intros Hf s r s' [= <- <-]. apply Hf. Qed.

Lemma stable_bind {A B} (c : M S A) (k : A -> M S B) :
  stable R c -> (forall a, stable R (k a)) -> stable R (bind c k).
Proof.
  intros Hc Hk s r s'. unfold bind.
  destruct (c s) as [[e|a] s1] eqn:Hcs.
  - intros [= <- <-]. eauto.
  - intros Hka. etrans; [eapply Hc | eapply Hk]; eauto.
Qed.

Lemma stable_try_except {A} (c : M S A) (handler : exn -> M S A) :
  stable R c -> (forall e, stable R (handler e)) -> stable R (try_except c handler).
Proof.
  intros Hc Hh s r s'. unfold try_except.
  destruct (c s) as [[e|a] s1] eqn:Hcs.
  - intros He. etrans; [eapply Hc | eapply Hh]; eauto.
  - intros [= <- <-]. eauto.
Qed.

Lemma stable_for {A} (l : list A) (body : A -> M S unit) :
  (forall x, stable R (body x)) -> stable R (for_ l body).
Proof.
  intros Hb. induction l as [|x l IH]; simpl.
  - apply stable_ret.
  - apply stable_bind; auto.
Qed.

Lemma stable_for_in {A} (l : list A) (body : A -> M S unit) :
  (forall x, x ∈ l -> stable R (body x)) -> stable R (for_ l body).
Proof.
  induction l as [|x l IH]; intros Hb; simpl.
  - apply stable_ret.
  - apply stable_bind.
    + apply Hb. apply elem_of_cons. by left.
    + intros _. apply IH. intros y Hy. apply Hb. apply elem_of_cons. by right.
Qed.

Lemma stable_for_collect {A B} (l : list A) (body : A -> M S B) :
  (forall x, stable R (body x)) -> stable R (for_collect l body).
Proof.
  intros Hb. induction l as [|x l IH]; simpl.
  - apply stable_ret.
  - apply stable_bind; [auto|]. intros b. apply stable_bind; [auto|].
    intros bs. apply stable_ret.
Qed.
End Stable.

Global Instance frame_preorder : PreOrder frame.
Proof.
  split.
  - intros s. by split.
  - intros s1 s2 s3 [] []. split; try congruence; [set_solver | auto].
Qed.

Ltac frame_modify :=
  apply stable_modify; intros [h w]; split; simpl; try done; try set_solver; auto.

(** [stable frame] goals are taken apart along the structure of the
    computation. *)
Ltac frame_step :=
  match goal with
  | |- stable frame (bind _ _) => apply stable_bind; [apply _ | | intros ?]
  | |- stable frame (ret _) => apply stable_ret, _
  | |- stable frame (raise _) => apply stable_raise, _
  | |- stable frame (gets _) => apply stable_gets, _
  | |- stable frame (modify _) => frame_modify
  | |- stable frame (for_ _ _) => apply stable_for; [apply _ | intros ?]
  | |- stable frame (for_collect _ _) => apply stable_for_collect; [apply _ | intros ?]
  | |- stable frame (try_except _ _) => apply stable_try_except; [apply _ | | intros ?]
  | |- stable frame (match ?x with _ => _ end) => destruct x
  | |- stable frame (if ?x then _ else _) => destruct x
  end.

Section Frames.
Context (os : External).

Lemma frame_path_exists p : stable frame (path_exists p).
Proof. unfold path_exists, world_get. frame_step. Qed.

Lemma frame_os_mkdir p : stable frame (os_mkdir os p).
Proof.
  unfold os_mkdir, world_set. frame_step; [apply frame_path_exists|].
  repeat frame_step.
Qed.

Lemma frame_os_symlink src dst : stable frame (os_symlink os src dst).
Proof.
  unfold os_symlink, world_set. frame_step; [apply frame_path_exists|].
  repeat frame_step.
Qed.

Lemma frame_submit call : stable frame (submit call).
Proof. unfold submit, self_get, self_set. repeat frame_step. Qed.

Lemma frame_Future_result f : stable frame (Future_result os f).
Proof. unfold Future_result, world_set. repeat frame_step. Qed.

Lemma frame__get_blast_map name : stable frame (_get_blast_map name).
Proof. unfold _get_blast_map, self_get, self_set. repeat frame_step. Qed.

Lemma frame__get_future_blasts_from_map name : stable frame (_get_future_blasts_from_map name).
Proof. unfold _get_future_blasts_from_map, self_get, self_set. repeat frame_step. Qed.

Lemma frame_reset : stable frame (reset os).
Proof.
  unfold reset, shutdown, new_ThreadPoolExecutor, self_get, self_set, world_set.
  repeat frame_step; auto using frame_path_exists, frame_os_mkdir.
Qed.

Lemma frame_schedule_database file blast_database database_name :
  stable frame (schedule_database file blast_database database_name).
Proof.
  unfold schedule_database, self_get, self_set.
  frame_step; [frame_step|]. frame_step; [apply frame_path_exists|].
  frame_step; [frame_step|].
  frame_step; [apply frame__get_blast_map|].
  frame_step; [frame_step|].
  frame_step; [apply frame_submit|].
  frame_step; [apply frame__get_future_blasts_from_map|].
  frame_step.
Qed.

Lemma frame__schedule_blast file blast_database :
  stable frame (_schedule_blast file blast_database).
Proof.
  unfold _schedule_blast. frame_step; [|frame_step].
  frame_step. apply frame_schedule_database.
Qed.

Lemma frame__make_db_from_input_files db_dir files :
  stable frame (_make_db_from_input_files os db_dir files).
Proof.
  unfold _make_db_from_input_files.
  frame_step.
  { frame_step. frame_step; [apply frame_os_symlink|].
    frame_step; [apply frame_submit | frame_step]. }
  frame_step; [|frame_step].
  frame_step.
  - frame_step. apply frame_Future_result.
  - frame_step; frame_step.
Qed.

Lemma frame_run_blasts files : stable frame (run_blasts os files).
Proof.
  unfold run_blasts, self_get.
  frame_step; [frame_step|].
  frame_step; [apply frame__make_db_from_input_files|].
  frame_step. frame_step; [frame_step|]. frame_step.
  frame_step; [frame_step|].
  frame_step; [apply frame__schedule_blast | frame_step].
Qed.

Lemma frame_get_resfinder_outputs : stable frame (get_resfinder_outputs os).
Proof.
  unfold get_resfinder_outputs.
  frame_step; [apply frame__get_future_blasts_from_map|].
  frame_step; [|apply frame__get_blast_map].
  frame_step. apply frame_Future_result.
Qed.

Lemma frame_get_pointfinder_outputs : stable frame (get_pointfinder_outputs os).
Proof.
  unfold get_pointfinder_outputs, is_pointfinder_configured, self_get.
  frame_step; [frame_step|]. frame_step; [|frame_step].
  frame_step; [apply frame__get_future_blasts_from_map|].
  frame_step; [|apply frame__get_blast_map].
  frame_step. apply frame_Future_result.
Qed.

Lemma frame_call m s : frame s (call os m s).
Proof.
  destruct m; simpl.
  - destruct (reset os s) as [r s'] eqn:H. by apply frame_reset in H.
  - destruct (run_blasts os files s) as [r s'] eqn:H. by apply frame_run_blasts in H.
  - reflexivity.
  - destruct (get_resfinder_outputs os s) as [r s'] eqn:H.
    by apply frame_get_resfinder_outputs in H.
  - destruct (get_pointfinder_outputs os s) as [r s'] eqn:H.
    by apply frame_get_pointfinder_outputs in H.
Qed.

Lemma frame_calls ms s : frame s (calls os ms s).
Proof.
  revert s. induction ms as [|m ms IH]; intros s; simpl; [reflexivity|].
  etrans; [apply (frame_call m) | apply IH].
Qed.
End Frames.

(** ** Construction and reset *)

Section Lifecycle.
Context (os : External).

Lemma reset_eq s :
  0 < _threads s.1 ->
  reset os s =
    let s1 := reset_state s in
    let dir := _input_genomes_tmp_dir s.1 in
    if bool_decide (dir ∈ fs s.2) then (inr tt, s1)
    else match mkdir_errno os dir with
         | Some n => (inl (OSError n dir), s1)
         | None => (inr tt, (s1.1, set_fs ({[ dir ]} ∪ fs s1.2) s1.2))
         end.
Proof.
  destruct s as [h w]. simpl. intros Ht.
  unfold reset, reset_state, shutdown, new_ThreadPoolExecutor, os_mkdir, path_exists.
  munfold. simpl.
  destruct (_thread_pool_executor h) as [ex|]; simpl;
    (destruct (decide (_threads h <= 0)); [lia|]); simpl;
    (destruct (bool_decide (_input_genomes_tmp_dir h ∈ fs w)) eqn:Hd; simpl; [done|]);
    rewrite ?Hd; destruct (mkdir_errno os (_input_genomes_tmp_dir h)); done.
Qed.

Lemma reset_nonpositive s r s' :
  _threads s.1 <= 0 -> reset os s = (r, s') -> exists e, r = inl e.
Proof.
  destruct s as [h w]. simpl. intros Ht.
  unfold reset, shutdown, new_ThreadPoolExecutor. munfold. simpl.
  destruct (_thread_pool_executor h) as [ex|]; simpl;
    (destruct (decide (_threads h <= 0)); [|lia]); simpl; intros [= <- <-]; eauto.
Qed.

(** The maps are cleared before the directory is looked at, so they
    are empty also when [mkdir] raises. *)
Lemma reset_clears s r s' :
  0 < _threads s.1 -> reset os s = (r, s') ->
  _blast_map s'.1 = ∅ /\ _future_blasts_map s'.1 = ∅ /\
  _thread_pool_executor s'.1 = Some {| _max_workers := _threads s.1; _work_queue := [] |} /\
  waited s'.2 = waited s.2.
Proof.
  intros Ht. rewrite (reset_eq s Ht). simpl.
  assert (Hw : waited (reset_state s).2 = waited s.2).
  { unfold reset_state. simpl. by destruct (_thread_pool_executor s.1). }
  destruct (bool_decide _); [intros [= <- <-]; done|].
  destruct (mkdir_errno _ _); intros [= <- <-]; done.
Qed.

Lemma reset_returns_dir s s' :
  0 < _threads s.1 -> reset os s = (inr tt, s') -> _input_genomes_tmp_dir s.1 ∈ fs s'.2.
Proof.
  intros Ht. rewrite (reset_eq s Ht). simpl.
  assert (Hfs : fs (reset_state s).2 = fs s.2).
  { unfold reset_state. simpl. by destruct (_thread_pool_executor s.1). }
  destruct (bool_decide _) eqn:Hd.
  - intros [= <-]. rewrite Hfs. by apply bool_decide_eq_true in Hd.
  - destruct (mkdir_errno _ _); [done|]. intros [= <-]. simpl. set_solver.
Qed.

(** In an existing working directory [reset] returns and leaves the
    file system as it is. *)
Lemma reset_existing_dir s :
  0 < _threads s.1 -> _input_genomes_tmp_dir s.1 ∈ fs s.2 ->
  reset os s = (inr tt, reset_state s) /\ fs (reset_state s).2 = fs s.2.
Proof.
  intros Ht Hd. rewrite (reset_eq s Ht). simpl.
  rewrite bool_decide_eq_true_2 by done. split; [done|].
  unfold reset_state. simpl. by destruct (_thread_pool_executor s.1).
Qed.

(** What the constructor leaves when it returns. *)
Lemma init_returns l threads output_directory w h w' :
  __init__ os l threads output_directory w = (inr h, w') ->
  exists t o (entry : option AbstractBlastDatabase),
    threads = Some t /\ output_directory = Some o /\
    dict.get "pointfinder" (heap w !!! l) = Some entry /\
    0 < t /\ _threads h = t /\ _output_directory h = o /\
    _input_genomes_tmp_dir h = path.join o "input-genomes" /\
    _blast_database_objects_map h = l /\
    _pointfinder_configured h = match entry with Some _ => true | None => false end /\
    _blast_map h = ∅ /\ _future_blasts_map h = ∅ /\
    _thread_pool_executor h = Some {| _max_workers := t; _work_queue := [] |} /\
    _input_genomes_tmp_dir h ∈ fs w' /\
    waited w' = waited w /\
    heap w' = match entry with
              | None => <[l := dict.del "pointfinder" (heap w !!! l)]> (heap w)
              | Some _ => heap w
              end.
Proof.
  unfold __init__.
  destruct threads as [t|]; [|done].
  destruct output_directory as [o|]; [|done].
  destruct (dict.get "pointfinder" (heap w !!! l)) as [entry|] eqn:Hget; [|done].
  match goal with |- context [reset os ?s0] => set (s := s0) end.
  destruct (reset os s) as [[e|[]] [h1 w1]] eqn:Hr; [done|].
  intros [= -> ->]. exists t, o, entry.
  destruct (decide (t <= 0)) as [Hle|Hgt].
  { destruct (reset_nonpositive s _ _ Hle Hr) as [e He]. done. }
  assert (Ht : 0 < _threads s.1) by (simpl; lia).
  pose proof (frame_reset os _ _ _ Hr) as Hf.
  pose proof (reset_clears _ _ _ Ht Hr) as (Hbm & Hfm & Hex & Hwt).
  pose proof (reset_returns_dir _ _ Ht Hr) as Hdir.
  destruct Hf as [F1 F2 F3 F4 F5 F6 F7 F8]. simpl in *.
  repeat split; try done; try lia.
  - by rewrite F3.
  - rewrite Hwt. by destruct entry.
  - rewrite F6. by destruct entry.
Qed.

Lemma init_in_use l threads output_directory w h w' :
  __init__ os l threads output_directory w = (inr h, w') -> in_use (h, w').
Proof.
  intros Hi. apply init_returns in Hi
    as (t & o & entry & _ & _ & _ & Ht & Hth & _ & _ & _ & _ & _ & _ & Hex & Hdir & _).
  split; simpl; [lia | done | by rewrite Hex].
Qed.

Lemma frame_in_use s s' : frame s s' -> in_use s -> in_use s'.
Proof.
  intros [F1 F2 F3 F4 F5 F6 F7 F8] [U1 U2 U3].
  split; [lia | rewrite F3; set_solver | auto].
Qed.

Lemma reachable_in_use s : reachable os s -> in_use s.
Proof.
  induction 1 as [l threads output_directory w h w' Hi | s m _ IH].
  - by eapply init_in_use.
  - eapply frame_in_use; [apply frame_call | done].
Qed.
End Lifecycle.

(** ** Results before any run, the optional group, and the shared map *)

Section Configuration.
Context (os : External).

Lemma fresh_maps s :
  fresh os s -> _blast_map s.1 = ∅ /\ _future_blasts_map s.1 = ∅.
Proof.
  destruct 1 as [l threads output_directory w h w' Hi | s s' Hs Hr].
  - apply init_returns in Hi
      as (t & o & entry & _ & _ & _ & _ & _ & _ & _ & _ & _ & Hb & Hf & _). done.
  - pose proof (reachable_in_use os s Hs) as [Ht _ _].
    by destruct (reset_clears os s _ _ Ht Hr) as (Hb & Hf & _).
Qed.

Lemma get_resfinder_outputs_empty s :
  _blast_map s.1 = ∅ -> _future_blasts_map s.1 = ∅ ->
  get_resfinder_outputs os s =
    (inr ∅, (set_blast_map {[ "resfinder" := ∅ ]}
               (set_future_blasts_map {[ "resfinder" := [] ]} s.1), s.2)).
Proof.
  destruct s as [h w]. simpl. intros Hb Hf.
  unfold get_resfinder_outputs, _get_future_blasts_from_map, _get_blast_map.
  munfold. simpl. rewrite Hf, lookup_empty. simpl. rewrite Hb, lookup_empty. simpl.
  by rewrite !insert_empty.
Qed.

(** C7: on a scheduler that was just constructed or just reset,
    [get_resfinder_outputs] called before any [run_blasts] returns the
    empty map; it does not raise and waits for no handle (the world,
    and with it the trace of inspected handles, is left as it was). *)
Theorem get_resfinder_outputs_before_run s :
  fresh os s ->
  exists h', get_resfinder_outputs os s = (inr ∅, (h', s.2)).
Proof.
  intros Hs. destruct (fresh_maps s Hs) as [Hb Hf].
  rewrite (get_resfinder_outputs_empty s Hb Hf). eauto.
Qed.

Lemma not_configured_raises s :
  _pointfinder_configured s.1 = false ->
  is_pointfinder_configured s = (inr false, s) /\
  get_pointfinder_outputs os s =
    (inl (Exception ["Error, pointfinder has not been configured"]), s).
Proof.
  destruct s as [h w]. simpl. intros Hc.
  unfold get_pointfinder_outputs, is_pointfinder_configured. munfold. simpl.
  by rewrite Hc.
Qed.

(** C6: when the constructor is given a map whose [pointfinder] entry
    is [None], the key is gone from the handler's working set once the
    constructor has returned, and from then on, whatever methods are
    called in between, [is_pointfinder_configured] returns [False] and
    [get_pointfinder_outputs] raises the not-configured exception
    instead of returning a map. *)
Theorem pointfinder_not_configured l threads output_directory w h w' :
  __init__ os l threads output_directory w = (inr h, w') ->
  dict.get "pointfinder" (heap w !!! l) = Some None ->
  forall ms,
    let s := calls os ms (h, w') in
    ("pointfinder" ∉ dict.keys (heap s.2 !!! _blast_database_objects_map s.1)) /\
    is_pointfinder_configured s = (inr false, s) /\
    get_pointfinder_outputs os s =
      (inl (Exception ["Error, pointfinder has not been configured"]), s).
Proof.
  intros Hi Hnone ms s.
  apply init_returns in Hi
    as (t & o & entry & _ & _ & Hget & _ & _ & _ & _ & Hl & Hc & _ & _ & _ & _ & _ & Hheap).
  rewrite Hnone in Hget. injection Hget as <-.
  pose proof (frame_calls os ms (h, w')) as [_ _ _ F4 F5 F6 _ _]. fold s in F4, F5, F6.
  simpl in *. split.
  - rewrite F4, F6, Hl, Hheap, lookup_total_insert_eq. apply dict_del_keys.
  - apply not_configured_raises. by rewrite F5.
Qed.

(** C10: the constructor works on the dictionary object that the
    caller passed.  For every call with a thread count and an output
    directory: if the map has no [pointfinder] key the constructor
    raises [KeyError] and changes nothing; if the entry is [None] the
    key is deleted from the caller's own object (location [l] of the
    heap) and from no other, whether or not the constructor goes on to
    return, and a handler that is returned holds that same object; if
    the entry is a database object the dictionaries are left alone. *)
Theorem init_mutates_callers_map l t o w r w' :
  __init__ os l (Some t) (Some o) w = (r, w') ->
  match dict.get "pointfinder" (heap w !!! l) with
  | None => r = inl (KeyError "pointfinder") /\ w' = w
  | Some None =>
      heap w' = <[l := dict.del "pointfinder" (heap w !!! l)]> (heap w) /\
      ("pointfinder" ∉ dict.keys (heap w' !!! l)) /\
      (forall k, k <> "pointfinder" ->
         dict.get k (heap w' !!! l) = dict.get k (heap w !!! l)) /\
      (forall h, r = inr h -> _blast_database_objects_map h = l)
  | Some (Some _) => heap w' = heap w
  end.
Proof.
  unfold __init__.
  destruct (dict.get "pointfinder" (heap w !!! l)) as [entry|] eqn:Hget;
    [|by intros [= <- <-]].
  match goal with |- context [reset os ?s0] => set (s := s0) end.
  destruct (reset os s) as [r1 [h1 w1]] eqn:Hr.
  pose proof (frame_reset os _ _ _ Hr) as [_ _ _ F4 _ F6 _ _]. simpl in F4, F6.
  intros Hrw.
  assert (w' = w1 /\ forall h, r = inr h -> h = h1) as [-> Hh].
  { destruct r1 as [e|[]]; injection Hrw as <- <-; split; congruence. }
  destruct entry as [bd|]; [done|].
  split; [done|]. rewrite F6. simpl. rewrite lookup_total_insert_eq.
  split; [apply dict_del_keys|]. split; [intros k Hk; by apply dict_del_get_ne|].
  intros h Hrh. by rewrite (Hh h Hrh).
Qed.

End Configuration.

(** ** Draining the handles of a group *)

Section Drain.
Context (os : External).

Lemma set_waited_id w : set_waited (waited w) w = w.
Proof. by destruct w. Qed.

Lemma drain_all s (l : list Future) :
  Forall (fun f => outcome os f = inr tt) l ->
  for_ l (Future_result os) s = (inr tt, (s.1, set_waited (waited s.2 ++ l) s.2)).
Proof.
  intros Hl. revert s. induction Hl as [|f l Hf Hl IH]; intros [h w]; simpl.
  - by rewrite app_nil_r, set_waited_id.
  - unfold bind at 1. unfold Future_result at 1. munfold. simpl. rewrite Hf.
    rewrite IH. simpl. by rewrite <- app_assoc.
Qed.

Lemma drain_failure s (pre post : list Future) f e :
  Forall (fun f => outcome os f = inr tt) pre ->
  outcome os f = inl e ->
  for_ (pre ++ f :: post) (Future_result os) s =
    (inl e, (s.1, set_waited (waited s.2 ++ pre ++ [f]) s.2)).
Proof.
  intros Hpre Hf. rewrite for_app, (drain_all s pre Hpre). simpl.
  unfold bind at 1. unfold Future_result at 1. munfold. simpl. rewrite Hf.
  by rewrite <- app_assoc.
Qed.

Lemma _get_future_blasts_from_map_eq s name :
  exists h1, _get_future_blasts_from_map name s = (inr (handles s name), (h1, s.2)) /\
    _blast_map h1 = _blast_map s.1 /\
    _pointfinder_configured h1 = _pointfinder_configured s.1.
Proof.
  destruct s as [h w]. unfold _get_future_blasts_from_map, handles. munfold. simpl.
  destruct (_future_blasts_map h !! name); simpl; eauto.
Qed.

Lemma _get_blast_map_eq s name :
  exists h1, _get_blast_map name s = (inr (group_results s name), (h1, s.2)) /\
    _future_blasts_map h1 = _future_blasts_map s.1.
Proof.
  destruct s as [h w]. unfold _get_blast_map, group_results. munfold. simpl.
  destruct (_blast_map h !! name); simpl; eauto.
Qed.

(** Both getters drain the handles of their group and then read its
    result map. *)
Lemma getter_eq s name get :
  name = "resfinder" /\ get = get_resfinder_outputs os \/
  name = "pointfinder" /\ get = get_pointfinder_outputs os /\
    _pointfinder_configured s.1 = true ->
  exists h1, _blast_map h1 = _blast_map s.1 /\
    get s = match for_ (handles s name) (Future_result os) (h1, s.2) with
            | (inl e, s') => (inl e, s')
            | (inr _, s') => _get_blast_map name s'
            end.
Proof.
  intros Hsel.
  destruct (_get_future_blasts_from_map_eq s name) as (h1 & Hget & Hbm & Hc).
  exists h1. split; [done|].
  destruct Hsel as [[-> ->]|(-> & -> & Hconf)].
  - unfold get_resfinder_outputs. unfold bind at 1. rewrite Hget.
    unfold bind at 1. by destruct (for_ _ _ _) as [[e|[]] s'].
  - unfold get_pointfinder_outputs. unfold bind at 1.
    unfold is_pointfinder_configured, self_get, gets. rewrite Hconf.
    unfold bind at 1. rewrite Hget.
    unfold bind at 1. by destruct (for_ _ _ _) as [[e|[]] s'].
Qed.

(** C5: draining the results of a group ([get_resfinder_outputs], or
    [get_pointfinder_outputs] when the group is configured).  When a
    handle of the group failed, the getter raises the failure of the
    first such handle in the order of the handle list, and the handles
    it waited for are those up to and including that one, none after
    it.  When no handle failed, the getter waits for every handle of
    the group and returns the result map of the group. *)
Theorem drain_raises_first_failure s name get :
  name = "resfinder" /\ get = get_resfinder_outputs os \/
  name = "pointfinder" /\ get = get_pointfinder_outputs os /\
    _pointfinder_configured s.1 = true ->
  (forall pre f post e,
     handles s name = pre ++ f :: post ->
     Forall (fun f => outcome os f = inr tt) pre ->
     outcome os f = inl e ->
     exists h', get s = (inl e, (h', set_waited (waited s.2 ++ pre ++ [f]) s.2))) /\
  (Forall (fun f => outcome os f = inr tt) (handles s name) ->
     exists h', get s = (inr (group_results s name),
                         (h', set_waited (waited s.2 ++ handles s name) s.2))).
Proof.
  intros Hget. destruct (getter_eq s name get Hget) as (h1 & Hbm & ->). split.
  - intros pre f post e -> Hpre Hf.
    rewrite (drain_failure (h1, s.2) pre post f e Hpre Hf). eauto.
  - intros Hall. rewrite (drain_all (h1, s.2) _ Hall). simpl.
    destruct (_get_blast_map_eq (h1, set_waited (waited s.2 ++ handles s name) s.2) name)
      as (h2 & -> & _).
    unfold group_results. simpl. rewrite Hbm. eauto.
Qed.
End Drain.

(** ** Scheduling *)

Section Scheduling.

Lemma schedule_database_eq s file blast_database database_name :
  let j := (file, blast_database, database_name) in
  let out := job_out (_output_directory s.1) j in
  schedule_database file blast_database database_name s =
    if bool_decide (out ∈ fs s.2)
    then (inl (Exception ["Error, blast_out [%s] already exists"; out]), s)
    else match _thread_pool_executor s.1 with
         | Some _ => (inr tt, scheduled s j)
         | None =>
             (inl (AttributeError "'NoneType' object has no attribute 'submit'"),
              (set_blast_map (registered (_blast_map s.1) (get_name blast_database)
                                (path.basename file) database_name out) s.1, s.2))
         end.
Proof.
  destruct s as [h w]. simpl.
  unfold schedule_database, path_exists, _get_blast_map, submit,
    _get_future_blasts_from_map, scheduled, registered, handles, job_out, job_future.
  munfold. simpl.
  destruct (bool_decide _); [done|]. simpl.
  destruct (_blast_map h !! get_name blast_database) as [g|] eqn:Hg; simpl;
    rewrite ?insert_insert_eq;
    (destruct (_thread_pool_executor h) as [ex|]; simpl; [|done]);
    destruct (_future_blasts_map h !! get_name blast_database) as [l|] eqn:Hl; simpl;
    rewrite ?insert_insert_eq; done.
Qed.

Lemma scheduled_world s j : (scheduled s j).2 = s.2.
Proof. done. Qed.

Lemma scheduled_output_directory s j :
  _output_directory (scheduled s j).1 = _output_directory s.1.
Proof. done. Qed.

Lemma scheduled_fold_world js s : (fold_left scheduled js s).2 = s.2.
Proof. revert s. induction js as [|j js IH]; intros s; simpl; [done|]. by rewrite IH. Qed.

Lemma scheduled_fold_output_directory js s :
  _output_directory (fold_left scheduled js s).1 = _output_directory s.1.
Proof. revert s. induction js as [|j js IH]; intros s; simpl; [done|]. by rewrite IH. Qed.

Lemma scheduled_fold_executor js s ex :
  _thread_pool_executor s.1 = Some ex ->
  _thread_pool_executor (fold_left scheduled js s).1 =
    Some {| _max_workers := _max_workers ex;
            _work_queue := _work_queue ex ++ (job_future (_output_directory s.1) <$> js) |}.
Proof.
  revert s ex. induction js as [|j js IH]; intros s ex Hex; simpl.
  - rewrite app_nil_r. by destruct ex.
  - erewrite IH; [|simpl; by rewrite Hex]. simpl. by rewrite <- app_assoc.
Qed.

(** Until an output path exists, every alignment is registered and
    submitted. *)
Lemma schedule_jobs_ok js s :
  is_Some (_thread_pool_executor s.1) ->
  Forall (fun j => job_out (_output_directory s.1) j ∉ fs s.2) js ->
  for_ js schedule_job s = (inr tt, fold_left scheduled js s).
Proof.
  revert s. induction js as [|j js IH]; intros s Hex Hjs; simpl; [done|].
  apply Forall_cons in Hjs as [Hj Hjs].
  unfold bind. unfold schedule_job at 1. destruct j as [[file bd] dn].
  rewrite schedule_database_eq. simpl.
  rewrite bool_decide_eq_false_2 by done.
  destruct Hex as [ex Hex]. rewrite Hex. apply IH.
  - simpl. rewrite Hex. by eexists.
  - done.
Qed.

Lemma schedule_jobs_collision pre j post s :
  is_Some (_thread_pool_executor s.1) ->
  Forall (fun j => job_out (_output_directory s.1) j ∉ fs s.2) pre ->
  job_out (_output_directory s.1) j ∈ fs s.2 ->
  for_ (pre ++ j :: post) schedule_job s =
    (inl (Exception ["Error, blast_out [%s] already exists"; job_out (_output_directory s.1) j]),
     fold_left scheduled pre s).
Proof.
  intros Hex Hpre Hj. rewrite for_app, schedule_jobs_ok by done. simpl.
  unfold bind. unfold schedule_job at 1. destruct j as [[file bd] dn].
  rewrite schedule_database_eq. simpl.
  rewrite scheduled_fold_world, scheduled_fold_output_directory.
  by rewrite bool_decide_eq_true_2.
Qed.

(** A list splits at the first of its elements that has a decidable
    property, if one has. *)
Lemma first_split {A} (P : A -> Prop) `{!forall x, Decision (P x)} (l : list A) :
  Forall (fun x => ¬ P x) l \/
  exists pre x post, l = pre ++ x :: post /\ Forall (fun x => ¬ P x) pre /\ P x.
Proof.
  induction l as [|x l IH]; [by left|].
  destruct (decide (P x)) as [Hx|Hx].
  - right. by exists [], x, l.
  - destruct IH as [Hl|(pre & y & post & -> & Hpre & Hy)].
    + left. by constructor.
    + right. exists (x :: pre), y, post. split; [done|]. split; [by constructor | done].
Qed.

(** *** Entries of the result map *)

Lemma entry_registered bm name file_name database_name out name' file_name' database_name' :
  entry (registered bm name file_name database_name out) name' file_name' database_name' =
    if decide ((name', file_name', database_name') = (name, file_name, database_name))
    then Some out
    else entry bm name' file_name' database_name'.
Proof.
  unfold entry, registered.
  destruct (decide (name' = name)) as [->|Hn].
  - rewrite lookup_insert_eq.
    destruct (decide (file_name' = file_name)) as [->|Hf].
    + rewrite lookup_insert_eq.
      destruct (decide (database_name' = database_name)) as [->|Hd].
      * rewrite lookup_insert_eq. by rewrite decide_True.
      * rewrite lookup_insert_ne by done. rewrite decide_False by congruence.
        destruct (bm !! name) as [g|]; simpl; [|done].
        by destruct (g !! file_name).
    + rewrite lookup_insert_ne by done. rewrite decide_False by congruence.
      by destruct (bm !! name).
  - rewrite lookup_insert_ne by done. by rewrite decide_False by congruence.
Qed.

Lemma entry_scheduled_fold js s name file_name database_name :
  entry (_blast_map (fold_left scheduled js s).1) name file_name database_name =
    if decide ((name, file_name, database_name) ∈ job_key <$> js)
    then Some (blast_out_path (_output_directory s.1) file_name database_name name)
    else entry (_blast_map s.1) name file_name database_name.
Proof.
  revert s. induction js as [|j js IH]; intros s; simpl.
  - done.
  - rewrite IH. simpl. rewrite entry_registered.
    destruct (decide ((name, file_name, database_name) ∈ job_key <$> js)) as [Hin|Hin].
    + rewrite decide_True; [done|]. apply elem_of_cons. by right.
    + destruct (decide ((name, file_name, database_name) = job_key j)) as [Heq|Hne].
      * rewrite decide_True by exact Heq.
        rewrite decide_True by (apply elem_of_cons; by left).
        unfold job_key in Heq. injection Heq as -> -> ->. done.
      * rewrite decide_False by done. rewrite decide_False; [done|].
        rewrite not_elem_of_cons. done.
Qed.

Lemma no_empty_inner_registered bm name file_name database_name out :
  no_empty_inner bm -> no_empty_inner (registered bm name file_name database_name out).
Proof.
  intros Hbm name' g' file_name' inner'. unfold registered.
  destruct (decide (name' = name)) as [->|Hn].
  - rewrite lookup_insert_eq. intros [= <-].
    destruct (decide (file_name' = file_name)) as [->|Hf].
    + rewrite lookup_insert_eq. intros [= <-]. apply insert_non_empty.
    + rewrite lookup_insert_ne by done.
      destruct (bm !! name) as [g|] eqn:Hg; simpl; [|by rewrite lookup_empty].
      intros Hin. by eapply Hbm.
  - rewrite lookup_insert_ne by done. apply Hbm.
Qed.

Lemma no_empty_inner_scheduled_fold js s :
  no_empty_inner (_blast_map s.1) -> no_empty_inner (_blast_map (fold_left scheduled js s).1).
Proof.
  revert s. induction js as [|j js IH]; intros s Hs; simpl; [done|].
  apply IH. simpl. by apply no_empty_inner_registered.
Qed.

(** The key sets of the result map of a group, read off its entries. *)
Lemma group_results_dom s name file_name :
  no_empty_inner (_blast_map s.1) ->
  file_name ∈ dom (group_results s name) <->
  exists database_name, is_Some (entry (_blast_map s.1) name file_name database_name).
Proof.
  intros Hne. unfold group_results, entry. rewrite elem_of_dom.
  destruct (_blast_map s.1 !! name) as [g|] eqn:Hg; simpl.
  - split.
    + intros [inner Hinner]. rewrite Hinner.
      destruct (map_choose inner) as (dn & out & Hdn); [by eapply Hne|].
      exists dn. by rewrite Hdn.
    + intros [dn Hdn]. destruct (g !! file_name); [done|]. by destruct Hdn.
  - rewrite lookup_empty. split; [by intros [? ?]|]. intros [dn Hdn]. by destruct Hdn.
Qed.

Lemma group_results_inner_dom s name file_name (inner : gmap string string) database_name :
  group_results s name !! file_name = Some inner ->
  database_name ∈ dom inner <->
  is_Some (entry (_blast_map s.1) name file_name database_name).
Proof.
  unfold group_results, entry. rewrite elem_of_dom.
  destruct (_blast_map s.1 !! name) as [g|]; simpl; [|by rewrite lookup_empty].
  by intros ->.
Qed.
End Scheduling.

(** ** The loops of [run_blasts] *)

Section RunBlasts.
Context (os : External).

Lemma for_fmap {S A B} (f : A -> B) (l : list A) (body : B -> M S unit) s :
  for_ (f <$> l) body s = for_ l (fun x => body (f x)) s.
Proof.
  revert s. induction l as [|x l IH]; intros s; simpl; [done|].
  unfold bind. destruct (body (f x) s) as [[e|[]] s1]; [done|]. apply IH.
Qed.

Lemma working_dict_frame s s' : frame s s' -> working_dict s' = working_dict s.
Proof. intros [_ _ _ F4 _ F6 _ _]. unfold working_dict. by rewrite F4, F6. Qed.

Lemma frame_schedule_jobs js : stable frame (for_ js schedule_job).
Proof.
  apply stable_for; [apply _|]. intros [[file bd] dn]. apply frame_schedule_database.
Qed.

(** The loop over the groups, for one input file. *)
Lemma schedule_file_eq file d2 s :
  (forall k v, (k, v) ∈ d2 -> dict.get k (working_dict s) = Some v /\ is_Some v) ->
  for_ (dict.keys d2) (fun name =>
    entry <- gets (fun s : State => dict.get name (heap s.2 !!! _blast_database_objects_map s.1)) ;;
    match entry with
    | None => raise (KeyError name)
    | Some database_object => _schedule_blast file database_object
    end) s
  = for_ (jobs_of_file d2 file) schedule_job s.
Proof.
  revert s. induction d2 as [|[k v] d2 IH]; intros s Hd2; [done|].
  destruct (Hd2 k v) as [Hget [bd ->]]; [apply elem_of_cons; by left|].
  change (jobs_of_file ((k, Some bd) :: d2) file)
    with (((fun dn => (file, bd, dn)) <$> get_database_names bd) ++ jobs_of_file d2 file).
  rewrite for_app, for_fmap. simpl.
  unfold bind at 1. unfold bind at 1. unfold gets at 1.
  fold (working_dict s). rewrite Hget. simpl.
  change (fun x : string => schedule_job (file, bd, x)) with (schedule_database file bd).
  destruct (for_ (get_database_names bd) (schedule_database file bd) s)
    as [[e|[]] s1] eqn:Hs1; [done|].
  apply IH. intros k' v' Hin.
  assert (Hf : frame s s1).
  { eapply (frame__schedule_blast file (Some bd)). exact Hs1. }
  rewrite (working_dict_frame _ _ Hf). apply Hd2. apply elem_of_cons. by right.
Qed.

(** The nested loops of [run_blasts] run through the alignments in the
    order of [jobs]. *)
Lemma schedule_all_eq db_files s :
  working_set (working_dict s) ->
  for_ db_files (fun file =>
    names <- gets (fun s : State => dict.keys (heap s.2 !!! _blast_database_objects_map s.1)) ;;
    for_ names (fun name =>
      entry <- gets (fun s : State => dict.get name (heap s.2 !!! _blast_database_objects_map s.1)) ;;
      match entry with
      | None => raise (KeyError name)
      | Some database_object => _schedule_blast file database_object
      end)) s
  = for_ (jobs (working_dict s) db_files) schedule_job s.
Proof.
  revert s. induction db_files as [|file db_files IH]; intros s [Hnd Hsome]; [done|].
  change (jobs (working_dict s) (file :: db_files))
    with (jobs_of_file (working_dict s) file ++ jobs (working_dict s) db_files).
  rewrite for_app. simpl.
  unfold bind at 1. unfold bind at 1. unfold gets at 1.
  fold (working_dict s).
  rewrite schedule_file_eq.
  2:{ intros k v Hin. split; [by apply dict_get_elem | by eapply Hsome]. }
  destruct (for_ (jobs_of_file (working_dict s) file) schedule_job s)
    as [[e|[]] s1] eqn:Hs1; [done|].
  pose proof (frame_schedule_jobs _ _ _ _ Hs1) as Hf.
  rewrite <- (working_dict_frame _ _ Hf). apply IH.
  rewrite (working_dict_frame _ _ Hf). done.
Qed.

Lemma run_blasts_eq files s :
  working_set (working_dict s) ->
  run_blasts os files s =
    match _make_db_from_input_files os (_input_genomes_tmp_dir s.1) files s with
    | (inl e, s1) => (inl e, s1)
    | (inr db_files, s1) => for_ (jobs (working_dict s) db_files) schedule_job s1
    end.
Proof.
  intros Hws. unfold run_blasts. unfold bind at 1. unfold self_get, gets at 1.
  unfold bind at 1.
  destruct (_make_db_from_input_files os (_input_genomes_tmp_dir s.1) files s)
    as [[e|db_files] s1] eqn:Hprep; [done|].
  pose proof (frame__make_db_from_input_files os _ _ _ _ _ Hprep) as Hf.
  rewrite <- (working_dict_frame _ _ Hf). apply schedule_all_eq.
  by rewrite (working_dict_frame _ _ Hf).
Qed.

(** Whatever the configuration, [run_blasts] raises what the
    preparation stage raises, in the state that stage left. *)
Lemma run_blasts_preparation_raises files s e s1 :
  _make_db_from_input_files os (_input_genomes_tmp_dir s.1) files s = (inl e, s1) ->
  run_blasts os files s = (inl e, s1).
Proof.
  intros Hprep. unfold run_blasts. unfold bind at 1. unfold self_get, gets at 1.
  unfold bind at 1. by rewrite Hprep.
Qed.
End RunBlasts.

(** ** The preparation stage *)

Global Instance index_only_preorder : PreOrder index_only.
Proof.
  split.
  - intros s. unfold index_only. repeat split.
    destruct (_thread_pool_executor s.1) as [ex|]; [|done].
    exists []. rewrite app_nil_r. split; [by destruct ex | constructor].
  - intros s1 s2 s3 (B12 & F12 & E12) (B23 & F23 & E23). unfold index_only.
    split; [congruence|]. split; [congruence|].
    destruct (_thread_pool_executor s1.1) as [ex|].
    + destruct E12 as (l1 & E2 & Hl1). rewrite E2 in E23. simpl in E23.
      destruct E23 as (l2 & E3 & Hl2). exists (l1 ++ l2).
      rewrite E3, app_assoc. split; [done|]. by apply Forall_app.
    + by rewrite E12 in E23.
Qed.

Section Preparation.
Context (os : External).

Lemma linked_fold_handler db_dir files s :
  _blast_map (fold_left (linked db_dir) files s).1 = _blast_map s.1 /\
  _future_blasts_map (fold_left (linked db_dir) files s).1 = _future_blasts_map s.1 /\
  _output_directory (fold_left (linked db_dir) files s).1 = _output_directory s.1 /\
  waited (fold_left (linked db_dir) files s).2 = waited s.2.
Proof.
  revert s. induction files as [|file files IH]; intros s; simpl; [done|].
  destruct (IH (linked db_dir s file)) as (-> & -> & -> & ->). done.
Qed.

Lemma linked_fold_executor db_dir files s ex :
  _thread_pool_executor s.1 = Some ex ->
  _thread_pool_executor (fold_left (linked db_dir) files s).1 =
    Some {| _max_workers := _max_workers ex;
            _work_queue := _work_queue ex ++
              (make_blast_db_future <$> (destination db_dir <$> files)) |}.
Proof.
  revert s ex. induction files as [|file files IH]; intros s ex Hex; simpl.
  - rewrite app_nil_r. by destruct ex.
  - erewrite IH; [|simpl; by rewrite Hex]. simpl. by rewrite <- app_assoc.
Qed.

Lemma linked_fold_fs db_dir files s p :
  p ∈ fs (fold_left (linked db_dir) files s).2 <->
  p ∈ destination db_dir <$> files \/ p ∈ fs s.2.
Proof.
  revert s. induction files as [|file files IH]; intros s; simpl.
  - split; [by right|]. intros [H|H]; [by apply elem_of_nil in H | done].
  - rewrite IH. simpl. rewrite elem_of_cons. set_solver.
Qed.

(** The first loop of [_make_db_from_input_files]. *)
Lemma link_files_eq db_dir files s :
  is_Some (_thread_pool_executor s.1) ->
  NoDup (destination db_dir <$> files) ->
  Forall (fun file => (destination db_dir file ∉ fs s.2) /\
                      symlink_errno os (abspath os file) (destination db_dir file) = None)
    files ->
  for_collect files (fun file =>
    let destination := path.join db_dir (path.basename file) in
    os_symlink os (abspath os file) destination ;;
    future <- submit (make_blast_db_future destination) ;;
    ret (destination, future)) s
  = (inr ((fun file => (destination db_dir file,
                         make_blast_db_future (destination db_dir file))) <$> files),
     fold_left (linked db_dir) files s).
Proof.
  revert s. induction files as [|file files IH]; intros s Hex Hnd Hfiles; [done|].
  apply Forall_cons in Hfiles as [[Hfile Herr] Hfiles].
  rewrite fmap_cons in Hnd. apply NoDup_cons in Hnd as [Hnotin Hnd].
  destruct Hex as [ex Hex]. destruct s as [h w]. simpl in *.
  unfold bind at 1. unfold bind at 1. unfold os_symlink at 1, path_exists at 1.
  munfold. simpl. fold (destination db_dir file).
  rewrite bool_decide_eq_false_2 by done. rewrite Herr. simpl.
  unfold submit at 1. munfold. simpl. rewrite Hex. simpl.
  rewrite IH; [by unfold linked; simpl; rewrite Hex | simpl; eauto | done |].
  simpl. apply Forall_forall. intros file' Hin'.
  rewrite Forall_forall in Hfiles. destruct (Hfiles file' Hin') as [Hf' He'].
  split; [|done]. rewrite elem_of_union, elem_of_singleton. intros [Heq|Hin]; [|done].
  apply Hnotin. rewrite <- Heq. apply list_elem_of_fmap. by exists file'.
Qed.

Lemma outcome_make_blast_db p :
  outcome os (make_blast_db_future p) =
    if decide (run_makeblastdb os (makeblastdb_command p) = 0) then inr tt
    else inl (CalledProcessError (run_makeblastdb os (makeblastdb_command p))
                (makeblastdb_command p)).
Proof. done. Qed.

(** The preparation stage when every link can be made and every index
    build exits with status 0. *)
Lemma preparation_returns files s :
  is_Some (_thread_pool_executor s.1) ->
  links_fresh os s files ->
  Forall (fun file =>
    run_makeblastdb os (makeblastdb_command (destination (_input_genomes_tmp_dir s.1) file)) = 0)
    files ->
  let db_dir := _input_genomes_tmp_dir s.1 in
  let s1 := fold_left (linked db_dir) files s in
  _make_db_from_input_files os db_dir files s =
    (inr (destination db_dir <$> files),
     (s1.1, set_waited (waited s.2 ++ (make_blast_db_future <$> (destination db_dir <$> files)))
              s1.2)).
Proof.
  intros Hex [Hnd Hfresh] Hok. simpl.
  unfold _make_db_from_input_files. unfold bind at 1.
  rewrite link_files_eq by done.
  rewrite <- !list_fmap_compose.
  unfold bind at 1. unfold try_except.
  rewrite drain_all.
  - simpl. unfold ret.
    destruct (linked_fold_handler (_input_genomes_tmp_dir s.1) files s) as (_ & _ & _ & ->).
    done.
  - apply Forall_fmap. eapply Forall_impl; [exact Hok|]. intros file Hfile.
    unfold compose. simpl snd. rewrite outcome_make_blast_db. by rewrite decide_True.
Qed.

(** The preparation stage when every link can be made and an index
    build exits with another status than 0: the first such build, in
    the order of the input files, is the one whose failure is wrapped
    and raised. *)
Lemma preparation_raises pre file post s :
  is_Some (_thread_pool_executor s.1) ->
  links_fresh os s (pre ++ file :: post) ->
  let db_dir := _input_genomes_tmp_dir s.1 in
  let command := makeblastdb_command (destination db_dir file) in
  Forall (fun file => run_makeblastdb os (makeblastdb_command (destination db_dir file)) = 0)
    pre ->
  run_makeblastdb os command <> 0 ->
  let s1 := fold_left (linked db_dir) (pre ++ file :: post) s in
  _make_db_from_input_files os db_dir (pre ++ file :: post) s =
    (inl (BlastProcessError "Error running makeblastdb"
            (CalledProcessError (run_makeblastdb os command) command)),
     (s1.1, set_waited (waited s.2 ++ (make_blast_db_future <$> (destination db_dir <$> pre))
                          ++ [make_blast_db_future (destination db_dir file)]) s1.2)).
Proof.
  intros Hex [Hnd Hfresh] db_dir command Hok Hbad s1.
  unfold _make_db_from_input_files. unfold bind at 1.
  rewrite link_files_eq by done.
  rewrite <- !list_fmap_compose.
  unfold bind at 1. unfold try_except.
  rewrite fmap_app, fmap_cons.
  rewrite (drain_failure os _ _ _ _
             (CalledProcessError (run_makeblastdb os command) command)).
  - simpl. unfold raise.
    destruct (linked_fold_handler db_dir (pre ++ file :: post) s) as (_ & _ & _ & ->).
    done.
  - apply Forall_fmap. eapply Forall_impl; [exact Hok|]. intros file' Hfile'.
    unfold compose. simpl snd. rewrite outcome_make_blast_db. by rewrite decide_True.
  - unfold compose. simpl snd. rewrite outcome_make_blast_db. by rewrite decide_False.
Qed.

(** *** Only index builds are submitted *)

Lemma index_only_world h w w' : index_only (h, w) (h, w').
Proof.
  unfold index_only. simpl. repeat split.
  destruct (_thread_pool_executor h) as [ex|]; [|done].
  exists []. rewrite app_nil_r. split; [by destruct ex | constructor].
Qed.

Lemma index_only_os_symlink src dst : stable index_only (os_symlink os src dst).
Proof.
  intros [h w] r [h' w']. unfold os_symlink, path_exists. munfold. simpl.
  destruct (bool_decide _); [intros [= <- <- <-]; apply index_only_world|].
  destruct (symlink_errno _ _ _); intros [= <- <- <-]; apply index_only_world.
Qed.

Lemma index_only_submit p : stable index_only (submit (make_blast_db_future p)).
Proof.
  intros [h w] r [h' w']. unfold submit. munfold. simpl.
  destruct (_thread_pool_executor h) as [ex|] eqn:Hex; intros [= <- <- <-].
  - unfold index_only. simpl. rewrite Hex. repeat split.
    exists [make_blast_db_future p]. split; [done|]. by repeat constructor.
  - reflexivity.
Qed.

Lemma index_only_Future_result f : stable index_only (Future_result os f).
Proof.
  intros [h w] r [h' w']. unfold Future_result. munfold. simpl.
  destruct (outcome os f); intros [= <- <- <-]; apply index_only_world.
Qed.

Lemma index_only__make_db_from_input_files db_dir files :
  stable index_only (_make_db_from_input_files os db_dir files).
Proof.
  unfold _make_db_from_input_files.
  apply stable_bind; [apply _ | |].
  - apply stable_for_collect; [apply _|]. intros file.
    apply stable_bind; [apply _ | apply index_only_os_symlink |]. intros _.
    apply stable_bind; [apply _ | apply index_only_submit |]. intros future.
    apply stable_ret, _.
  - intros made. apply stable_bind; [apply _ | | intros; apply stable_ret, _].
    apply stable_try_except; [apply _ | |].
    + apply stable_for; [apply _|]. intros f. apply index_only_Future_result.
    + intros e. destruct e; apply stable_raise, _.
Qed.

(** C4, as amended: when every link of the input files can be made
    and some index build exits with a status other than 0,
    [run_blasts] raises [BlastProcessError("Error running
    makeblastdb", e)], where [e] is the [CalledProcessError] of the
    first failing build in the order of the input files; in the state
    it leaves, the executor was given index builds only and the result
    and handle maps are as before: no alignment was submitted. *)
Theorem index_build_failure_aborts s files :
  in_use s ->
  links_fresh os s files ->
  let db_dir := _input_genomes_tmp_dir s.1 in
  Exists (fun file =>
    run_makeblastdb os (makeblastdb_command (destination db_dir file)) <> 0) files ->
  exists pre file post s',
    files = pre ++ file :: post /\
    Forall (fun file =>
      run_makeblastdb os (makeblastdb_command (destination db_dir file)) = 0) pre /\
    run_makeblastdb os (makeblastdb_command (destination db_dir file)) <> 0 /\
    run_blasts os files s =
      (inl (BlastProcessError "Error running makeblastdb"
              (CalledProcessError
                 (run_makeblastdb os (makeblastdb_command (destination db_dir file)))
                 (makeblastdb_command (destination db_dir file)))), s') /\
    index_only s s'.
Proof.
  intros [_ _ Hex] Hfresh db_dir Hbad.
  destruct (first_split
    (fun file => run_makeblastdb os (makeblastdb_command (destination db_dir file)) <> 0)
    files) as [Hall|(pre & file & post & -> & Hpre & Hfile)].
  { exfalso. apply Exists_exists in Hbad as (file & Hin & Hfile).
    rewrite Forall_forall in Hall. by apply (Hall file Hin). }
  assert (Hpre0 : Forall (fun file =>
    run_makeblastdb os (makeblastdb_command (destination db_dir file)) = 0) pre).
  { eapply Forall_impl; [exact Hpre|]. simpl. intros file' Hf'.
    by destruct (decide (run_makeblastdb os
                           (makeblastdb_command (destination db_dir file')) = 0)). }
  pose proof (preparation_raises pre file post s Hex Hfresh Hpre0 Hfile) as Hprep.
  simpl in Hprep. fold db_dir in Hprep.
  eexists pre, file, post, _. split; [done|]. split; [done|]. split; [done|].
  split.
  - apply run_blasts_preparation_raises. exact Hprep.
  - eapply index_only__make_db_from_input_files. exact Hprep.
Qed.
End Preparation.

(** ** Output paths and collisions *)

Section OutputPaths.
Context (os : External).

Lemma job_out_key o j : job_out o j = blast_out_path o (job_key j).1.2 (job_key j).2 (job_key j).1.1.
Proof. done. Qed.

Lemma startswith_result_name b x :
  path.has_sep b = false -> path.startswith_sep (b +:+ "." +:+ x) = false.
Proof.
  destruct b as [|c r]; [done|]. rewrite append_cons. simpl.
  by destruct (Ascii.eqb c path.sep).
Qed.

(** C2, as amended: the result file of every alignment that
    [_schedule_blast] schedules for an input file and a group (all
    sub-databases of the group when it returns, those before the
    collision when it raises) is
    [os.path.join(output_dir, file_name + "." + database_name + "." + group_name + ".blast.tsv")],
    both in the call submitted to the executor and in the result map;
    for an output directory that is not empty and does not end with a
    separator this is
    [{output_dir}/{file_name}.{database_name}.{group_name}.blast.tsv]. *)
Theorem blast_out_is_deterministic s file blast_database r s' :
  in_use s ->
  _schedule_blast file (Some blast_database) s = (r, s') ->
  let output_directory := _output_directory s.1 in
  let name := get_name blast_database in
  let file_name := path.basename file in
  let out := fun database_name =>
    path.join output_directory
      (file_name +:+ "." +:+ database_name +:+ "." +:+ name +:+ ".blast.tsv") in
  exists done rest,
    get_database_names blast_database = done ++ rest /\
    (r = inr tt -> rest = []) /\
    (exists ex,
       _thread_pool_executor s.1 = Some ex /\
       _thread_pool_executor s'.1 =
         Some {| _max_workers := _max_workers ex;
                 _work_queue := _work_queue ex ++
                   ((fun dn => launch_blast_future (get_path blast_database dn) file (out dn))
                      <$> done) |}) /\
    (forall dn, dn ∈ done -> entry (_blast_map s'.1) name file_name dn = Some (out dn)) /\
    (output_directory <> "" -> path.endswith_sep output_directory = false ->
     forall dn, out dn = output_directory +:+ "/" +:+ file_name +:+ "." +:+ dn +:+ "."
                           +:+ name +:+ ".blast.tsv").
Proof.
  intros [_ _ [ex Hex]] Hrun output_directory name file_name out.
  simpl in Hrun.
  change (schedule_database file blast_database)
    with (fun dn => schedule_job ((fun dn => (file, blast_database, dn)) dn)) in Hrun.
  rewrite <- for_fmap in Hrun.
  assert (Hdone : forall done,
    fold_left scheduled ((fun dn => (file, blast_database, dn)) <$> done) s = s' ->
    _thread_pool_executor s'.1 =
      Some {| _max_workers := _max_workers ex;
              _work_queue := _work_queue ex ++
                ((fun dn => launch_blast_future (get_path blast_database dn) file (out dn))
                   <$> done) |} /\
    (forall dn, dn ∈ done -> entry (_blast_map s'.1) name file_name dn = Some (out dn))).
  { intros done <-. split.
    - rewrite (scheduled_fold_executor _ s ex Hex). by rewrite <- list_fmap_compose.
    - intros dn Hdn. rewrite entry_scheduled_fold. rewrite decide_True; [done|].
      rewrite <- list_fmap_compose. apply list_elem_of_fmap. by exists dn. }
  assert (Hplain : output_directory <> "" -> path.endswith_sep output_directory = false ->
     forall dn, out dn = output_directory +:+ "/" +:+ file_name +:+ "." +:+ dn +:+ "."
                           +:+ name +:+ ".blast.tsv").
  { intros Hne Hend dn. unfold out. apply join_plain; [done | done |].
    apply startswith_result_name, basename_no_sep. }
  destruct (first_split
    (fun dn => job_out output_directory (file, blast_database, dn) ∈ fs s.2)
    (get_database_names blast_database)) as [Hall|(pre & dn & post & Hnames & Hpre & Hdn)].
  - rewrite schedule_jobs_ok in Hrun; [|by eexists|by apply Forall_fmap].
    injection Hrun as <- Hs'.
    exists (get_database_names blast_database), []. rewrite app_nil_r.
    destruct (Hdone _ Hs') as [Hq He]. repeat split; eauto.
  - rewrite Hnames, fmap_app, fmap_cons in Hrun.
    rewrite schedule_jobs_collision in Hrun; [|by eexists|by apply Forall_fmap|done].
    injection Hrun as <- Hs'.
    exists pre, (dn :: post). destruct (Hdone _ Hs') as [Hq He]. repeat split; eauto.
    intros [=].
Qed.

(** C3: when the preparation stage has returned and the output path
    of some alignment of the run exists, [run_blasts] raises at the
    first such alignment [j] in the order of scheduling.  The executor
    holds the alignments before [j] and neither [j] nor any later one;
    the entry of the result map under the key of [j] is what it was
    before the call; the file system is as the preparation stage left
    it, so the existing file is not touched by the scheduler. *)
Theorem collision_raises_before_submitting s files db_files s1 :
  in_use s ->
  working_set (working_dict s) ->
  _make_db_from_input_files os (_input_genomes_tmp_dir s.1) files s = (inr db_files, s1) ->
  let output_directory := _output_directory s.1 in
  Exists (fun j => job_out output_directory j ∈ fs s1.2) (jobs (working_dict s) db_files) ->
  exists pre j post s',
    jobs (working_dict s) db_files = pre ++ j :: post /\
    Forall (fun j => job_out output_directory j ∉ fs s1.2) pre /\
    job_out output_directory j ∈ fs s1.2 /\
    run_blasts os files s =
      (inl (Exception ["Error, blast_out [%s] already exists"; job_out output_directory j]),
       s') /\
    (exists ex,
       _thread_pool_executor s1.1 = Some ex /\
       _thread_pool_executor s'.1 =
         Some {| _max_workers := _max_workers ex;
                 _work_queue := _work_queue ex ++ (job_future output_directory <$> pre) |}) /\
    entry (_blast_map s'.1) (job_key j).1.1 (job_key j).1.2 (job_key j).2 =
      entry (_blast_map s.1) (job_key j).1.1 (job_key j).1.2 (job_key j).2 /\
    fs s'.2 = fs s1.2.
Proof.
  intros [_ _ Hex] Hws Hprep output_directory Hsome.
  pose proof (frame__make_db_from_input_files os _ _ _ _ _ Hprep)
    as [_ F2 _ _ _ _ _ F8].
  pose proof (index_only__make_db_from_input_files os _ _ _ _ _ Hprep) as (Hbm & _ & _).
  destruct (F8 Hex) as [ex1 Hex1].
  destruct (first_split (fun j => job_out output_directory j ∈ fs s1.2)
              (jobs (working_dict s) db_files))
    as [Hall|(pre & j & post & Hjobs & Hpre & Hj)].
  { exfalso. apply Exists_exists in Hsome as (j & Hin & Hj).
    rewrite Forall_forall in Hall. by apply (Hall j Hin). }
  exists pre, j, post, (fold_left scheduled pre s1).
  split; [done|]. split; [done|]. split; [done|].
  unfold output_directory in *. rewrite <- F2 in *.
  split; [|split; [|split]].
  - rewrite (run_blasts_eq os files s Hws), Hprep, Hjobs.
    apply schedule_jobs_collision; [by eexists | done | done].
  - exists ex1. split; [done|]. by apply scheduled_fold_executor.
  - rewrite entry_scheduled_fold. rewrite decide_False; [by rewrite Hbm|].
    intros Hin. apply list_elem_of_fmap in Hin as (j' & Hkey & Hin').
    rewrite Forall_forall in Hpre. apply (Hpre j' Hin').
    rewrite job_out_key, <- Hkey. rewrite <- surjective_pairing, <- surjective_pairing.
    rewrite <- job_out_key. done.
  - by rewrite scheduled_fold_world.
Qed.
End OutputPaths.

(** ** The key sets of the results *)

Section KeySets.
Context (os : External).

Lemma for_collect_fmap {S A B C} (f : B -> C) (g : A -> C) (l : list A)
    (body : A -> M S B) s bs s' :
  (forall x s1 b s2, body x s1 = (inr b, s2) -> f b = g x) ->
  for_collect l body s = (inr bs, s') ->
  f <$> bs = g <$> l.
Proof.
  intros Hbody. revert s bs s'. induction l as [|x l IH]; intros s bs s'; simpl.
  - by intros [= <- _].
  - unfold bind at 1. destruct (body x s) as [[e|b] s1] eqn:Hx; [done|].
    unfold bind at 1. destruct (for_collect l body s1) as [[e|bs1] s2] eqn:Hl; [done|].
    intros [= <- _]. rewrite !fmap_cons. f_equal; [exact (Hbody _ _ _ _ Hx) | exact (IH _ _ _ Hl)].
Qed.

(** The preparation stage returns the links of the input files, in the
    order of the input files. *)
Lemma preparation_db_files db_dir files s db_files s1 :
  _make_db_from_input_files os db_dir files s = (inr db_files, s1) ->
  db_files = destination db_dir <$> files.
Proof.
  unfold _make_db_from_input_files. unfold bind at 1.
  match goal with |- context [for_collect files ?b s] => set (body := b) end.
  destruct (for_collect files body s) as [[e|made] s0] eqn:Hmade; [done|].
  unfold bind at 1. destruct (try_except _ _ s0) as [[e|[]] s2]; [done|].
  intros [= <- _]. eapply (for_collect_fmap fst); [|exact Hmade].
  intros file sa b sb. unfold body. unfold bind at 1.
  destruct (os_symlink _ _ _ sa) as [[e|[]] sc]; [done|].
  unfold bind at 1. destruct (submit _ sc) as [[e|future] sd]; [done|].
  by intros [= <- _].
Qed.

Lemma drain_handler (l : list Future) s r s' :
  for_ l (Future_result os) s = (r, s') -> s'.1 = s.1.
Proof.
  revert s. induction l as [|f l IH]; intros [h w]; simpl.
  - by intros [= _ <-].
  - unfold bind at 1. unfold Future_result at 1. munfold. simpl.
    destruct (outcome os f) as [e|[]]; [by intros [= _ <-]|].
    intros Hl. by apply IH in Hl.
Qed.

(** A getter that returns, returns the result map of its group. *)
Lemma getter_returns s name get m s' :
  name = "resfinder" /\ get = get_resfinder_outputs os \/
  name = "pointfinder" /\ get = get_pointfinder_outputs os ->
  get s = (inr m, s') ->
  m = group_results s name.
Proof.
  intros Hsel Hget.
  assert (Hsel' : name = "resfinder" /\ get = get_resfinder_outputs os \/
                  name = "pointfinder" /\ get = get_pointfinder_outputs os /\
                    _pointfinder_configured s.1 = true).
  { destruct Hsel as [?|[-> ->]]; [by left|]. right. split; [done|]. split; [done|].
    destruct (_pointfinder_configured s.1) eqn:Hc; [done|].
    destruct (not_configured_raises os s Hc) as [_ Hraise]. congruence. }
  destruct (getter_eq os s name get Hsel') as (h1 & Hbm & Heq).
  rewrite Heq in Hget.
  destruct (for_ (handles s name) (Future_result os) (h1, s.2)) as [[e|[]] s2] eqn:Hdrain;
    [done|].
  apply drain_handler in Hdrain. simpl in Hdrain.
  destruct (_get_blast_map_eq s2 name) as (h2 & Hg & _).
  rewrite Hg in Hget. injection Hget as <- _.
  unfold group_results. by rewrite Hdrain, Hbm.
Qed.

Lemma fresh_in_use s : fresh os s -> in_use s.
Proof.
  destruct 1 as [l threads output_directory w h w' Hi | s s' Hs Hr].
  - by eapply init_in_use.
  - eapply frame_in_use; [eapply frame_reset; exact Hr|]. by apply (reachable_in_use os).
Qed.

Lemma elem_of_jobs_of_file d file j :
  j ∈ jobs_of_file d file <->
  j.1.1 = file /\ (exists k, (k, Some j.1.2) ∈ d) /\ j.2 ∈ get_database_names j.1.2.
Proof.
  unfold jobs_of_file. rewrite list_elem_of_bind. split.
  - intros ([k [bd|]] & Hj & Hkv); simpl in Hj; [|by apply elem_of_nil in Hj].
    apply list_elem_of_fmap in Hj as (dn & -> & Hdn). simpl. eauto.
  - destruct j as [[file' bd] dn]. simpl. intros (-> & [k Hk] & Hdn).
    exists (k, Some bd). split; [|done]. simpl. apply list_elem_of_fmap. by exists dn.
Qed.

Lemma elem_of_jobs d db_files j :
  j ∈ jobs d db_files <->
  j.1.1 ∈ db_files /\ (exists k, (k, Some j.1.2) ∈ d) /\ j.2 ∈ get_database_names j.1.2.
Proof.
  unfold jobs. rewrite list_elem_of_bind. split.
  - intros (file & Hj & Hfile). apply elem_of_jobs_of_file in Hj as (-> & Hk & Hdn). done.
  - intros (Hfile & Hk & Hdn). exists j.1.1. split; [|done].
    by apply elem_of_jobs_of_file.
Qed.

(** A handler that was constructed from a caller's map works on a
    working set, whatever methods were called since. *)
Lemma init_working_set l threads output_directory w h w' ms :
  caller_map (heap w !!! l) ->
  __init__ os l threads output_directory w = (inr h, w') ->
  working_set (working_dict (calls os ms (h, w'))).
Proof.
  intros [Hnd Hsome] Hi.
  rewrite (working_dict_frame _ _ (frame_calls os ms (h, w'))).
  apply init_returns in Hi
    as (t & o & entry & _ & _ & Hget & _ & _ & _ & _ & Hl & _ & _ & _ & _ & _ & _ & Hheap).
  unfold working_dict. simpl. rewrite Hl, Hheap.
  destruct entry as [bd|].
  - split; [done|]. intros k v Hin.
    destruct (decide (k = "pointfinder")) as [->|Hk]; [|by eapply Hsome].
    rewrite (dict_get_elem _ _ _ Hnd Hin) in Hget. injection Hget as ->. by eexists.
  - rewrite lookup_total_insert_eq. split; [by apply dict_del_NoDup|].
    intros k v Hin. apply dict_del_elem in Hin as [Hin Hk]. by eapply Hsome.
Qed.

(** The keys under which the alignments of a run are registered, for a
    group of a valid configuration. *)
Lemma job_keys_of_group d db_dir files name blast_database file_name database_name :
  valid_configuration d ->
  (name, Some blast_database) ∈ d ->
  (name, file_name, database_name) ∈ job_key <$> jobs d (destination db_dir <$> files) <->
  file_name ∈ path.basename <$> files /\
  database_name ∈ get_database_names blast_database.
Proof.
  intros [[Hnd Hsome] Hnames] Hbd. rewrite list_elem_of_fmap. split.
  - intros ([[dfile bd'] dn] & Hkey & Hj). unfold job_key in Hkey. simpl in Hkey.
    injection Hkey as -> -> ->.
    apply elem_of_jobs in Hj as (Hfile & [k Hk] & Hdn). simpl in *.
    apply list_elem_of_fmap in Hfile as (file & -> & Hfile).
    pose proof (Hnames _ _ Hk) as Hk'. subst k.
    pose proof (dict_get_elem _ _ _ Hnd Hk) as G1.
    pose proof (dict_get_elem _ _ _ Hnd Hbd) as G2.
    rewrite G1 in G2. injection G2 as ->.
    split; [|done]. unfold destination. rewrite basename_join_basename.
    apply list_elem_of_fmap. by exists file.
  - intros [Hfile Hdn]. apply list_elem_of_fmap in Hfile as (file & -> & Hfile).
    exists (destination db_dir file, blast_database, database_name). split.
    + unfold job_key. simpl. unfold destination. rewrite basename_join_basename.
      by rewrite (Hnames _ _ Hbd).
    + apply elem_of_jobs. simpl. split; [|by eauto].
      apply list_elem_of_fmap. by exists file.
Qed.

(** C1, as amended: on a scheduler that was just constructed or just
    reset, with a valid configuration, for a configured group that has
    at least one sub-database: when [run_blasts(files)] returns and the
    getter of the group returns, the keys of the returned map are the
    base names of the input files, and under every key the keys are the
    names of the sub-databases of the group. *)
Theorem results_key_sets s files name get blast_database s1 m s2 :
  fresh os s ->
  valid_configuration (working_dict s) ->
  (name, Some blast_database) ∈ working_dict s ->
  get_database_names blast_database <> [] ->
  name = "resfinder" /\ get = get_resfinder_outputs os \/
  name = "pointfinder" /\ get = get_pointfinder_outputs os ->
  run_blasts os files s = (inr tt, s1) ->
  get s1 = (inr m, s2) ->
  dom m = list_to_set (path.basename <$> files) /\
  forall file_name (inner : gmap string string),
    m !! file_name = Some inner ->
    dom inner = list_to_set (get_database_names blast_database).
Proof.
  intros Hfresh Hvalid Hbd Hnonempty Hsel Hrun Hget.
  pose proof (fresh_in_use s Hfresh) as [_ _ Hex].
  destruct (fresh_maps os s Hfresh) as [Hbm0 _].
  rewrite (getter_returns s1 name get m s2 Hsel Hget).
  rewrite (run_blasts_eq os files s (proj1 Hvalid)) in Hrun.
  destruct (_make_db_from_input_files os (_input_genomes_tmp_dir s.1) files s)
    as [[e|db_files] s0] eqn:Hprep; [done|].
  pose proof (preparation_db_files _ _ _ _ _ Hprep) as ->.
  pose proof (frame__make_db_from_input_files os _ _ _ _ _ Hprep)
    as [_ F2 _ _ _ _ _ F8].
  pose proof (index_only__make_db_from_input_files os _ _ _ _ _ Hprep) as (Hbm & _ & _).
  set (js := jobs (working_dict s) (destination (_input_genomes_tmp_dir s.1) <$> files)) in *.
  assert (Hs1 : s1 = fold_left scheduled js s0).
  { destruct (first_split (fun j => job_out (_output_directory s0.1) j ∈ fs s0.2) js)
      as [Hall|(pre & j & post & Hjs & Hpre & Hj)].
    - rewrite schedule_jobs_ok in Hrun by auto. congruence.
    - rewrite Hjs, schedule_jobs_collision in Hrun by auto. done. }
  assert (Hentry : forall file_name database_name,
    is_Some (entry (_blast_map s1.1) name file_name database_name) <->
    file_name ∈ path.basename <$> files /\
    database_name ∈ get_database_names blast_database).
  { intros file_name database_name. rewrite Hs1, entry_scheduled_fold.
    rewrite <- (job_keys_of_group (working_dict s) (_input_genomes_tmp_dir s.1) files
                  name blast_database file_name database_name Hvalid Hbd).
    fold js. destruct (decide _) as [Hin|Hin].
    - split; [done|]. by eexists.
    - rewrite Hbm, Hbm0. unfold entry. rewrite lookup_empty.
      split; [by intros [? ?] | done]. }
  assert (Hne : no_empty_inner (_blast_map s1.1)).
  { rewrite Hs1. apply no_empty_inner_scheduled_fold. rewrite Hbm, Hbm0.
    intros ? ? ? ?. by rewrite lookup_empty. }
  split.
  - apply set_eq. intros file_name.
    rewrite (group_results_dom s1 name file_name Hne), elem_of_list_to_set. split.
    + intros [dn Hdn]. by apply Hentry in Hdn as [? _].
    + intros Hfile.
      assert (Hdn : exists dn, dn ∈ get_database_names blast_database).
      { destruct (get_database_names blast_database) as [|dn dns]; [done|].
        exists dn. apply elem_of_cons. by left. }
      destruct Hdn as [dn Hdn]. exists dn. by apply Hentry.
  - intros file_name inner Hinner. apply set_eq. intros dn.
    rewrite (group_results_inner_dom s1 name file_name inner dn Hinner), elem_of_list_to_set.
    rewrite Hentry. split; [by intros [_ ?]|]. intros Hdn. split; [|done].
    assert (Hdom : file_name ∈ dom (group_results s1 name)) by (apply elem_of_dom; eauto).
    apply (group_results_dom s1 name file_name Hne) in Hdom as [dn' Hdn'].
    by apply Hentry in Hdn' as [? _].
Qed.
End KeySets.

(** ** Reset, and the run after it *)

Global Instance adds_only_preorder db_files : PreOrder (adds_only db_files).
Proof.
  split.
  - intros s. split; intros; by left.
  - intros s1 s2 s3 [E12 H12] [E23 H23]. split.
    + intros name file_name dn H3. destruct (E23 _ _ _ H3) as [H2|?]; [|by right]. auto.
    + intros name f H3. destruct (H23 _ _ H3) as [H2|?]; [|by right]. auto.
Qed.

Section AfterReset.
Context (os : External).

Lemma adds_only_same db_files s s' :
  _blast_map s'.1 = _blast_map s.1 ->
  _future_blasts_map s'.1 = _future_blasts_map s.1 ->
  adds_only db_files s s'.
Proof.
  intros Hb Hf. split.
  - intros name file_name dn. rewrite Hb. by left.
  - intros name f. unfold handles. rewrite Hf. by left.
Qed.

Lemma registered_adds (db_files : list string) bm file blast_database dn out name file_name database_name :
  file ∈ db_files ->
  is_Some (entry (registered bm (get_name blast_database) (path.basename file) dn out)
             name file_name database_name) ->
  is_Some (entry bm name file_name database_name) \/
  exists file, file ∈ db_files /\ file_name = path.basename file.
Proof.
  intros Hfile. rewrite entry_registered.
  destruct (decide _) as [Heq|Hne]; [|by left].
  injection Heq as -> -> ->. right. by exists file.
Qed.

Lemma adds_only_schedule_database (db_files : list string) file blast_database dn :
  file ∈ db_files ->
  stable (adds_only db_files) (schedule_database file blast_database dn).
Proof.
  intros Hfile s r s'. rewrite schedule_database_eq. simpl.
  destruct (bool_decide _); [intros [= <- <-]; reflexivity|].
  destruct (_thread_pool_executor s.1) as [ex|]; intros [= <- <-].
  - split.
    + intros name file_name database_name. simpl. by apply registered_adds.
    + intros name f. unfold handles at 1. simpl.
      destruct (decide (name = get_name blast_database)) as [->|Hne].
      * rewrite lookup_insert_eq. simpl. rewrite elem_of_app, list_elem_of_singleton.
        intros [Hf| ->]; [by left|]. right. unfold job_future. simpl. eauto.
      * rewrite lookup_insert_ne by done. by left.
  - split.
    + intros name file_name database_name. simpl. by apply registered_adds.
    + intros name f. by left.
Qed.

Lemma adds_only__schedule_blast (db_files : list string) file blast_database :
  file ∈ db_files ->
  stable (adds_only db_files) (_schedule_blast file blast_database).
Proof.
  intros Hfile. unfold _schedule_blast.
  destruct blast_database; [|apply stable_raise, _].
  apply stable_for; [apply _|]. intros dn. by apply adds_only_schedule_database.
Qed.

(** What a run adds to the maps is for the links of its own input
    files. *)
Lemma adds_only_run_blasts files s r s' :
  run_blasts os files s = (r, s') ->
  adds_only (destination (_input_genomes_tmp_dir s.1) <$> files) s s'.
Proof.
  unfold run_blasts. unfold bind at 1. unfold self_get, gets at 1. unfold bind at 1.
  destruct (_make_db_from_input_files os (_input_genomes_tmp_dir s.1) files s)
    as [[e|db_files] s1] eqn:Hprep.
  - intros [= <- <-].
    destruct (index_only__make_db_from_input_files os _ _ _ _ _ Hprep) as (Hb & Hf & _).
    by apply adds_only_same.
  - intros Hloop.
    destruct (index_only__make_db_from_input_files os _ _ _ _ _ Hprep) as (Hb & Hf & _).
    pose proof (preparation_db_files os _ _ _ _ _ Hprep) as ->.
    etrans; [by apply adds_only_same|].
    revert Hloop. apply stable_for_in; [apply _|]. intros file Hfile.
    apply stable_bind; [apply _ | apply stable_gets, _ |]. intros names.
    apply stable_for; [apply _|]. intros name.
    apply stable_bind; [apply _ | apply stable_gets, _ |].
    intros [database_object|]; [by apply adds_only__schedule_blast | apply stable_raise, _].
Qed.

(** C8: [reset] can be called any number of times.  On a handler in
    use, after any number [n] of resets a further [reset] returns,
    leaves the result map and the handle map empty, and leaves the file
    system as it was: the working directory, which exists, is neither
    made again nor removed.  A run that follows sees nothing of earlier
    runs: whatever it leaves in the result map is under the base name of
    one of its own input files, and every handle it leaves is an
    alignment against the link of one of its own input files. *)
Theorem reset_any_number_of_times s n :
  reachable os s ->
  let s_n := calls os (replicate n call_reset) s in
  exists s', reset os s_n = (inr tt, s') /\
    _blast_map s'.1 = ∅ /\ _future_blasts_map s'.1 = ∅ /\
    _input_genomes_tmp_dir s'.1 ∈ fs s'.2 /\
    fs s'.2 = fs s.2 /\
    forall files,
      let s'' := (run_blasts os files s').2 in
      (forall name file_name database_name,
         is_Some (entry (_blast_map s''.1) name file_name database_name) ->
         file_name ∈ path.basename <$> files) /\
      (forall name f,
         f ∈ handles s'' name ->
         exists query file output,
           f = launch_blast_future query (destination (_input_genomes_tmp_dir s'.1) file) output /\
           file ∈ files).
Proof.
  intros Hs. simpl.
  assert (Hn : reachable os (calls os (replicate n call_reset) s) /\
               fs (calls os (replicate n call_reset) s).2 = fs s.2).
  { revert s Hs. induction n as [|n IH]; intros s Hs; simpl; [done|].
    pose proof (reachable_in_use os s Hs) as [Ht Hd _].
    destruct (reset_existing_dir os s Ht Hd) as [Hr Hfs].
    destruct (IH (reset os s).2) as [IH1 IH2].
    { by apply (reachable_call os s call_reset). }
    split; [done|]. rewrite IH2, Hr. done. }
  destruct Hn as [Hreach Hfs].
  pose proof (reachable_in_use os _ Hreach) as [Ht Hd _].
  destruct (reset_existing_dir os _ Ht Hd) as [Hr Hfs'].
  eexists. split; [exact Hr|].
  destruct (reset_clears os _ _ _ Ht Hr) as (Hb & Hf & _).
  split; [done|]. split; [done|]. split; [|split; [congruence|]].
  { rewrite Hfs'. pose proof (frame_reset os _ _ _ Hr) as [_ _ F3 _ _ _ _ _].
    by rewrite F3. }
  intros files.
  destruct (run_blasts os files (reset_state (calls os (replicate n call_reset) s)))
    as [r s''] eqn:Hrun.
  destruct (adds_only_run_blasts _ _ _ _ Hrun) as [He Hh]. simpl. split.
  - intros name file_name dn Hin. destruct (He _ _ _ Hin) as [Hold|(file & Hfile & ->)].
    + rewrite Hb in Hold. unfold entry in Hold. rewrite lookup_empty in Hold.
      by destruct Hold.
    + apply list_elem_of_fmap in Hfile as (file0 & -> & Hfile0).
      unfold destination. rewrite basename_join_basename.
      apply list_elem_of_fmap. by exists file0.
  - intros name f Hin. destruct (Hh _ _ Hin) as [Hold|(query & file & output & -> & Hfile)].
    + unfold handles in Hold. rewrite Hf, lookup_empty in Hold. simpl in Hold.
      by apply elem_of_nil in Hold.
    + apply list_elem_of_fmap in Hfile as (file0 & -> & Hfile0). eauto.
Qed.
End AfterReset.

(** ** The theorems at work on the example data *)

Lemma check_configuration_valid d : check_configuration d = true -> valid_configuration d.
Proof.
  unfold check_configuration. intros H. apply andb_true_iff in H as [Hnd Hall].
  apply bool_decide_eq_true in Hnd. rewrite forallb_forall in Hall.
  split; [split; [done|] |].
  - intros k v Hin. apply list_elem_of_In in Hin. specialize (Hall _ Hin). simpl in Hall.
    by destruct v.
  - intros k bd Hin. apply list_elem_of_In in Hin. specialize (Hall _ Hin). simpl in Hall.
    by apply bool_decide_eq_true in Hall.
Defined.

Lemma get_resfinder_outputs_before_run_witness :
  fresh Example.tool_ok Example.s_res /\
  exists h', get_resfinder_outputs Example.tool_ok Example.s_res
             = (inr ∅, (h', Example.s_res.2)).
Proof.
  assert (H : fresh Example.tool_ok Example.s_res).
  { apply (fresh_init Example.tool_ok 0%nat (Some 2) (Some "out") (Example.world_of Example.d_res)).
    vm_compute. reflexivity. }
  split; [exact H|].
  exact (get_resfinder_outputs_before_run Example.tool_ok Example.s_res H).
Defined.

Lemma pointfinder_not_configured_witness :
  __init__ Example.tool_ok 0%nat (Some 2) (Some "out") (Example.world_of Example.d_res)
    = (inr Example.s_res.1, Example.s_res.2) /\
  dict.get "pointfinder" (heap (Example.world_of Example.d_res) !!! 0%nat) = Some None /\
  forall ms,
    let s := calls Example.tool_ok ms (Example.s_res.1, Example.s_res.2) in
    ("pointfinder" ∉ dict.keys (heap s.2 !!! _blast_database_objects_map s.1)) /\
    is_pointfinder_configured s = (inr false, s) /\
    get_pointfinder_outputs Example.tool_ok s =
      (inl (Exception ["Error, pointfinder has not been configured"]), s).
Proof.
  assert (H1 : __init__ Example.tool_ok 0%nat (Some 2) (Some "out")
                 (Example.world_of Example.d_res)
               = (inr Example.s_res.1, Example.s_res.2)) by (vm_compute; reflexivity).
  assert (H2 : dict.get "pointfinder" (heap (Example.world_of Example.d_res) !!! 0%nat)
               = Some None) by (vm_compute; reflexivity).
  split; [exact H1|]. split; [exact H2|].
  exact (pointfinder_not_configured Example.tool_ok _ _ _ _ _ _ H1 H2).
Defined.

Lemma init_mutates_callers_map_witness :
  __init__ Example.tool_ok 0%nat (Some 2) (Some "out") (Example.world_of Example.d_res)
    = (inr Example.s_res.1, Example.s_res.2) /\
  heap Example.s_res.2
    = <[0%nat := dict.del "pointfinder" (heap (Example.world_of Example.d_res) !!! 0%nat)]>
        (heap (Example.world_of Example.d_res)) /\
  ("pointfinder" ∉ dict.keys (heap Example.s_res.2 !!! 0%nat)) /\
  (forall k, k <> "pointfinder" ->
     dict.get k (heap Example.s_res.2 !!! 0%nat)
     = dict.get k (heap (Example.world_of Example.d_res) !!! 0%nat)) /\
  (forall h, (inr Example.s_res.1 : result BlastHandler) = inr h ->
     _blast_database_objects_map h = 0%nat).
Proof.
  assert (H1 : __init__ Example.tool_ok 0%nat (Some 2) (Some "out")
                 (Example.world_of Example.d_res)
               = (inr Example.s_res.1, Example.s_res.2)) by (vm_compute; reflexivity).
  split; [exact H1|].
  exact (init_mutates_callers_map Example.tool_ok 0%nat 2 "out" _ _ _ H1).
Defined.

Lemma reset_any_number_of_times_witness :
  let os := Example.tool_ok in
  let s := calls os [call_run_blasts ["x.fa"]; call_get_resfinder_outputs] Example.s_res in
  reachable os s /\
  (* what the run has left in the two maps *)
  entry (_blast_map s.1) "resfinder" "x.fa" "a" = Some "out/x.fa.a.resfinder.blast.tsv" /\
  handles s "resfinder" =
    [launch_blast_future "db/a.fsa" "out/input-genomes/x.fa" "out/x.fa.a.resfinder.blast.tsv";
     launch_blast_future "db/b.fsa" "out/input-genomes/x.fa" "out/x.fa.b.resfinder.blast.tsv"] /\
  (* the first reset after the run *)
  (let s_n := calls os (replicate 0 call_reset) s in
   exists s', reset os s_n = (inr tt, s') /\
     _blast_map s'.1 = ∅ /\ _future_blasts_map s'.1 = ∅ /\
     _input_genomes_tmp_dir s'.1 ∈ fs s'.2 /\
     fs s'.2 = fs s.2 /\
     forall files,
       let s'' := (run_blasts os files s').2 in
       (forall name file_name database_name,
          is_Some (entry (_blast_map s''.1) name file_name database_name) ->
          file_name ∈ path.basename <$> files) /\
       (forall name f,
          f ∈ handles s'' name ->
          exists query file output,
            f = launch_blast_future query (destination (_input_genomes_tmp_dir s'.1) file) output /\
            file ∈ files)) /\
  (* a reset after two more resets *)
  (let s_n := calls os (replicate 2 call_reset) s in
   exists s', reset os s_n = (inr tt, s') /\
     _blast_map s'.1 = ∅ /\ _future_blasts_map s'.1 = ∅ /\
     _input_genomes_tmp_dir s'.1 ∈ fs s'.2 /\
     fs s'.2 = fs s.2 /\
     forall files,
       let s'' := (run_blasts os files s').2 in
       (forall name file_name database_name,
          is_Some (entry (_blast_map s''.1) name file_name database_name) ->
          file_name ∈ path.basename <$> files) /\
       (forall name f,
          f ∈ handles s'' name ->
          exists query file output,
            f = launch_blast_future query (destination (_input_genomes_tmp_dir s'.1) file) output /\
            file ∈ files)) /\
  (* the run on [z.fa] that follows the reset holds nothing of [x.fa] *)
  (let s'' := (run_blasts os ["z.fa"] (reset os s).2).2 in
   entry (_blast_map s''.1) "resfinder" "x.fa" "a" = None /\
   entry (_blast_map s''.1) "resfinder" "z.fa" "a" = Some "out/z.fa.a.resfinder.blast.tsv" /\
   handles s'' "resfinder" =
     [launch_blast_future "db/a.fsa" "out/input-genomes/z.fa" "out/z.fa.a.resfinder.blast.tsv";
      launch_blast_future "db/b.fsa" "out/input-genomes/z.fa" "out/z.fa.b.resfinder.blast.tsv"]).
Proof.
  intros os s.
  assert (H : reachable os s).
  { apply (reachable_call os _ call_get_resfinder_outputs),
          (reachable_call os _ (call_run_blasts ["x.fa"])).
    apply (reachable_init os 0%nat (Some 2) (Some "out") (Example.world_of Example.d_res)).
    vm_compute. reflexivity. }
  split; [exact H|].
  split; [vm_compute; reflexivity|].
  split; [vm_compute; reflexivity|].
  split; [exact (reset_any_number_of_times os s 0 H)|].
  split; [exact (reset_any_number_of_times os s 2 H)|].
  repeat split; vm_compute; reflexivity.
Defined.

Lemma drain_raises_first_failure_witness :
  let os := Example.tool_bad_blast in
  let s := (run_blasts os ["x.fa"; "y.fa"] Example.s_res).2 in
  let name := "resfinder" in
  let get := get_resfinder_outputs os in
  (* the handles of the group: the second one failed, two come after it *)
  let pre :=
    [launch_blast_future "db/a.fsa" "out/input-genomes/x.fa" "out/x.fa.a.resfinder.blast.tsv"] in
  let f :=
    launch_blast_future "db/b.fsa" "out/input-genomes/x.fa" "out/x.fa.b.resfinder.blast.tsv" in
  let post :=
    [launch_blast_future "db/a.fsa" "out/input-genomes/y.fa" "out/y.fa.a.resfinder.blast.tsv";
     launch_blast_future "db/b.fsa" "out/input-genomes/y.fa" "out/y.fa.b.resfinder.blast.tsv"] in
  let e :=
    Exception ["error with [blastn -query db/b.fsa -db out/input-genomes/x.fa], stderr=BLAST Database error"] in
  (name = "resfinder" /\ get = get_resfinder_outputs os \/
   name = "pointfinder" /\ get = get_pointfinder_outputs os /\
     _pointfinder_configured s.1 = true) /\
  handles s name = pre ++ f :: post /\
  Forall (fun f => outcome os f = inr tt) pre /\
  outcome os f = inl e /\
  (exists h', get s = (inl e, (h', set_waited (waited s.2 ++ pre ++ [f]) s.2))) /\
  (* the same run when no alignment fails *)
  let os2 := Example.tool_ok in
  let s2 := (run_blasts os2 ["x.fa"; "y.fa"] Example.s_res).2 in
  let get2 := get_resfinder_outputs os2 in
  (name = "resfinder" /\ get2 = get_resfinder_outputs os2 \/
   name = "pointfinder" /\ get2 = get_pointfinder_outputs os2 /\
     _pointfinder_configured s2.1 = true) /\
  handles s2 name = pre ++ f :: post /\
  Forall (fun f => outcome os2 f = inr tt) (handles s2 name) /\
  exists h', get2 s2 = (inr (group_results s2 name),
                        (h', set_waited (waited s2.2 ++ handles s2 name) s2.2)).
Proof.
  intros os s name get pre f post e.
  assert (H1 : name = "resfinder" /\ get = get_resfinder_outputs os \/
               name = "pointfinder" /\ get = get_pointfinder_outputs os /\
                 _pointfinder_configured s.1 = true).
  { left. split; reflexivity. }
  assert (H2 : handles s name = pre ++ f :: post) by (vm_compute; reflexivity).
  assert (H3 : Forall (fun f => outcome os f = inr tt) pre).
  { repeat constructor. }
  assert (H4 : outcome os f = inl e) by (vm_compute; reflexivity).
  split; [exact H1|]. split; [exact H2|]. split; [exact H3|]. split; [exact H4|].
  split; [exact (proj1 (drain_raises_first_failure os s name get H1) pre f post e H2 H3 H4)|].
  intros os2 s2 get2.
  assert (H5 : name = "resfinder" /\ get2 = get_resfinder_outputs os2 \/
               name = "pointfinder" /\ get2 = get_pointfinder_outputs os2 /\
                 _pointfinder_configured s2.1 = true).
  { left. split; reflexivity. }
  assert (H6 : handles s2 name = pre ++ f :: post) by (vm_compute; reflexivity).
  assert (H7 : Forall (fun f => outcome os2 f = inr tt) (handles s2 name)).
  { rewrite H6. repeat constructor. }
  split; [exact H5|]. split; [exact H6|]. split; [exact H7|].
  exact (proj2 (drain_raises_first_failure os2 s2 name get2 H5) H7).
Defined.

Lemma index_build_failure_aborts_witness :
  let os := Example.tool_bad_index in
  let s := Example.s_res in
  let files := ["x.fa"; "genomes/y.fa"] in
  let db_dir := _input_genomes_tmp_dir s.1 in
  in_use s /\
  links_fresh os s files /\
  Exists (fun file =>
    run_makeblastdb os (makeblastdb_command (destination db_dir file)) <> 0) files /\
  exists pre file post s',
    files = pre ++ file :: post /\
    Forall (fun file =>
      run_makeblastdb os (makeblastdb_command (destination db_dir file)) = 0) pre /\
    run_makeblastdb os (makeblastdb_command (destination db_dir file)) <> 0 /\
    run_blasts os files s =
      (inl (BlastProcessError "Error running makeblastdb"
              (CalledProcessError
                 (run_makeblastdb os (makeblastdb_command (destination db_dir file)))
                 (makeblastdb_command (destination db_dir file)))), s') /\
    index_only s s'.
Proof.
  intros os s files db_dir.
  assert (H1 : in_use s).
  { split; [simpl; lia | compute_done | simpl; eauto]. }
  assert (H2 : links_fresh os s files).
  { split; compute_done. }
  assert (H3 : Exists (fun file =>
    run_makeblastdb os (makeblastdb_command (destination db_dir file)) <> 0) files).
  { apply Exists_cons_hd. simpl. lia. }
  split; [exact H1|]. split; [exact H2|]. split; [exact H3|].
  exact (index_build_failure_aborts os s files H1 H2 H3).
Defined.

Lemma blast_out_is_deterministic_witness :
  let s := Example.s_res in
  let file := "out/input-genomes/x.fa" in
  let blast_database := Example.resfinder in
  let s' := (_schedule_blast file (Some blast_database) s).2 in
  let r : result unit := inr tt in
  in_use s /\
  _schedule_blast file (Some blast_database) s = (r, s') /\
  let output_directory := _output_directory s.1 in
  let name := get_name blast_database in
  let file_name := path.basename file in
  let out := fun database_name =>
    path.join output_directory
      (file_name +:+ "." +:+ database_name +:+ "." +:+ name +:+ ".blast.tsv") in
  exists done rest,
    get_database_names blast_database = done ++ rest /\
    (r = inr tt -> rest = []) /\
    (exists ex,
       _thread_pool_executor s.1 = Some ex /\
       _thread_pool_executor s'.1 =
         Some {| _max_workers := _max_workers ex;
                 _work_queue := _work_queue ex ++
                   ((fun dn => launch_blast_future (get_path blast_database dn) file (out dn))
                      <$> done) |}) /\
    (forall dn, dn ∈ done -> entry (_blast_map s'.1) name file_name dn = Some (out dn)) /\
    (output_directory <> "" -> path.endswith_sep output_directory = false ->
     forall dn, out dn = output_directory +:+ "/" +:+ file_name +:+ "." +:+ dn +:+ "."
                           +:+ name +:+ ".blast.tsv").
Proof.
  intros s file blast_database s' r.
  assert (H1 : in_use s).
  { split; [simpl; lia | compute_done | simpl; eauto]. }
  assert (H2 : _schedule_blast file (Some blast_database) s = (r, s')).
  { vm_compute. reflexivity. }
  split; [exact H1|]. split; [exact H2|].
  exact (blast_out_is_deterministic s file blast_database r s' H1 H2).
Defined.

Lemma collision_raises_before_submitting_witness :
  let os := Example.tool_ok in
  let s := Example.s_collide in
  let files := ["genomes/x.fa"] in
  let db_files := ["out/input-genomes/x.fa"] in
  let s1 := (_make_db_from_input_files os (_input_genomes_tmp_dir s.1) files s).2 in
  in_use s /\
  working_set (working_dict s) /\
  _make_db_from_input_files os (_input_genomes_tmp_dir s.1) files s = (inr db_files, s1) /\
  let output_directory := _output_directory s.1 in
  Exists (fun j => job_out output_directory j ∈ fs s1.2) (jobs (working_dict s) db_files) /\
  exists pre j post s',
    jobs (working_dict s) db_files = pre ++ j :: post /\
    Forall (fun j => job_out output_directory j ∉ fs s1.2) pre /\
    job_out output_directory j ∈ fs s1.2 /\
    run_blasts os files s =
      (inl (Exception ["Error, blast_out [%s] already exists"; job_out output_directory j]),
       s') /\
    (exists ex,
       _thread_pool_executor s1.1 = Some ex /\
       _thread_pool_executor s'.1 =
         Some {| _max_workers := _max_workers ex;
                 _work_queue := _work_queue ex ++ (job_future output_directory <$> pre) |}) /\
    entry (_blast_map s'.1) (job_key j).1.1 (job_key j).1.2 (job_key j).2 =
      entry (_blast_map s.1) (job_key j).1.1 (job_key j).1.2 (job_key j).2 /\
    fs s'.2 = fs s1.2.
Proof.
  intros os s files db_files s1.
  assert (H1 : in_use s).
  { split; [simpl; lia | compute_done | simpl; eauto]. }
  assert (H2 : working_set (working_dict s)).
  { apply check_configuration_valid. vm_compute. reflexivity. }
  assert (H3 : _make_db_from_input_files os (_input_genomes_tmp_dir s.1) files s
               = (inr db_files, s1)).
  { vm_compute. reflexivity. }
  assert (H4 : Exists (fun j => job_out (_output_directory s.1) j ∈ fs s1.2)
                 (jobs (working_dict s) db_files)).
  { compute_done. }
  split; [exact H1|]. split; [exact H2|]. split; [exact H3|]. split; [exact H4|].
  exact (collision_raises_before_submitting os s files db_files s1 H1 H2 H3 H4).
Defined.

Lemma results_key_sets_witness :
  let os := Example.tool_ok in
  let s := Example.s_both in
  let files := ["genomes/x.fa"; "y.fa"] in
  let name := "pointfinder" in
  let get := get_pointfinder_outputs os in
  let blast_database := Example.pointfinder in
  let s1 := (run_blasts os files s).2 in
  let m := group_results s1 name in
  let s2 := (get s1).2 in
  fresh os s /\
  valid_configuration (working_dict s) /\
  (name, Some blast_database) ∈ working_dict s /\
  get_database_names blast_database <> [] /\
  (name = "resfinder" /\ get = get_resfinder_outputs os \/
   name = "pointfinder" /\ get = get_pointfinder_outputs os) /\
  run_blasts os files s = (inr tt, s1) /\
  get s1 = (inr m, s2) /\
  dom m = list_to_set (path.basename <$> files) /\
  forall file_name (inner : gmap string string),
    m !! file_name = Some inner ->
    dom inner = list_to_set (get_database_names blast_database).
Proof.
  intros os s files name get blast_database s1 m s2.
  assert (H1 : fresh os s).
  { apply (fresh_init os 0%nat (Some 2) (Some "out") (Example.world_of Example.d_both)).
    vm_compute. reflexivity. }
  assert (H2 : valid_configuration (working_dict s)).
  { apply check_configuration_valid. vm_compute. reflexivity. }
  assert (H3 : (name, Some blast_database) ∈ working_dict s).
  { apply dict_get_Some_elem. vm_compute. reflexivity. }
  assert (H4 : get_database_names blast_database <> []).
  { simpl. discriminate. }
  assert (H5 : name = "resfinder" /\ get = get_resfinder_outputs os \/
               name = "pointfinder" /\ get = get_pointfinder_outputs os).
  { right. split; reflexivity. }
  assert (H6 : run_blasts os files s = (inr tt, s1)).
  { vm_compute. reflexivity. }
  assert (H7 : get s1 = (inr m, s2)).
  { vm_compute. reflexivity. }
  split; [exact H1|]. split; [exact H2|]. split; [exact H3|]. split; [exact H4|].
  split; [exact H5|]. split; [exact H6|]. split; [exact H7|].
  exact (results_key_sets os s files name get blast_database s1 m s2 H1 H2 H3 H4 H5 H6 H7).
Defined.

(** ** Where the claims as first stated fail *)

(** C1 as first stated fails for a group without sub-databases: the
    configuration is valid, the run and the getter return, but no
    alignment was scheduled for the group, so the returned map is empty
    and the base name of the input file is not among its keys. *)
Lemma results_key_sets_counterexample :
  let os := Example.tool_ok in
  let s := Example.s_empty_group in
  let s1 := (run_blasts os ["x.fa"] s).2 in
  let s2 := (get_resfinder_outputs os s1).2 in
  fresh os s /\
  valid_configuration (working_dict s) /\
  ("resfinder", Some Example.resfinder_empty) ∈ working_dict s /\
  run_blasts os ["x.fa"] s = (inr tt, s1) /\
  get_resfinder_outputs os s1 = (inr ∅, s2) /\
  dom (∅ : gmap string (gmap string string)) <> list_to_set (path.basename <$> ["x.fa"]).
Proof.
  intros os s s1 s2.
  split.
  { apply (fresh_init os 0%nat (Some 2) (Some "out")
             (Example.world_of Example.d_empty_group)).
    vm_compute. reflexivity. }
  split; [apply check_configuration_valid; vm_compute; reflexivity|].
  split; [apply dict_get_Some_elem; vm_compute; reflexivity|].
  split; [vm_compute; reflexivity|].
  split; [vm_compute; reflexivity|].
  rewrite dom_empty_L. simpl. intros Heq.
  assert (Hin : "x.fa" ∈ (∅ : gset string)) by (rewrite Heq; set_solver).
  set_solver.
Qed.

(** C2 as first stated fails on the suffix: the result file of the
    alignment of [x.fa] against sub-database [a] of [resfinder], as
    submitted to the executor and as registered in the result map, is
    [out/x.fa.a.resfinder.blast.tsv] and not [out/x.fa.a.resfinder.result]. *)
Lemma blast_out_is_deterministic_counterexample :
  let s' := (_schedule_blast "out/input-genomes/x.fa" (Some Example.resfinder) Example.s_res).2 in
  (_schedule_blast "out/input-genomes/x.fa" (Some Example.resfinder) Example.s_res).1 = inr tt /\
  _work_queue <$> _thread_pool_executor s'.1 =
    Some [launch_blast_future "db/a.fsa" "out/input-genomes/x.fa" "out/x.fa.a.resfinder.blast.tsv";
          launch_blast_future "db/b.fsa" "out/input-genomes/x.fa" "out/x.fa.b.resfinder.blast.tsv"] /\
  entry (_blast_map s'.1) "resfinder" "x.fa" "a" = Some "out/x.fa.a.resfinder.blast.tsv" /\
  "out/x.fa.a.resfinder.blast.tsv"
    <> "out" +:+ "/" +:+ "x.fa" +:+ "." +:+ "a" +:+ "." +:+ "resfinder" +:+ ".result".
Proof.
  intros s'. repeat split; try (vm_compute; reflexivity).
  vm_compute. discriminate.
Qed.

(** C4 as first stated fails when a link cannot be made.  The handler
    was constructed, was run on [y.fa] (the run raised, the link of
    [y.fa] stayed in the working directory) and was reset.  The next
    run, on [x.fa] and [y.fa], submits the index build of [x.fa], which
    exits with status 1, and then raises [FileExistsError] for the link
    of [y.fa]: what [run_blasts] raises is not a [BlastProcessError]. *)
Lemma index_build_failure_aborts_counterexample :
  let os := Example.tool_bad_index in
  let s := calls os [call_run_blasts ["y.fa"]; call_reset] Example.s_res in
  let s' := (run_blasts os ["x.fa"; "y.fa"] s).2 in
  reachable os s /\
  run_blasts os ["x.fa"; "y.fa"] s = (inl (FileExistsError "out/input-genomes/y.fa"), s') /\
  _work_queue <$> _thread_pool_executor s'.1 = Some [make_blast_db_future "out/input-genomes/x.fa"] /\
  outcome os (make_blast_db_future "out/input-genomes/x.fa") =
    inl (CalledProcessError 1 (makeblastdb_command "out/input-genomes/x.fa")).
Proof.
  intros os s s'. split.
  { apply (reachable_call os _ call_reset), (reachable_call os _ (call_run_blasts ["y.fa"])).
    apply (reachable_init os 0%nat (Some 2) (Some "out") (Example.world_of Example.d_res)).
    vm_compute. reflexivity. }
  repeat split; vm_compute; reflexivity.
Qed.


(** * Further properties *)

(** ** The constructor *)

Section Constructor.
Context (os : External).

Lemma init_eq l t o w entry :
  dict.get "pointfinder" (heap w !!! l) = Some entry ->
  __init__ os l (Some t) (Some o) w =
    let w1 := init_world l entry w in
    let dir := path.join o "input-genomes" in
    if decide (t <= 0) then (inl (ValueError "max_workers must be greater than 0"), w1)
    else if bool_decide (dir ∈ fs w) then (inr (init_handler l t o entry), w1)
    else match mkdir_errno os dir with
         | Some n => (inl (OSError n dir), w1)
         | None => (inr (init_handler l t o entry), set_fs ({[ dir ]} ∪ fs w1) w1)
         end.
Proof.
  intros Hget. unfold __init__. rewrite Hget. fold (init_world l entry w).
  assert (Hfs : fs (init_world l entry w) = fs w).
  { by destruct entry. }
  simpl. destruct (decide (t <= 0)) as [Hle|Hgt].
  - unfold reset, shutdown, new_ThreadPoolExecutor. munfold. simpl.
    by rewrite decide_True.
  - rewrite reset_eq by (simpl; lia). simpl. rewrite Hfs.
    destruct (bool_decide (path.join o "input-genomes" ∈ fs w)); [done|].
    by destruct (mkdir_errno os (path.join o "input-genomes")).
Qed.

(** X1: the constructor returns a handler exactly when it is given a
    thread count that is positive, an output directory, a map with a
    [pointfinder] key, and the working directory
    [output_directory/input-genomes] exists or can be made; the files
    that exist afterwards are those that existed and the working
    directory. *)
Theorem constructor_returns_iff l threads output_directory w :
  (exists h w', __init__ os l threads output_directory w = (inr h, w')) <->
  exists t o,
    threads = Some t /\ output_directory = Some o /\ 0 < t /\
    is_Some (dict.get "pointfinder" (heap w !!! l)) /\
    (path.join o "input-genomes" ∈ fs w \/
     mkdir_errno os (path.join o "input-genomes") = None).
Proof.
  split.
  - intros (h & w' & Hi).
    destruct threads as [t|]; [|done]. destruct output_directory as [o|]; [|done].
    destruct (dict.get "pointfinder" (heap w !!! l)) as [entry|] eqn:Hget.
    2:{ unfold __init__ in Hi. by rewrite Hget in Hi. }
    rewrite (init_eq l t o w entry Hget) in Hi. simpl in Hi.
    exists t, o. destruct (decide (t <= 0)); [done|].
    split; [done|]. split; [done|]. split; [lia|]. split; [done|].
    destruct (bool_decide _) eqn:Hd; [left; by apply bool_decide_eq_true in Hd|].
    right. by destruct (mkdir_errno os _).
  - intros (t & o & -> & -> & Ht & [entry Hget] & Hdir).
    rewrite (init_eq l t o w entry Hget). simpl.
    destruct (decide (t <= 0)); [lia|].
    destruct (bool_decide _) eqn:Hd; [by eauto|].
    destruct Hdir as [Hin| ->]; [|by eauto].
    apply bool_decide_eq_false in Hd. done.
Qed.

(** X2: a thread count that is not positive is found only when the
    executor is made: the constructor raises [ValueError] without making
    the working directory, after it has deleted a [pointfinder] key that
    held [None] from the caller's map. *)
Theorem constructor_nonpositive_threads l t o w entry :
  t <= 0 ->
  dict.get "pointfinder" (heap w !!! l) = Some entry ->
  exists w',
    __init__ os l (Some t) (Some o) w =
      (inl (ValueError "max_workers must be greater than 0"), w') /\
    fs w' = fs w /\
    heap w' = match entry with
              | None => <[l := dict.del "pointfinder" (heap w !!! l)]> (heap w)
              | Some _ => heap w
              end.
Proof.
  intros Ht Hget. rewrite (init_eq l t o w entry Hget). simpl.
  rewrite decide_True by done. eexists. split; [done|]. by destruct entry.
Qed.

(** X3: when the working directory is missing and the operating system
    refuses to make it, the constructor raises the [OSError] of [mkdir]
    for that directory; no file is made, and a [pointfinder] key that
    held [None] is gone from the caller's map all the same. *)
Theorem constructor_mkdir_refused l t o w entry n :
  0 < t ->
  dict.get "pointfinder" (heap w !!! l) = Some entry ->
  path.join o "input-genomes" ∉ fs w ->
  mkdir_errno os (path.join o "input-genomes") = Some n ->
  exists w',
    __init__ os l (Some t) (Some o) w = (inl (OSError n (path.join o "input-genomes")), w') /\
    fs w' = fs w /\
    heap w' = match entry with
              | None => <[l := dict.del "pointfinder" (heap w !!! l)]> (heap w)
              | Some _ => heap w
              end.
Proof.
  intros Ht Hget Hdir Herr. rewrite (init_eq l t o w entry Hget). simpl.
  rewrite decide_False by lia. rewrite bool_decide_eq_false_2 by done. rewrite Herr.
  eexists. split; [done|]. by destruct entry.
Qed.

(** X4: [reset] on a handler whose working directory is missing.  When
    [mkdir] is not refused, [reset] returns and the directory is the one
    file that was made; when it is refused, [reset] raises the [OSError]
    and makes no file.  In both cases the two maps are empty and the
    executor is a new one without work. *)
Theorem reset_missing_directory s r s' :
  0 < _threads s.1 ->
  _input_genomes_tmp_dir s.1 ∉ fs s.2 ->
  reset os s = (r, s') ->
  let dir := _input_genomes_tmp_dir s.1 in
  match mkdir_errno os dir with
  | None => r = inr tt /\ fs s'.2 = {[ dir ]} ∪ fs s.2
  | Some n => r = inl (OSError n dir) /\ fs s'.2 = fs s.2
  end /\
  _blast_map s'.1 = ∅ /\ _future_blasts_map s'.1 = ∅ /\
  _thread_pool_executor s'.1 = Some {| _max_workers := _threads s.1; _work_queue := [] |}.
Proof.
  intros Ht Hdir Hr. simpl.
  destruct (reset_clears os s r s' Ht Hr) as (Hb & Hf & Hex & _).
  split; [|done].
  rewrite (reset_eq os s Ht) in Hr. simpl in Hr.
  rewrite bool_decide_eq_false_2 in Hr by done.
  assert (Hfs : fs (reset_state s).2 = fs s.2).
  { unfold reset_state. simpl. by destruct (_thread_pool_executor s.1). }
  destruct (mkdir_errno os (_input_genomes_tmp_dir s.1)); injection Hr as <- <-;
    unfold reset_state in *; simpl in *; by rewrite Hfs.
Qed.
End Constructor.

(** ** What the methods keep *)

Global Instance keeps_pool_sized_preorder : PreOrder keeps_pool_sized.
Proof.
  split.
  - intros s. by split.
  - intros s1 s2 s3 [T12 P12] [T23 P23]. split; [congruence | auto].
Qed.

Global Instance read_only_preorder : PreOrder read_only.
Proof.
  split.
  - intros s. by repeat split.
  - intros s1 s2 s3 (H12 & G12 & E12 & F12 & M12 & R12) (H23 & G23 & E23 & F23 & M23 & R23).
    repeat split; congruence.
Qed.

(** [stable] goals are taken apart along the structure of the
    computation; [tac] proves the relation for a [modify]. *)
Ltac stable_step tac :=
  match goal with
  | |- stable _ (bind _ _) => apply stable_bind; [apply _ | | intros ?]
  | |- stable _ (ret _) => apply stable_ret, _
  | |- stable _ (raise _) => apply stable_raise, _
  | |- stable _ (gets _) => apply stable_gets, _
  | |- stable _ (modify _) => apply stable_modify; intros [? ?]; tac
  | |- stable _ (for_ _ _) => apply stable_for; [apply _ | intros ?]
  | |- stable _ (for_collect _ _) => apply stable_for_collect; [apply _ | intros ?]
  | |- stable _ (try_except _ _) => apply stable_try_except; [apply _ | | intros ?]
  | |- stable _ (match ?x with _ => _ end) => destruct x
  | |- stable _ (if ?x then _ else _) => destruct x
  end.

Ltac pool_modify :=
  split; [done|]; intros (ex & Hex & Hmax); exists ex; simpl in *; by split.

Section Kept.
Context (os : External).

Lemma pool_submit call : stable keeps_pool_sized (submit call).
Proof.
  intros [h w] r [h' w']. unfold submit. munfold. simpl.
  destruct (_thread_pool_executor h) as [ex|] eqn:Hex; intros [= <- <- <-].
  - split; [done|]. intros (ex0 & Hex0 & Hmax). simpl in *.
    rewrite Hex in Hex0. injection Hex0 as <-. eexists. by split.
  - reflexivity.
Qed.

Lemma pool_reset : stable keeps_pool_sized (reset os).
Proof.
  intros s r s' Hr. pose proof (frame_reset os _ _ _ Hr) as [F1 _ _ _ _ _ _ _].
  split; [done|]. intros Hs.
  destruct (decide (0 < _threads s.1)) as [Ht|Ht].
  - destruct (reset_clears os s r s' Ht Hr) as (_ & _ & Hex & _).
    eexists. split; [exact Hex|]. simpl. by rewrite F1.
  - destruct s as [h w]. revert Hr. simpl in *.
    unfold reset, shutdown, new_ThreadPoolExecutor. munfold. simpl.
    destruct (_thread_pool_executor h) as [ex|] eqn:Hex; simpl;
      (destruct (decide (_threads h <= 0)); [|lia]); simpl; intros [= <- <-];
      destruct Hs as (ex0 & Hex0 & Hmax); simpl in *; exists ex0; split; simpl; congruence.
Qed.

Lemma pool_Future_result f : stable keeps_pool_sized (Future_result os f).
Proof.
  unfold Future_result, world_set. repeat (stable_step pool_modify).
Qed.

Lemma pool__make_db_from_input_files db_dir files :
  stable keeps_pool_sized (_make_db_from_input_files os db_dir files).
Proof.
  unfold _make_db_from_input_files.
  stable_step pool_modify.
  - stable_step pool_modify. stable_step pool_modify.
    + unfold os_symlink, path_exists, world_get, world_set. repeat (stable_step pool_modify).
    + stable_step pool_modify; [apply pool_submit | stable_step pool_modify].
  - stable_step pool_modify; [|stable_step pool_modify].
    stable_step pool_modify.
    + stable_step pool_modify. apply pool_Future_result.
    + stable_step pool_modify; stable_step pool_modify.
Qed.

Lemma pool_schedule_database file blast_database dn :
  stable keeps_pool_sized (schedule_database file blast_database dn).
Proof.
  unfold schedule_database, path_exists, _get_blast_map, _get_future_blasts_from_map,
    self_get, self_set, world_get.
  do 4 (stable_step pool_modify); [stable_step pool_modify|].
  stable_step pool_modify.
  { repeat (stable_step pool_modify). }
  stable_step pool_modify; [stable_step pool_modify|].
  stable_step pool_modify; [apply pool_submit|].
  repeat (stable_step pool_modify).
Qed.

Lemma pool_run_blasts files : stable keeps_pool_sized (run_blasts os files).
Proof.
  unfold run_blasts, self_get.
  stable_step pool_modify; [stable_step pool_modify|].
  stable_step pool_modify; [apply pool__make_db_from_input_files|].
  stable_step pool_modify. stable_step pool_modify; [stable_step pool_modify|].
  stable_step pool_modify. stable_step pool_modify; [stable_step pool_modify|].
  stable_step pool_modify; [|stable_step pool_modify].
  unfold _schedule_blast. stable_step pool_modify; [|stable_step pool_modify].
  stable_step pool_modify. apply pool_schedule_database.
Qed.

Lemma pool_getters :
  stable keeps_pool_sized (get_resfinder_outputs os) /\
  stable keeps_pool_sized (get_pointfinder_outputs os).
Proof.
  unfold get_resfinder_outputs, get_pointfinder_outputs, is_pointfinder_configured,
    _get_blast_map, _get_future_blasts_from_map, self_get, self_set.
  split.
  - stable_step pool_modify; [repeat (stable_step pool_modify)|].
    stable_step pool_modify; [|repeat (stable_step pool_modify)].
    stable_step pool_modify. apply pool_Future_result.
  - stable_step pool_modify; [stable_step pool_modify|].
    stable_step pool_modify; [|stable_step pool_modify].
    stable_step pool_modify; [repeat (stable_step pool_modify)|].
    stable_step pool_modify; [|repeat (stable_step pool_modify)].
    stable_step pool_modify. apply pool_Future_result.
Qed.

(** X5: in every state of a handler that was constructed and then
    used, there is an executor and its number of workers is the thread
    count that the constructor was given, which is positive: every
    index build and every alignment is submitted to a pool of that
    size. *)
Theorem pool_has_configured_size s :
  reachable os s ->
  exists ex,
    _thread_pool_executor s.1 = Some ex /\
    _max_workers ex = _threads s.1 /\ 0 < _threads s.1.
Proof.
  intros Hs. pose proof (reachable_in_use os s Hs) as [Ht _ _].
  assert (Hp : pool_sized s).
  { clear Ht. induction Hs as [l threads output_directory w h w' Hi | s m Hs IH].
    - apply init_returns in Hi
        as (t & o & entry & _ & _ & _ & _ & Hth & _ & _ & _ & _ & _ & _ & Hex & _).
      eexists. split; [exact Hex|]. simpl. by rewrite Hth.
    - destruct m; simpl.
      + destruct (reset os s) as [r s'] eqn:H. by apply (pool_reset _ _ _ H).
      + destruct (run_blasts os files s) as [r s'] eqn:H. by apply (pool_run_blasts _ _ _ _ H).
      + done.
      + destruct (get_resfinder_outputs os s) as [r s'] eqn:H.
        by apply (proj1 pool_getters _ _ _ H).
      + destruct (get_pointfinder_outputs os s) as [r s'] eqn:H.
        by apply (proj2 pool_getters _ _ _ H). }
  destruct Hp as (ex & Hex & Hmax). eauto.
Qed.

(** X6: no sequence of method calls changes the thread count, the
    output directory, the name of the working directory, the dictionary
    object the handler works on, the [pointfinder] flag or the content
    of any dictionary; and every file that exists before the calls
    exists after them. *)
Theorem calls_keep_configuration ms s :
  let s' := calls os ms s in
  _threads s'.1 = _threads s.1 /\
  _output_directory s'.1 = _output_directory s.1 /\
  _input_genomes_tmp_dir s'.1 = _input_genomes_tmp_dir s.1 /\
  _blast_database_objects_map s'.1 = _blast_database_objects_map s.1 /\
  _pointfinder_configured s'.1 = _pointfinder_configured s.1 /\
  heap s'.2 = heap s.2 /\
  fs s.2 ⊆ fs s'.2.
Proof.
  simpl. by destruct (frame_calls os ms s).
Qed.
End Kept.

(** ** Getters *)

Section Getters.
Context (os : External).

Lemma drain_eq (l : list Future) s :
  exists tr, for_ l (Future_result os) s =
             (first_failure os l, (s.1, set_waited (waited s.2 ++ tr) s.2)).
Proof.
  revert s. induction l as [|f l IH]; intros [h w]; simpl.
  - exists []. by rewrite app_nil_r, set_waited_id.
  - unfold bind at 1. unfold Future_result at 1. munfold. simpl.
    destruct (outcome os f) as [e|[]].
    + by exists [f].
    + destruct (IH (h, set_waited (waited w ++ [f]) w)) as [tr ->]. simpl.
      exists (f :: tr). by rewrite <- app_assoc.
Qed.

Lemma read_only_world h w w' :
  fs w' = fs w -> heap w' = heap w -> retired w' = retired w -> read_only (h, w) (h, w').
Proof. intros. by repeat split. Qed.

Lemma read_only__get_future_blasts_from_map name :
  stable read_only (_get_future_blasts_from_map name).
Proof.
  intros [h w] r [h' w']. unfold _get_future_blasts_from_map. munfold. simpl.
  destruct (_future_blasts_map h !! name) as [l|] eqn:Hl; intros [= <- <- <-]; [reflexivity|].
  repeat split. intros name'. unfold handles. simpl.
  destruct (decide (name' = name)) as [->|Hne].
  - by rewrite lookup_insert_eq, Hl.
  - by rewrite lookup_insert_ne.
Qed.

Lemma read_only__get_blast_map name : stable read_only (_get_blast_map name).
Proof.
  intros [h w] r [h' w']. unfold _get_blast_map. munfold. simpl.
  destruct (_blast_map h !! name) as [g|] eqn:Hg; intros [= <- <- <-]; [reflexivity|].
  repeat split. intros name'. unfold group_results. simpl.
  destruct (decide (name' = name)) as [->|Hne].
  - by rewrite lookup_insert_eq, Hg.
  - by rewrite lookup_insert_ne.
Qed.

Lemma read_only_drain (l : list Future) : stable read_only (for_ l (Future_result os)).
Proof.
  intros s r s' Hl. destruct (drain_eq l s) as [tr Heq]. rewrite Heq in Hl.
  injection Hl as <- <-. destruct s as [h w]. by apply read_only_world.
Qed.

Lemma read_only_getters :
  stable read_only (get_resfinder_outputs os) /\
  stable read_only (get_pointfinder_outputs os).
Proof.
  unfold get_resfinder_outputs, get_pointfinder_outputs, is_pointfinder_configured, self_get.
  split.
  - apply stable_bind; [apply _ | apply read_only__get_future_blasts_from_map |].
    intros futures. apply stable_bind; [apply _ | apply read_only_drain |].
    intros _. apply read_only__get_blast_map.
  - apply stable_bind; [apply _ | apply stable_gets, _ |].
    intros [|]; [|apply stable_raise, _].
    apply stable_bind; [apply _ | apply read_only__get_future_blasts_from_map |].
    intros futures. apply stable_bind; [apply _ | apply read_only_drain |].
    intros _. apply read_only__get_blast_map.
Qed.

(** What a getter ends with, read off the handles and the result map of
    its group. *)
Lemma getter_value s name get :
  name = "resfinder" /\ get = get_resfinder_outputs os \/
  name = "pointfinder" /\ get = get_pointfinder_outputs os /\
    _pointfinder_configured s.1 = true ->
  (get s).1 = match first_failure os (handles s name) with
              | inl e => inl e
              | inr _ => inr (group_results s name)
              end.
Proof.
  intros Hsel. destruct (getter_eq os s name get Hsel) as (h1 & Hbm & ->).
  destruct (drain_eq (handles s name) (h1, s.2)) as [tr ->].
  destruct (first_failure os (handles s name)) as [e|[]]; [done|].
  destruct (_get_blast_map_eq (h1, set_waited (waited s.2 ++ tr) s.2) name) as (h2 & Hg & _).
  simpl in *. rewrite Hg. unfold group_results. simpl. by rewrite Hbm.
Qed.

(** X7: a getter only waits.  Whether it returns or raises, the
    handles and the result map of every group, the executor, the files
    and the dictionaries are what they were; and the same getter called
    again ends the same way, with the same map or the same exception. *)
Theorem getters_only_wait s name get r s' :
  name = "resfinder" /\ get = get_resfinder_outputs os \/
  name = "pointfinder" /\ get = get_pointfinder_outputs os ->
  get s = (r, s') ->
  read_only s s' /\ (get s').1 = r.
Proof.
  intros Hsel Hget.
  assert (Hro : read_only s s').
  { destruct Hsel as [[_ ->]|[_ ->]];
      [eapply (proj1 read_only_getters) | eapply (proj2 read_only_getters)]; exact Hget. }
  split; [done|].
  assert (Hr : r = (get s).1) by (by rewrite Hget). rewrite Hr.
  destruct Hro as (Hh & Hg & _).
  assert (Hc : _pointfinder_configured s'.1 = _pointfinder_configured s.1).
  { destruct Hsel as [[_ ->]|[_ ->]].
    - by destruct (frame_get_resfinder_outputs os _ _ _ Hget).
    - by destruct (frame_get_pointfinder_outputs os _ _ _ Hget). }
  destruct Hsel as [[-> ->]|[-> ->]].
  - rewrite !(getter_value _ "resfinder" (get_resfinder_outputs os)) by (left; done).
    by rewrite Hh, Hg.
  - destruct (_pointfinder_configured s.1) eqn:Hconf.
    + rewrite !(getter_value _ "pointfinder" (get_pointfinder_outputs os))
        by (right; done).
      by rewrite Hh, Hg.
    + destruct (not_configured_raises os s Hconf) as [_ ->].
      by destruct (not_configured_raises os s' Hc) as [_ ->].
Qed.

(** X8: a failure stays in its group.  Whatever the getter of one
    group did, return or raise, the getter of a group none of whose
    handles failed returns afterwards, with the result map of its
    group. *)
Theorem failure_stays_in_its_group s name1 get1 r s' name2 get2 :
  name1 = "resfinder" /\ get1 = get_resfinder_outputs os \/
  name1 = "pointfinder" /\ get1 = get_pointfinder_outputs os ->
  name2 = "resfinder" /\ get2 = get_resfinder_outputs os \/
  name2 = "pointfinder" /\ get2 = get_pointfinder_outputs os /\
    _pointfinder_configured s.1 = true ->
  get1 s = (r, s') ->
  Forall (fun f => outcome os f = inr tt) (handles s name2) ->
  (get2 s').1 = inr (group_results s name2).
Proof.
  intros Hsel1 Hsel2 Hget Hok.
  assert (Hro : read_only s s').
  { destruct Hsel1 as [[_ ->]|[_ ->]];
      [eapply (proj1 read_only_getters) | eapply (proj2 read_only_getters)]; exact Hget. }
  assert (Hc : _pointfinder_configured s'.1 = _pointfinder_configured s.1).
  { destruct Hsel1 as [[_ ->]|[_ ->]].
    - by destruct (frame_get_resfinder_outputs os _ _ _ Hget).
    - by destruct (frame_get_pointfinder_outputs os _ _ _ Hget). }
  destruct Hro as (Hh & Hg & _).
  rewrite (getter_value s' name2 get2).
  2:{ destruct Hsel2 as [?|(? & ? & ?)]; [by left|]. right. by rewrite Hc. }
  rewrite Hh, Hg.
  assert (Hff : first_failure os (handles s name2) = inr tt).
  { induction Hok as [|f l Hf Hl IH]; simpl; [done|]. by rewrite Hf. }
  by rewrite Hff.
Qed.

(** X9: when the constructor is given a map whose [pointfinder] entry
    is a database object, it leaves every dictionary as it is; from then
    on, whatever methods are called, the entry is in the working set and
    [is_pointfinder_configured] returns [True]; and before any run
    [get_pointfinder_outputs] returns the empty map. *)
Theorem pointfinder_configured l threads output_directory w h w' blast_database :
  __init__ os l threads output_directory w = (inr h, w') ->
  dict.get "pointfinder" (heap w !!! l) = Some (Some blast_database) ->
  heap w' = heap w /\
  (get_pointfinder_outputs os (h, w')).1 = inr ∅ /\
  forall ms,
    let s := calls os ms (h, w') in
    dict.get "pointfinder" (working_dict s) = Some (Some blast_database) /\
    is_pointfinder_configured s = (inr true, s).
Proof.
  intros Hi Hsome.
  apply init_returns in Hi
    as (t & o & entry & _ & _ & Hget & _ & _ & _ & _ & Hl & Hc & Hb & Hf & _ & _ & _ & Hheap).
  rewrite Hsome in Hget. injection Hget as <-.
  split; [done|]. split.
  - rewrite (getter_value (h, w') "pointfinder" (get_pointfinder_outputs os))
      by (right; done).
    unfold handles, group_results. simpl. by rewrite Hf, Hb, !lookup_empty.
  - intros ms s. pose proof (frame_calls os ms (h, w')) as [_ _ _ F4 F5 F6 _ _].
    fold s in F4, F5, F6. simpl in *. split.
    + unfold working_dict. by rewrite F4, F6, Hl, Hheap.
    + unfold is_pointfinder_configured, self_get, gets. by rewrite F5, Hc.
Qed.
End Getters.

(** ** A whole run *)

Section WholeRun.
Context (os : External).

Lemma handles_scheduled s j name :
  handles (scheduled s j) name =
    if decide (get_name j.1.2 = name)
    then handles s name ++ [job_future (_output_directory s.1) j]
    else handles s name.
Proof.
  unfold handles at 1. simpl. destruct (decide (get_name j.1.2 = name)) as [->|Hne].
  - by rewrite lookup_insert_eq.
  - by rewrite lookup_insert_ne.
Qed.

Lemma handles_scheduled_fold js s name :
  handles (fold_left scheduled js s) name =
    handles s name ++
    (job_future (_output_directory s.1) <$> filter (fun j => get_name j.1.2 = name) js).
Proof.
  revert s. induction js as [|j js IH]; intros s; simpl.
  - by rewrite app_nil_r.
  - rewrite IH, handles_scheduled, scheduled_output_directory, filter_cons.
    destruct (decide (get_name j.1.2 = name)); [|done].
    by rewrite fmap_cons, <- app_assoc.
Qed.

Lemma length_jobs d db_files :
  length (jobs d db_files) = (length db_files * sub_database_count d)%nat.
Proof.
  assert (Hfile : forall file, length (jobs_of_file d file) = sub_database_count d).
  { intros file. unfold jobs_of_file, sub_database_count.
    induction d as [|[k [bd|]] d IH]; simpl; [done| |done].
    rewrite length_app, length_fmap. by rewrite <- IH. }
  induction db_files as [|file db_files IH]; [done|].
  change (jobs d (file :: db_files)) with (jobs_of_file d file ++ jobs d db_files).
  rewrite length_app, Hfile, IH. simpl. lia.
Qed.

(** The state that a run that nothing stops leaves. *)
Lemma run_blasts_ready s files :
  ready_to_run os s files ->
  let db_dir := _input_genomes_tmp_dir s.1 in
  let db_files := destination db_dir <$> files in
  let s1 := fold_left (linked db_dir) files s in
  run_blasts os files s =
    (inr tt,
     fold_left scheduled (jobs (working_dict s) db_files)
       (s1.1, set_waited (waited s.2 ++ (make_blast_db_future <$> db_files)) s1.2)).
Proof.
  intros ([_ _ Hex] & Hws & Hfresh & Hok & Hout). simpl.
  rewrite (run_blasts_eq os files s Hws).
  rewrite (preparation_returns os files s Hex Hfresh Hok). simpl.
  destruct Hex as [ex Hex].
  apply schedule_jobs_ok.
  - simpl. rewrite (linked_fold_executor _ _ _ _ Hex). by eexists.
  - simpl.
    destruct (linked_fold_handler (_input_genomes_tmp_dir s.1) files s) as (_ & _ & -> & _).
    eapply Forall_impl; [exact Hout|]. simpl. intros j [Hj1 Hj2].
    rewrite linked_fold_fs. by intros [?|?].
Qed.


(** X11: after a run that nothing stops, the handles of every group
    are those it had, followed by the alignments of the run against
    that group in the order in which they were submitted; and every
    alignment of the run is in the result map under the name of its
    group, the base name of its input file and the name of its
    sub-database, with its output path. *)
Theorem run_blasts_registers_in_order s files :
  ready_to_run os s files ->
  let db_files := destination (_input_genomes_tmp_dir s.1) <$> files in
  let js := jobs (working_dict s) db_files in
  let s' := (run_blasts os files s).2 in
  (forall name,
     handles s' name =
       handles s name ++
       (job_future (_output_directory s.1) <$> filter (fun j => get_name j.1.2 = name) js)) /\
  (forall j, j ∈ js ->
     entry (_blast_map s'.1) (get_name j.1.2) (path.basename j.1.1) j.2 =
       Some (job_out (_output_directory s.1) j)).
Proof.
  intros Hready. simpl. rewrite (run_blasts_ready s files Hready). simpl.
  destruct (linked_fold_handler (_input_genomes_tmp_dir s.1) files s) as (Hb & Hf & Hod & _).
  split.
  - intros name. rewrite handles_scheduled_fold. simpl. rewrite Hod.
    unfold handles. simpl. by rewrite Hf.
  - intros j Hj. rewrite entry_scheduled_fold. simpl. rewrite Hod.
    rewrite decide_True; [done|]. apply list_elem_of_fmap. by exists j.
Qed.

(** X12: a run that nothing stops submits one index build for every
    input file and one alignment for every pair of an input file and a
    sub-database of a group: the work of the executor grows by
    [n + n * k] calls for [n] input files and [k] sub-databases in
    all. *)
Theorem run_blasts_counts s files :
  ready_to_run os s files ->
  exists ex ex',
    _thread_pool_executor s.1 = Some ex /\
    _thread_pool_executor (run_blasts os files s).2.1 = Some ex' /\
    length (_work_queue ex') =
      (length (_work_queue ex) + length files
       + length files * sub_database_count (working_dict s))%nat /\
    length (filter (fun f => is_launch_blast f = true) (_work_queue ex')) =
      (length (filter (fun f => is_launch_blast f = true) (_work_queue ex))
       + length files * sub_database_count (working_dict s))%nat.
Proof.
  intros Hready. rewrite (run_blasts_ready s files Hready). simpl.
  destruct Hready as ([_ _ [ex Hex]] & _).
  destruct (linked_fold_handler (_input_genomes_tmp_dir s.1) files s) as (_ & _ & Hod & _).
  eexists ex, _. split; [done|]. split.
  - erewrite scheduled_fold_executor;
      [|simpl; by apply (linked_fold_executor _ _ _ _ Hex)].
    reflexivity.
  - simpl. split.
    + rewrite !length_app, !length_fmap, length_jobs, length_fmap. lia.
    + rewrite !filter_app, !length_app.
      assert (H1 : forall l : list string,
        filter (fun f => is_launch_blast f = true) (make_blast_db_future <$> l) = []).
      { induction l as [|x l IH]; [done|]. rewrite fmap_cons, filter_cons. simpl.
        exact IH. }
      assert (H2 : forall (o : string) (l : list (string * AbstractBlastDatabase * string)),
        filter (fun f => is_launch_blast f = true) (job_future o <$> l) = job_future o <$> l).
      { intros o. induction l as [|x l IH]; [done|]. rewrite fmap_cons, filter_cons. simpl.
        by rewrite IH. }
      rewrite H1, H2. simpl. rewrite length_fmap, length_jobs, length_fmap. lia.
Qed.
Lemma first_failure_ok (l : list Future) :
  first_failure os l = inr tt <-> Forall (fun f => outcome os f = inr tt) l.
Proof.
  induction l as [|f l IH]; simpl; [by split; [constructor|]|].
  destruct (outcome os f) as [e|[]] eqn:Hf.
  - split; [done|]. intros H. apply Forall_cons in H as [H _]. congruence.
  - rewrite IH. split; [by constructor|]. intros H. by apply Forall_cons in H as [_ H].
Qed.

Lemma _launch_blast_ok query db output :
  _launch_blast os query db output = inr tt <->
  exists stdout, run_blastn os query db output = (0, stdout, "").
Proof.
  unfold _launch_blast. destruct (run_blastn os query db output) as [[returncode stdout] stderr].
  split.
  - repeat case_decide; try done. subst. by eexists.
  - intros [stdout' [= -> _ ->]]. by rewrite !decide_True.
Qed.

(** X29: a run and then a getter.  After a run that nothing stops, on
    a handler that holds no handle for the group, the getter of the
    group returns exactly when every alignment of the run against the
    group exits with status 0 and writes nothing to its error stream —
    one alignment that exits with status 0 but writes a warning makes
    the getter raise — and what it returns is the result map of the
    group. *)
Theorem getter_returns_after_run s files name get :
  ready_to_run os s files ->
  handles s name = [] ->
  name = "resfinder" /\ get = get_resfinder_outputs os \/
  name = "pointfinder" /\ get = get_pointfinder_outputs os /\
    _pointfinder_configured s.1 = true ->
  let db_files := destination (_input_genomes_tmp_dir s.1) <$> files in
  let s' := (run_blasts os files s).2 in
  ((exists m, (get s').1 = inr m) <->
   forall j, j ∈ jobs (working_dict s) db_files -> get_name j.1.2 = name ->
     exists stdout,
       run_blastn os (get_path j.1.2 j.2) j.1.1 (job_out (_output_directory s.1) j)
       = (0, stdout, "")) /\
  (forall m, (get s').1 = inr m -> m = group_results s' name).
Proof.
  intros Hready Hnone Hsel db_files s'.
  assert (Hsel' : name = "resfinder" /\ get = get_resfinder_outputs os \/
                  name = "pointfinder" /\ get = get_pointfinder_outputs os /\
                    _pointfinder_configured s'.1 = true).
  { destruct Hsel as [?|(? & ? & Hpf)]; [by left|right]. split; [done|]. split; [done|].
    rewrite <- Hpf. apply frame_pointfinder_configured.
    apply (frame_run_blasts os files s (run_blasts os files s).1). by destruct (run_blasts os files s). }
  assert (Hhandles : handles s' name =
            job_future (_output_directory s.1)
              <$> filter (fun j => get_name j.1.2 = name) (jobs (working_dict s) db_files)).
  { subst s' db_files. rewrite (run_blasts_ready s files Hready). simpl.
    destruct (linked_fold_handler (_input_genomes_tmp_dir s.1) files s) as (_ & Hf & Hod & _).
    rewrite handles_scheduled_fold. simpl. rewrite Hod.
    unfold handles in *. simpl. by rewrite Hf, Hnone. }
  rewrite (getter_value os s' name get Hsel'), Hhandles.
  split.
  - rewrite <- (Forall_forall
      (fun j => get_name j.1.2 = name ->
                exists stdout,
                  run_blastn os (get_path j.1.2 j.2) j.1.1 (job_out (_output_directory s.1) j)
                  = (0, stdout, ""))).
    destruct (first_failure os _) as [e|[]] eqn:Hfirst.
    + split; [by intros [m ?]|]. intros Hall. exfalso.
      assert (Hok : first_failure os
                (job_future (_output_directory s.1)
                   <$> filter (fun j => get_name j.1.2 = name) (jobs (working_dict s) db_files))
                = inr tt); [|congruence].
      apply first_failure_ok, Forall_fmap, Forall_forall. intros j Hj.
      apply list_elem_of_filter in Hj as [Hname Hj]. simpl. apply _launch_blast_ok.
      rewrite Forall_forall in Hall. by apply Hall.
    + split; [|by eexists]. intros _.
      apply first_failure_ok, Forall_fmap in Hfirst. rewrite Forall_forall in Hfirst.
      apply Forall_forall. intros j Hj Hname.
      apply _launch_blast_ok. apply (Hfirst j). by apply list_elem_of_filter.
  - intros m. destruct (first_failure os _) as [e|[]]; [done|]. by intros [= <-].
Qed.

End WholeRun.

(** ** Links, runs that are repeated, and entries without a database *)

Section Links.
Context (os : External).

Lemma for_collect_app {S A B} (l1 l2 : list A) (body : A -> M S B) s :
  for_collect (l1 ++ l2) body s =
    match for_collect l1 body s with
    | (inl e, s1) => (inl e, s1)
    | (inr bs1, s1) =>
        match for_collect l2 body s1 with
        | (inl e, s2) => (inl e, s2)
        | (inr bs2, s2) => (inr (bs1 ++ bs2), s2)
        end
    end.
Proof.
  revert s. induction l1 as [|x l1 IH]; intros s; simpl.
  - unfold ret. destruct (for_collect l2 body s) as [[e|bs2] s2]; reflexivity.
  - unfold bind, ret. destruct (body x s) as [[e|b] s0]; [reflexivity|].
    rewrite IH.
    destruct (for_collect l1 body s0) as [[e|bs1] s1]; [reflexivity|].
    destruct (for_collect l2 body s1) as [[e|bs2] s2]; reflexivity.
Qed.

(** Every iteration of a loop that returned has returned, in a state
    that a stable relation links to the first one and to the last one. *)
Lemma for_each {S A} (R : relation S) `{!PreOrder R} (l : list A) (body : A -> M S unit) s s' :
  (forall x, stable R (body x)) ->
  for_ l body s = (inr tt, s') ->
  forall x, x ∈ l -> exists s1 s2, R s s1 /\ body x s1 = (inr tt, s2) /\ R s2 s'.
Proof.
  intros Hb. revert s. induction l as [|y l IH]; intros s Hl x Hx.
  - by apply elem_of_nil in Hx.
  - simpl in Hl. unfold bind in Hl. destruct (body y s) as [[e|[]] s0] eqn:Hy; [done|].
    apply elem_of_cons in Hx as [->|Hx].
    + exists s, s0. split; [reflexivity|]. split; [done|].
      eapply stable_for; [done | exact Hb | exact Hl].
    + destruct (IH _ Hl x Hx) as (s1 & s2 & H1 & H2 & H3).
      exists s1, s2. split; [|done]. etrans; [eapply Hb; exact Hy | done].
Qed.

Lemma for_collect_each {S A B} (R : relation S) `{!PreOrder R} (l : list A)
    (body : A -> M S B) s bs s' :
  (forall x, stable R (body x)) ->
  for_collect l body s = (inr bs, s') ->
  forall x, x ∈ l -> exists s1 b s2, body x s1 = (inr b, s2) /\ R s2 s'.
Proof.
  intros Hb. revert s bs. induction l as [|y l IH]; intros s bs Hl x Hx.
  - by apply elem_of_nil in Hx.
  - simpl in Hl. unfold bind at 1 in Hl. destruct (body y s) as [[e|b] s0] eqn:Hy; [done|].
    unfold bind at 1 in Hl.
    destruct (for_collect l body s0) as [[e|bs0] s1] eqn:Hl0; [done|].
    injection Hl as <- <-.
    apply elem_of_cons in Hx as [->|Hx].
    + exists s, b, s0. split; [done|].
      eapply stable_for_collect; [done | exact Hb | exact Hl0].
    + eapply IH; [exact Hl0 | done].
Qed.

Lemma join_inj a b1 b2 :
  path.has_sep b1 = false -> path.has_sep b2 = false ->
  path.join a b1 = path.join a b2 -> b1 = b2.
Proof.
  intros H1 H2. unfold path.join.
  rewrite (startswith_no_sep _ H1), (startswith_no_sep _ H2).
  destruct (bool_decide (a = "") || path.endswith_sep a).
  - apply (inj (String.app a)).
  - intros Heq. apply (inj (String.app a)) in Heq. by injection Heq.
Qed.

(** X13: the links of two input files are the same path exactly when
    the files have the same base name, whatever directories they are
    in; so the links of a list of input files are distinct exactly when
    the base names are. *)
Theorem links_collide_on_base_names db_dir :
  (forall file1 file2,
     destination db_dir file1 = destination db_dir file2 <->
     path.basename file1 = path.basename file2) /\
  (forall files,
     NoDup (destination db_dir <$> files) <-> NoDup (path.basename <$> files)).
Proof.
  assert (Hiff : forall file1 file2,
     destination db_dir file1 = destination db_dir file2 <->
     path.basename file1 = path.basename file2).
  { intros file1 file2. unfold destination. split; [|by intros ->].
    apply join_inj; apply basename_no_sep. }
  split; [done|].
  intros files. induction files as [|file files IH]; [by split; constructor|].
  rewrite !fmap_cons, !NoDup_cons, IH, !list_elem_of_fmap.
  split; intros [Hnotin Hnd]; (split; [|done]); intros (file' & Heq & Hin);
    apply Hnotin; exists file'; (split; [|done]); by apply Hiff.
Qed.

(** The first loop of [_make_db_from_input_files] when the link of an
    input file exists. *)
Lemma link_files_exists db_dir pre file post s :
  is_Some (_thread_pool_executor s.1) ->
  NoDup (destination db_dir <$> pre) ->
  Forall (fun file => (destination db_dir file ∉ fs s.2) /\
                      symlink_errno os (abspath os file) (destination db_dir file) = None)
    pre ->
  destination db_dir file ∈ fs s.2 \/ destination db_dir file ∈ destination db_dir <$> pre ->
  for_collect (pre ++ file :: post) (fun file =>
    let destination := path.join db_dir (path.basename file) in
    os_symlink os (abspath os file) destination ;;
    future <- submit (make_blast_db_future destination) ;;
    ret (destination, future)) s
  = (inl (FileExistsError (destination db_dir file)), fold_left (linked db_dir) pre s).
Proof.
  intros Hex Hnd Hpre Hfile. rewrite for_collect_app.
  rewrite (link_files_eq os db_dir pre s Hex Hnd Hpre). simpl.
  unfold bind at 1. unfold os_symlink at 1, path_exists at 1. munfold. simpl.
  fold (destination db_dir file).
  rewrite bool_decide_eq_true_2; [done|].
  apply linked_fold_fs. tauto.
Qed.

(** X14: the first input file whose link exists already, in the
    working directory or as the link of an earlier file of the list with
    the same base name, stops the run with [FileExistsError] for that
    link.  The index builds of the files before it were submitted and
    are never waited for; no index build of a later file and no
    alignment is submitted, and the two maps are as before. *)
Theorem existing_link_stops_the_run s pre file post :
  in_use s ->
  links_fresh os s pre ->
  let db_dir := _input_genomes_tmp_dir s.1 in
  destination db_dir file ∈ fs s.2 \/ destination db_dir file ∈ destination db_dir <$> pre ->
  exists s' ex,
    run_blasts os (pre ++ file :: post) s = (inl (FileExistsError (destination db_dir file)), s') /\
    _thread_pool_executor s.1 = Some ex /\
    _thread_pool_executor s'.1 =
      Some {| _max_workers := _max_workers ex;
              _work_queue := _work_queue ex ++
                (make_blast_db_future <$> (destination db_dir <$> pre)) |} /\
    waited s'.2 = waited s.2 /\
    _blast_map s'.1 = _blast_map s.1 /\
    _future_blasts_map s'.1 = _future_blasts_map s.1.
Proof.
  intros [_ _ Hex] [Hnd Hpre] db_dir Hfile. subst db_dir.
  assert (Hprep : _make_db_from_input_files os (_input_genomes_tmp_dir s.1)
                    (pre ++ file :: post) s
                  = (inl (FileExistsError (destination (_input_genomes_tmp_dir s.1) file)),
                     fold_left (linked (_input_genomes_tmp_dir s.1)) pre s)).
  { unfold _make_db_from_input_files. unfold bind at 1.
    pose proof (link_files_exists _ pre file post s Hex Hnd Hpre Hfile) as Hlink.
    cbv zeta in Hlink. by rewrite Hlink. }
  destruct Hex as [ex Hex].
  exists (fold_left (linked (_input_genomes_tmp_dir s.1)) pre s), ex.
  split; [by apply run_blasts_preparation_raises|]. split; [done|].
  destruct (linked_fold_handler (_input_genomes_tmp_dir s.1) pre s) as (Hb & Hf & _ & Hw).
  split; [by apply linked_fold_executor|]. done.
Qed.

Lemma preparation_links_exist db_dir files s db_files s1 :
  _make_db_from_input_files os db_dir files s = (inr db_files, s1) ->
  forall file, file ∈ files -> destination db_dir file ∈ fs s1.2.
Proof.
  unfold _make_db_from_input_files. unfold bind at 1.
  match goal with |- context [for_collect files ?b s] => set (body := b) end.
  destruct (for_collect files body s) as [[e|made] s0] eqn:Hmade; [done|].
  unfold bind at 1.
  destruct (try_except _ _ s0) as [[e|[]] s2] eqn:Hdrain; [done|].
  intros [= _ <-] file Hfile.
  assert (Hbody : forall x, stable frame (body x)).
  { intros x. unfold body. apply stable_bind; [apply _ | apply frame_os_symlink |].
    intros _. apply stable_bind; [apply _ | apply frame_submit |].
    intros. apply stable_ret, _. }
  destruct (for_collect_each frame files body s made s0 Hbody Hmade file Hfile)
    as (sa & b & sb & Hstep & Hsb).
  assert (Hs02 : frame s0 s2).
  { revert Hdrain. apply stable_try_except; [apply _ | |].
    - apply stable_for; [apply _|]. intros f. apply frame_Future_result.
    - intros e. destruct e; apply stable_raise, _. }
  apply (frame_fs _ _ Hs02), (frame_fs _ _ Hsb).
  revert Hstep. unfold body. unfold bind at 1.
  destruct (os_symlink os (abspath os file) (path.join db_dir (path.basename file)) sa)
    as [[e|[]] sc] eqn:Hlink; [done|].
  unfold bind at 1. destruct (submit _ sc) as [[e|future] sd] eqn:Hsub; [done|].
  intros [= _ <-]. apply (frame_fs _ _ (frame_submit _ _ _ _ Hsub)).
  revert Hlink. destruct sa as [ha wa]. unfold os_symlink, path_exists. munfold. simpl.
  destruct (bool_decide _); [done|].
  destruct (symlink_errno _ _ _); [done|]. intros [= <-]. simpl. set_solver.
Qed.

(** X15: a run cannot be repeated on an input file.  After a run that
    returned, whatever methods are called next, [reset] among them, a
    run whose first input file has the base name of a file of the
    earlier run raises [FileExistsError] for the link at once and leaves
    the state as it is: nothing is submitted. *)
Theorem repeated_run_raises s files s1 ms file file' rest :
  run_blasts os files s = (inr tt, s1) ->
  file ∈ files ->
  path.basename file' = path.basename file ->
  let s2 := calls os ms s1 in
  run_blasts os (file' :: rest) s2 =
    (inl (FileExistsError (destination (_input_genomes_tmp_dir s.1) file)), s2).
Proof.
  intros Hrun Hfile Hbase s2.
  assert (Hlink : destination (_input_genomes_tmp_dir s.1) file ∈ fs s1.2).
  { revert Hrun. unfold run_blasts. unfold bind at 1. unfold self_get, gets at 1.
    unfold bind at 1.
    destruct (_make_db_from_input_files os (_input_genomes_tmp_dir s.1) files s)
      as [[e|db_files] s0] eqn:Hprep; [done|].
    intros Hloop.
    pose proof (preparation_links_exist _ _ _ _ _ Hprep file Hfile) as Hin.
    assert (Hf : frame s0 s1); [|by apply (frame_fs _ _ Hf)].
    revert Hloop. apply stable_for; [apply _|]. intros f.
    apply stable_bind; [apply _ | apply stable_gets, _ |]. intros names.
    apply stable_for; [apply _|]. intros name.
    apply stable_bind; [apply _ | apply stable_gets, _ |].
    intros [database_object|]; [apply frame__schedule_blast | apply stable_raise, _]. }
  pose proof (frame_run_blasts os _ _ _ _ Hrun) as [_ _ F3 _ _ _ _ _].
  pose proof (frame_calls os ms s1) as [_ _ G3 _ _ _ G7 _]. fold s2 in G3, G7.
  apply run_blasts_preparation_raises.
  unfold _make_db_from_input_files. unfold bind at 1. simpl.
  unfold bind at 1. unfold os_symlink at 1, path_exists at 1. munfold.
  destruct s2 as [h2 w2]. simpl in *.
  rewrite Hbase, G3, F3. fold (destination (_input_genomes_tmp_dir s.1) file).
  rewrite bool_decide_eq_true_2 by set_solver. done.
Qed.

(** X16: an entry of the working dictionary that holds [None] is found
    only by a run.  With no input file [run_blasts] returns and changes
    nothing, whatever the dictionary holds; with at least one input file
    it never returns: it raises. *)
Theorem entry_without_database_stops_every_run s k :
  NoDup (dict.keys (working_dict s)) ->
  (k, None) ∈ working_dict s ->
  run_blasts os [] s = (inr tt, s) /\
  forall files r s', files <> [] -> run_blasts os files s = (r, s') -> exists e, r = inl e.
Proof.
  intros Hnd Hk. split; [done|].
  intros files r s' Hne Hrun. destruct r as [e|[]]; [by eexists|]. exfalso.
  revert Hrun. unfold run_blasts. unfold bind at 1. unfold self_get, gets at 1.
  unfold bind at 1.
  destruct (_make_db_from_input_files os (_input_genomes_tmp_dir s.1) files s)
    as [[e|db_files] s0] eqn:Hprep; [done|].
  pose proof (preparation_db_files os _ _ _ _ _ Hprep) as ->.
  pose proof (frame__make_db_from_input_files os _ _ _ _ _ Hprep) as Hf0.
  destruct files as [|file files]; [done|]. rewrite fmap_cons. simpl.
  unfold bind at 1. unfold bind at 1. unfold gets at 1.
  fold (working_dict s0).
  match goal with |- context [for_ (dict.keys (working_dict s0)) ?b s0] => set (inner := b) end.
  destruct (for_ (dict.keys (working_dict s0)) inner s0) as [[e|[]] sa] eqn:Hinner; [done|].
  intros _.
  assert (Hb : forall name, stable frame (inner name)).
  { intros name. unfold inner. apply stable_bind; [apply _ | apply stable_gets, _ |].
    intros [database_object|]; [apply frame__schedule_blast | apply stable_raise, _]. }
  assert (Hkin : k ∈ dict.keys (working_dict s0)).
  { rewrite (working_dict_frame _ _ Hf0). apply list_elem_of_fmap. by exists (k, None). }
  destruct (for_each frame _ inner s0 sa Hb Hinner k Hkin) as (s1 & s2 & H1 & Hstep & _).
  revert Hstep. unfold inner. unfold bind at 1. unfold gets at 1.
  fold (working_dict s1).
  rewrite (working_dict_frame _ _ H1), (working_dict_frame _ _ Hf0).
  by rewrite (dict_get_elem _ _ _ Hnd Hk).
Qed.
End Links.

(** ** The [db] subcommands *)

Section Subcommands.
Context {item : Type} (env : @cli.Collaborators item).

Lemma set_trace_id t : cli.set_trace (cli.trace t) t = t.
Proof. by destruct t. Qed.

Lemma since_app t cs t0 : cli.since t (cli.set_trace (cli.trace t ++ cs) t0) = cs.
Proof. unfold cli.since. simpl. by rewrite drop_app_length. Qed.

Lemma since_refl t : cli.since t t = [].
Proof. unfold cli.since. by rewrite drop_all. Qed.

(** Calls that are made one after the other stop at the first that
    raises. *)
Lemma do_calls cs t :
  cli.for_ cs (cli.do env) t =
    match cli.first_raising env cs with
    | None => (inr tt, cli.set_trace (cli.trace t ++ cs) t)
    | Some (pre, e) => (inl e, cli.set_trace (cli.trace t ++ pre) t)
    end.
Proof.
  revert t. induction cs as [|c cs IH]; intros t; simpl.
  - by rewrite app_nil_r, set_trace_id.
  - unfold cli.bind, cli.do at 1. destruct (cli.raises env c) eqn:Hc; [done|].
    rewrite IH. destruct (cli.first_raising env cs) as [[pre e]|]; simpl;
      unfold cli.set_trace; simpl; by rewrite <- app_assoc.
Qed.

Lemma quiet_app cs1 cs2 :
  cli.quiet env (cs1 ++ cs2) <-> cli.quiet env cs1 /\ cli.quiet env cs2.
Proof. unfold cli.quiet. apply Forall_app. Qed.

Lemma quiet_singleton c : cli.quiet env [c] <-> cli.raises env c = None.
Proof. unfold cli.quiet. by rewrite Forall_singleton. Qed.

Lemma first_raising_None cs : cli.first_raising env cs = None -> cli.quiet env cs.
Proof.
  induction cs as [|c l IH]; [constructor|].
  simpl. destruct (cli.raises env c) eqn:Hc; [done|]. intros H.
  constructor; [done|]. apply IH. by destruct (cli.first_raising env l) as [[? ?]|].
Qed.

Lemma first_raising_quiet cs : cli.quiet env cs -> cli.first_raising env cs = None.
Proof.
  induction 1 as [|c cs Hc _ IH]; simpl; [done|]. by rewrite Hc, IH.
Qed.

Lemma first_raising_app cs1 cs2 :
  cli.first_raising env (cs1 ++ cs2) =
    match cli.first_raising env cs1 with
    | Some x => Some x
    | None => match cli.first_raising env cs2 with
              | Some (pre, e) => Some (cs1 ++ pre, e)
              | None => None
              end
    end.
Proof.
  induction cs1 as [|c cs1 IH]; simpl.
  - by destruct (cli.first_raising env cs2) as [[? ?]|].
  - destruct (cli.raises env c); [done|]. rewrite IH.
    destruct (cli.first_raising env cs1) as [[? ?]|]; [done|].
    by destruct (cli.first_raising env cs2) as [[? ?]|].
Qed.

Lemma first_raising_prefix cs pre e :
  cli.first_raising env cs = Some (pre, e) ->
  exists c post, cs = pre ++ post /\ last pre = Some c /\ cli.raises env c = Some e /\
                 cli.quiet env (removelast pre).
Proof.
  revert pre. induction cs as [|c cs IH]; intros pre; simpl; [done|].
  destruct (cli.raises env c) eqn:Hc.
  - intros [= <- <-]. exists c, cs. repeat split; try done. constructor.
  - destruct (cli.first_raising env cs) as [[pre' e']|] eqn:Hcs; [|done].
    intros [= <- <-]. destruct (IH _ eq_refl) as (c' & post & -> & Hlast & Hr & Hq).
    exists c', post. split; [done|]. destruct pre' as [|x pre']; [done|].
    split; [done|]. split; [done|]. simpl in *. by constructor.
Qed.

Lemma cli_for_app {A} (l1 l2 : list A) (body : A -> cli.C unit) t :
  cli.for_ (l1 ++ l2) body t = cli.bind (cli.for_ l1 body) (fun _ => cli.for_ l2 body) t.
Proof.
  revert t. induction l1 as [|x l1 IH]; intros t; simpl; [done|].
  unfold cli.bind. destruct (body x t) as [[e|[]] t1]; [done|]. exact (IH t1).
Qed.

Lemma cli_bind_ext {A B} (c c' : cli.C A) (k k' : A -> cli.C B) t :
  c t = c' t -> (forall a t1, k a t1 = k' a t1) -> cli.bind c k t = cli.bind c' k' t.
Proof.
  intros Hc Hk. unfold cli.bind. rewrite Hc. by destruct (c' t) as [[e|a] t1].
Qed.

Lemma cli_for_calls {A} (l : list A) (f : A -> list cli.call) t :
  cli.for_ l (fun x => cli.for_ (f x) (cli.do env)) t = cli.for_ (l ≫= f) (cli.do env) t.
Proof.
  revert t. induction l as [|x l IH]; intros t; simpl; [done|].
  rewrite cli_for_app. unfold cli.bind. destruct (cli.for_ (f x) (cli.do env) t) as [[e|[]] t1]; [done|].
  apply IH.
Qed.

Lemma Database_run_eq args t :
  cli.Database_run env args t = cli.for_ (cli.Database_calls args) (cli.do env) t.
Proof.
  unfold cli.Database_run, cli.Database_calls. simpl. unfold cli.bind.
  destruct (cli.do env cli.SubCommand_run t) as [[e|[]] t1]; [done|].
  destruct (cli.db_command args); simpl; [done|].
  unfold cli.bind, cli.ret. by destruct (cli.do env cli.print_help t1) as [[e|[]] t2].
Qed.

End Subcommands.

Section Build.
Context {item : Type} (env : @cli.Collaborators item).

(** X17: [Build.run] refuses a destination that exists.  It raises,
    makes no directory and touches no database manager; when the calls
    of [Database.run] return, what it raises is a
    [CommandParseException], which asks for the help text only when the
    destination is the default directory that [_setup_args] recorded. *)
Theorem build_refuses_existing_destination _default_dir args t :
  cli.destination args ∈ cli.files t ->
  (forall r t', cli.Build_run env _default_dir args t = (r, t') ->
     (exists e, r = inl e) /\ cli.files t' = cli.files t /\
     forall c, c ∈ cli.since t t' -> c ∈ cli.Database_calls args) /\
  (cli.quiet env (cli.Database_calls args) ->
   cli.Build_run env _default_dir args t =
     (inl (if decide (cli.destination args = _default_dir)
           then cli.CommandParseException
                  ("Error, default destination [" +:+ cli.destination args +:+ "] already exists")
                  (Some true)
           else cli.CommandParseException
                  ("Error, destination [" +:+ cli.destination args +:+ "] already exists")
                  None),
      cli.set_trace (cli.trace t ++ cli.Database_calls args) t)).
Proof.
  intros Hin.
  assert (Heq : cli.Build_run env _default_dir args t =
    match cli.first_raising env (cli.Database_calls args) with
    | Some (pre, e) => (inl e, cli.set_trace (cli.trace t ++ pre) t)
    | None =>
        (inl (if decide (cli.destination args = _default_dir)
              then cli.CommandParseException
                     ("Error, default destination [" +:+ cli.destination args +:+ "] already exists")
                     (Some true)
              else cli.CommandParseException
                     ("Error, destination [" +:+ cli.destination args +:+ "] already exists")
                     None),
         cli.set_trace (cli.trace t ++ cli.Database_calls args) t)
    end).
  { unfold cli.Build_run. unfold cli.bind at 1. rewrite Database_run_eq, do_calls.
    destruct (cli.first_raising env (cli.Database_calls args)) as [[pre e]|]; [done|].
    unfold cli.bind, cli.path_exists. simpl.
    rewrite bool_decide_eq_true_2 by done.
    by destruct (decide (cli.destination args = _default_dir)). }
  split.
  - intros r t'. rewrite Heq.
    destruct (cli.first_raising env (cli.Database_calls args)) as [[pre e]|] eqn:Hfirst.
    + intros [= <- <-]. split; [by eexists|]. split; [done|].
      rewrite since_app. intros c Hc.
      destruct (first_raising_prefix env _ _ _ Hfirst) as (_ & post & -> & _).
      apply elem_of_app. by left.
    + intros [= <- <-]. split; [by eexists|]. split; [done|]. by rewrite since_app.
  - intros Hq. by rewrite Heq, (first_raising_quiet env _ Hq).
Qed.

(** X18: for a destination that does not exist, [Build.run] makes the
    directory first, then takes the manager — the default manager
    exactly when the destination is the default directory as
    [get_default_database_directory] gives it at that moment — then its
    handler, then builds with the two commits of the arguments.  It
    stops at the first of these calls that raises and lets the exception
    through; the command never removes the directory, so as far as the
    command changes the file system, a directory that was made stays
    when the build fails. *)
Theorem build_makes_directory_then_builds _default_dir args t :
  cli.destination args ∉ cli.files t ->
  let cs := cli.Database_calls args ++ cli.build_calls env args in
  exists t',
    cli.Build_run env _default_dir args t =
      (match cli.first_raising env cs with
       | None => inr tt
       | Some (_, e) => inl e
       end, t') /\
    cli.since t t' = match cli.first_raising env cs with
                     | None => cs
                     | Some (pre, _) => pre
                     end /\
    (cli.destination args ∈ cli.files t' <->
     cli.quiet env (cli.Database_calls args ++ [cli.mkdir (cli.destination args)])).
Proof.
  intros Hnin cs. subst cs. rewrite first_raising_app.
  unfold cli.Build_run. unfold cli.bind at 1. rewrite Database_run_eq, do_calls.
  destruct (cli.first_raising env (cli.Database_calls args)) as [[pre e]|] eqn:Hdb.
  { eexists. split; [done|]. split; [by rewrite since_app|].
    split; [done|]. intros Hq. apply quiet_app in Hq as [Hq _].
    by rewrite (first_raising_quiet env _ Hq) in Hdb. }
  pose proof (first_raising_None env _ Hdb) as Hq. clear Hdb.
  set (db := cli.Database_calls args) in *. clearbody db.
  assert (Hmkdir : cli.os_mkdir env (cli.destination args)
                     (cli.set_trace (cli.trace t ++ db) t) =
    let t1 := cli.set_trace (cli.trace t ++ db ++ [cli.mkdir (cli.destination args)]) t in
    match cli.raises env (cli.mkdir (cli.destination args)) with
    | Some e => (inl e, t1)
    | None => (inr tt, cli.set_files ({[ cli.destination args ]} ∪ cli.files t) t1)
    end).
  { unfold cli.os_mkdir, cli.bind, cli.path_exists, cli.do. simpl.
    rewrite bool_decide_eq_false_2 by done.
    destruct (cli.raises env (cli.mkdir (cli.destination args))); simpl;
      unfold cli.set_trace, cli.set_files; simpl; by rewrite <- app_assoc. }
  unfold cli.bind at 1. unfold cli.path_exists at 1. simpl.
  rewrite bool_decide_eq_false_2 by done.
  unfold cli.bind at 1. rewrite Hmkdir. clear Hmkdir. simpl.
  unfold cli.build_calls. simpl.
  destruct (cli.raises env (cli.mkdir (cli.destination args))) eqn:Hmk; simpl.
  { eexists. split; [done|]. unfold cli.since. simpl.
    rewrite drop_app_length. split; [done|].
    split; [done|]. intros H.
    apply quiet_app in H as [_ H].
    apply quiet_singleton in H. congruence. }
  assert (Hfiles : forall X, cli.destination args ∈ ({[cli.destination args]} ∪ X : gset string) <->
            cli.quiet env (db ++ [cli.mkdir (cli.destination args)])).
  { intros X. split; [|set_solver]. intros _. apply quiet_app. split; [done|].
    by apply quiet_singleton. }
  unfold cli.bind, cli.do, cli.ret.
  destruct (decide (cli.destination args = cli.get_default_database_directory env)); simpl;
    repeat (match goal with
            | |- context [cli.raises env ?c] => destruct (cli.raises env c) eqn:?; simpl
            end);
    (eexists; split; [done|]; unfold cli.since; simpl;
     rewrite <- ?app_assoc, drop_app_length; split; [done|]; apply Hfiles).
Qed.

End Build.

Section Update.
Context {item : Type} (env : @cli.Collaborators item).

(** [Update.run] on directories is the calls of [Database.run] and then
    the three calls for every directory, one after the other. *)
Lemma Update_run_directories args t :
  cli.directories args <> [] ->
  cli.Update_run env args t =
    cli.for_ (cli.Database_calls args ++ (cli.directories args ≫= cli.update_calls args))
      (cli.do env) t.
Proof.
  intros Hne. unfold cli.Update_run.
  rewrite cli_for_app. apply cli_bind_ext; [apply Database_run_eq|]. intros _ t1.
  destruct (decide (length (cli.directories args) = 0%nat)) as [Hlen|_].
  { by destruct (cli.directories args). }
  rewrite <- (cli_for_calls env). clear Hne.
  revert t1. induction (cli.directories args) as [|d l IH]; intros t1; simpl; [done|].
  unfold cli.bind, cli.ret, cli.do.
  repeat (match goal with
          | |- context [cli.raises env ?c] => destruct (cli.raises env c) eqn:?; simpl
          end); first [done | apply IH].
Qed.

(** X19: when directories are given, [Update.run] never reads the
    flag [--update-default]: with the flag and without it the command
    does the same, and no call goes to the default manager, its handler
    or the default database. *)
Theorem update_directories_leave_default_alone args t b :
  cli.directories args <> [] ->
  cli.Update_run env (cli.set_update_default b args) t = cli.Update_run env args t /\
  Forall (fun c => cli.on_default c = false)
    (cli.since t (cli.Update_run env args t).2).
Proof.
  intros Hne. split.
  { by rewrite !Update_run_directories. }
  rewrite Update_run_directories, do_calls by done.
  assert (Hall : Forall (fun c => cli.on_default c = false)
                   (cli.Database_calls args ++ (cli.directories args ≫= cli.update_calls args))).
  { apply Forall_app. split.
    - unfold cli.Database_calls. destruct (cli.db_command args); repeat constructor.
    - apply Forall_forall. intros c Hc. apply list_elem_of_bind in Hc as (d & Hc & _).
      unfold cli.update_calls in Hc.
      repeat (apply elem_of_cons in Hc as [->|Hc]; [done|]). by apply elem_of_nil in Hc. }
  destruct (cli.first_raising env _) as [[pre e]|] eqn:Hfirst; simpl; rewrite since_app.
  - destruct (first_raising_prefix env _ _ _ Hfirst) as (_ & post & Heq & _).
    rewrite Heq in Hall. by apply Forall_app in Hall as [Hall _].
  - done.
Qed.

(** X20: [Update.run] updates the directories in the order given and
    stops at the first directory for which a call raises: it lets that
    exception through, the directories before it have been updated, and
    no call is made for a directory after it. *)
Theorem update_stops_at_first_failure args t pre directory post cs e :
  cli.directories args = pre ++ directory :: post ->
  cli.quiet env (cli.Database_calls args ++ (pre ≫= cli.update_calls args)) ->
  cli.first_raising env (cli.update_calls args directory) = Some (cs, e) ->
  cli.Update_run env args t =
    (inl e, cli.set_trace (cli.trace t ++ cli.Database_calls args ++
                            (pre ≫= cli.update_calls args) ++ cs) t).
Proof.
  intros Hdirs Hq Hfirst.
  rewrite Update_run_directories, do_calls by (rewrite Hdirs; by destruct pre).
  rewrite Hdirs, bind_app, bind_cons.
  rewrite (app_assoc (cli.Database_calls args)).
  rewrite first_raising_app, (first_raising_quiet env _ Hq).
  rewrite first_raising_app, Hfirst. by rewrite <- !app_assoc.
Qed.

(** X21: when no call raises, [Update.run] returns after the three
    calls — manager, handler, update with the two commits of the
    arguments — for every directory, in the order given. *)
Theorem update_updates_every_directory args t :
  cli.directories args <> [] ->
  cli.quiet env (cli.Database_calls args ++ (cli.directories args ≫= cli.update_calls args)) ->
  cli.Update_run env args t =
    (inr tt, cli.set_trace (cli.trace t ++ cli.Database_calls args ++
                              (cli.directories args ≫= cli.update_calls args)) t).
Proof.
  intros Hne Hq. by rewrite Update_run_directories, do_calls, (first_raising_quiet env _ Hq).
Qed.

(** X22: [Update.run] without directories.  Without the flag it raises
    a [CommandParseException] that asks for the help text, and calls no
    manager.  With the flag it takes the handler of the default manager
    with [force_use_git=True] and updates; an exception of these calls
    is let through, and an error is logged before that exactly when the
    exception is a [DatabaseErrorException]. *)
Theorem update_without_directories args t :
  cli.directories args = [] ->
  cli.quiet env (cli.Database_calls args) ->
  cli.Update_run env args t =
    if cli.update_default args then
      match cli.first_raising env (cli.update_default_calls args) with
      | None =>
          (inr tt, cli.set_trace (cli.trace t ++ cli.Database_calls args
                                  ++ cli.update_default_calls args) t)
      | Some (pre, e) =>
          (inl e,
           cli.set_trace
             (cli.trace t ++ cli.Database_calls args ++ pre ++
              match e with
              | cli.DatabaseErrorException _ =>
                  [cli.logger_error
                     "Could not update default database. Please try restoring with 'staramr db restore'"]
              | _ => []
              end) t)
      end
    else
      (inl (cli.CommandParseException
              "Must pass at least one directory to update, or use '--update-default'"
              (Some true)),
       cli.set_trace (cli.trace t ++ cli.Database_calls args) t).
Proof.
  intros Hdirs Hq. unfold cli.Update_run. unfold cli.bind at 1.
  rewrite Database_run_eq, do_calls, (first_raising_quiet env _ Hq), Hdirs.
  clear Hq. set (db := cli.Database_calls args). clearbody db. simpl.
  destruct (cli.update_default args); simpl; [|done].
  unfold cli.try_except, cli.update_default_calls, cli.bind, cli.do, cli.log_error, cli.raise.
  simpl.
  repeat (match goal with
          | |- context [cli.raises env ?c] => destruct (cli.raises env c) as [[]|] eqn:?; simpl
          end);
    unfold cli.set_trace; simpl; by rewrite <- ?app_assoc.
Qed.

End Update.

Section Info.
Context {item : Type} (env : @cli.Collaborators item).

Lemma write_info_eq h t :
  cli.write_info env h t = cli.for_ (cli.write_info_calls env h) (cli.do env) t.
Proof.
  unfold cli.write_info, cli.write_info_calls. simpl. unfold cli.bind, cli.ret, cli.do.
  repeat (match goal with
          | |- context [cli.raises env ?c] => destruct (cli.raises env c); simpl
          end); done.
Qed.

(** The [try] of [Info.run] for a directory, when the only exception
    is [DatabaseNotFoundException]. *)
Lemma info_directory directory t :
  (forall c e, c ∈ cli.info_try_calls env directory -> cli.raises env c = Some e ->
               exists msg, e = cli.DatabaseNotFoundException msg) ->
  cli.try_except
    (cli.bind (cli.do env (cli.new_AMRDatabasesManager directory)) (fun _ =>
     cli.bind (cli.do env (cli.get_database_handler (cli.manager_at directory) None)) (fun _ =>
     cli.write_info env (cli.manager_at directory, None))))
    (fun e =>
       match e with
       | cli.DatabaseNotFoundException _ =>
           cli.log_error ("Database not found in [" +:+ directory
                          +:+ "]. Perhaps try building with 'staramr db build --dir "
                          +:+ directory +:+ "'")
       | _ => cli.raise e
       end) t
  = (inr tt, cli.set_trace (cli.trace t ++ cli.info_calls env directory) t).
Proof.
  intros Honly.
  assert (Hall : Forall (fun c => forall e, cli.raises env c = Some e ->
                                  exists msg, e = cli.DatabaseNotFoundException msg)
                   (cli.info_try_calls env directory)).
  { apply Forall_forall. intros c Hc e. by apply Honly. }
  clear Honly.
  unfold cli.info_calls. unfold cli.info_try_calls in *. unfold cli.write_info_calls in *.
  repeat (apply Forall_cons in Hall as [? Hall]). clear Hall.
  unfold cli.try_except, cli.write_info, cli.bind, cli.do, cli.log_error. simpl.
  repeat (match goal with
          | Hi : forall e, cli.raises env ?c = Some e -> _ |- context [cli.raises env ?c] =>
              destruct (cli.raises env c) as [?|];
              [destruct (Hi _ eq_refl) as [? ->]|]; clear Hi; simpl
          end);
    unfold cli.set_trace; simpl; by rewrite <- ?app_assoc.
Qed.

(** X23: [Info.run] on directories, when the only exception that the
    calls for the directories raise is [DatabaseNotFoundException].  The
    command returns; every directory is visited, in the order given; for
    each one the information is written, or the calls stop at the one
    that raised and an error that names the directory is logged, and the
    command goes on with the next directory. *)
Theorem info_reports_every_directory args t :
  cli.directories args <> [] ->
  cli.quiet env (cli.Database_calls args ++ [cli.new_ARGDrugTable]) ->
  (forall directory c e,
     directory ∈ cli.directories args ->
     c ∈ cli.info_try_calls env directory -> cli.raises env c = Some e ->
     exists msg, e = cli.DatabaseNotFoundException msg) ->
  cli.Info_run env args t =
    (inr tt, cli.set_trace (cli.trace t ++ cli.Database_calls args ++ [cli.new_ARGDrugTable] ++
                              (cli.directories args ≫= cli.info_calls env)) t) /\
  omap cli.visited (cli.directories args ≫= cli.info_calls env) = cli.directories args.
Proof.
  intros Hne Hq Honly. split.
  - apply quiet_app in Hq as [Hq1 Hq2]. apply quiet_singleton in Hq2.
    unfold cli.Info_run. unfold cli.bind at 1.
    rewrite Database_run_eq, do_calls, (first_raising_quiet env _ Hq1).
    set (db := cli.Database_calls args). clearbody db.
    unfold cli.bind at 1. unfold cli.do at 1. rewrite Hq2.
    destruct (decide (length (cli.directories args) = 0%nat)) as [Hlen|_].
    { by destruct (cli.directories args). }
    clear Hne. simpl.
    assert (Hgen : forall t1,
              cli.for_ (cli.directories args) (fun directory =>
                cli.try_except
                  (cli.bind (cli.do env (cli.new_AMRDatabasesManager directory)) (fun _ =>
                   cli.bind (cli.do env (cli.get_database_handler (cli.manager_at directory) None))
                     (fun _ => cli.write_info env (cli.manager_at directory, None))))
                  (fun e =>
                     match e with
                     | cli.DatabaseNotFoundException _ =>
                         cli.log_error ("Database not found in [" +:+ directory
                           +:+ "]. Perhaps try building with 'staramr db build --dir "
                           +:+ directory +:+ "'")
                     | _ => cli.raise e
                     end)) t1
              = (inr tt, cli.set_trace
                           (cli.trace t1 ++ (cli.directories args ≫= cli.info_calls env)) t1)).
    { induction (cli.directories args) as [|d l IH]; intros t1; simpl.
      - by rewrite app_nil_r, set_trace_id.
      - unfold cli.bind at 1. rewrite info_directory.
        + rewrite IH.
          * unfold cli.set_trace. simpl. by rewrite <- app_assoc.
          * intros d' c e Hd'. apply Honly. apply elem_of_cons; by right.
        + intros c e. apply Honly. apply elem_of_cons; by left. }
    rewrite Hgen. unfold cli.set_trace. simpl. by rewrite <- !app_assoc.
  - clear Hne Hq. induction (cli.directories args) as [|d l IH]; [done|].
    rewrite bind_cons, omap_app, IH.
    + assert (Hd : omap cli.visited (cli.info_calls env d) = [d]); [|by rewrite Hd].
      unfold cli.info_calls, cli.info_try_calls, cli.write_info_calls. simpl.
      repeat (match goal with
              | |- context [cli.raises env ?c] => destruct (cli.raises env c); simpl
              end); done.
    + intros d' c e Hd'. apply Honly. apply elem_of_cons; by right.
Qed.

(** X24: [Info.run] without directories takes the handler of the
    default manager before the [try]: a [DatabaseNotFoundException] of
    that call is not caught, and the command raises it.  The same
    exception from a call inside the [try] is caught: an error is logged
    and the command returns. *)
Theorem info_default_not_found args t msg :
  cli.directories args = [] ->
  cli.quiet env (cli.Database_calls args ++ [cli.new_ARGDrugTable; cli.create_default_manager]) ->
  let get := cli.get_database_handler cli.default_manager None in
  let before := cli.Database_calls args ++ [cli.new_ARGDrugTable; cli.create_default_manager; get] in
  (cli.raises env get = Some (cli.DatabaseNotFoundException msg) ->
   cli.Info_run env args t =
     (inl (cli.DatabaseNotFoundException msg), cli.set_trace (cli.trace t ++ before) t)) /\
  (forall pre,
     cli.raises env get = None ->
     cli.first_raising env (cli.write_info_calls env (cli.default_manager, None))
       = Some (pre, cli.DatabaseNotFoundException msg) ->
     cli.Info_run env args t =
       (inr tt,
        cli.set_trace
          (cli.trace t ++ before ++ pre ++
           [cli.logger_error
              "No database found. Perhaps try restoring the default with 'staramr db restore'"])
          t)).
Proof.
  intros Hdirs Hq get before. subst before.
  apply quiet_app in Hq as [Hq1 Hq2].
  inversion Hq2 as [|? ? Ha Hq3]; subst. inversion Hq3 as [|? ? Hb _]; subst. clear Hq2 Hq3.
  assert (Heq : cli.Info_run env args t =
    cli.bind (cli.do env get) (fun _ =>
      cli.try_except (cli.write_info env (cli.default_manager, None))
        (fun e =>
           match e with
           | cli.DatabaseNotFoundException _ =>
               cli.log_error
                 "No database found. Perhaps try restoring the default with 'staramr db restore'"
           | _ => cli.raise e
           end))
      (cli.set_trace (cli.trace t ++ cli.Database_calls args
                      ++ [cli.new_ARGDrugTable; cli.create_default_manager]) t)).
  { unfold cli.Info_run. unfold cli.bind at 1.
    rewrite Database_run_eq, do_calls, (first_raising_quiet env _ Hq1).
    set (db := cli.Database_calls args). clearbody db.
    rewrite Hdirs.
    unfold cli.bind at 1. unfold cli.do at 1. rewrite Ha.
    unfold cli.bind at 1. unfold cli.do at 1. rewrite Hb.
    unfold cli.set_trace. simpl. by rewrite <- !app_assoc. }
  rewrite Heq. clear Heq. set (db := cli.Database_calls args). clearbody db.
  unfold cli.bind, cli.do. split.
  - intros Hget. rewrite Hget. unfold cli.set_trace. simpl. by rewrite <- !app_assoc.
  - intros pre Hget Hfirst. rewrite Hget.
    unfold cli.try_except. rewrite write_info_eq, do_calls, Hfirst.
    unfold cli.log_error, cli.set_trace. simpl. by rewrite <- !app_assoc.
Qed.

End Info.

Section Restore.
Context {item : Type} (env : @cli.Collaborators item).

Lemma read_input_eq prompt t :
  cli.read_input env prompt t =
    let t1 := cli.set_trace (cli.trace t ++ [cli.input prompt]) t in
    match cli.raises env (cli.input prompt) with
    | Some e => (inl e, t1)
    | None => match cli.stdin t with
              | [] => (inl cli.EOFError, t1)
              | line :: rest => (inr line, cli.set_stdin rest t1)
              end
    end.
Proof.
  unfold cli.read_input, cli.bind, cli.do.
  destruct (cli.raises env (cli.input prompt)); simpl; [done|]. by destruct (cli.stdin t).
Qed.

(** The loop of [_confirm_restore] does not depend on the bound of the
    recursion, once the bound is the number of lines that are left. *)
Lemma confirm_loop_fuel fuel t :
  (length (cli.stdin t) <= fuel)%nat ->
  cli.confirm_loop env fuel t = cli._confirm_restore env t.
Proof.
  unfold cli._confirm_restore.
  remember (cli.stdin t) as lines eqn:Hlines.
  revert fuel t Hlines. induction lines as [|line rest IH]; intros fuel t Hlines Hle.
  - destruct fuel as [|fuel]; simpl; [done|].
    unfold cli.bind. rewrite read_input_eq, <- Hlines. simpl.
    by destruct (cli.raises env _).
  - destruct fuel as [|fuel]; simpl in Hle; [lia|]. simpl.
    unfold cli.bind. rewrite read_input_eq, <- Hlines. simpl.
    destruct (cli.raises env _); [done|].
    repeat case_decide; try done.
    by rewrite (IH fuel) by (simpl; done || lia).
Qed.

Lemma answer_None r : cli.answer r = None -> ~ (r = "y" \/ r = "yes") /\ ~ (r = "n" \/ r = "no").
Proof. unfold cli.answer. by repeat case_decide. Qed.

(** The loop of [_confirm_restore] up to the first answer that means
    something. *)
Lemma confirm_loop_answer fuel t pre line rest b :
  cli.stdin t = pre ++ line :: rest ->
  (length pre < fuel)%nat ->
  cli.raises env (cli.input cli.restore_prompt) = None ->
  Forall (fun l => cli.answer (cli.response env l) = None) pre ->
  cli.answer (cli.response env line) = Some b ->
  cli.confirm_loop env fuel t =
    (inr b,
     cli.set_stdin rest
       (cli.set_trace
          (cli.trace t ++ replicate (S (length pre)) (cli.input cli.restore_prompt)) t)).
Proof.
  intros Hstdin Hfuel Hin Hpre Hline.
  revert fuel t Hstdin Hfuel.
  induction Hpre as [|l pre Hl Hpre IH]; intros fuel t Hstdin Hfuel;
    (destruct fuel as [|fuel]; [simpl in Hfuel; lia|]); simpl in *.
  - unfold cli.bind. fold cli.restore_prompt. rewrite read_input_eq, Hin, Hstdin. simpl.
    fold (cli.response env line). unfold cli.answer in Hline. unfold cli.ret.
    repeat case_decide; by simplify_eq.
  - unfold cli.bind at 1. fold cli.restore_prompt. rewrite read_input_eq, Hin, Hstdin. simpl.
    fold (cli.response env l). apply answer_None in Hl as [Hy Hn].
    rewrite (decide_False _ _ Hy), (decide_False _ _ Hn).
    rewrite (IH fuel) by (done || lia). unfold cli.set_stdin, cli.set_trace. simpl.
    by rewrite <- app_assoc.
Qed.

(** X25: [_confirm_restore] returns the first answer that means
    something.  The lines before it, which are none of [y], [yes], [n]
    and [no] once in lower case and stripped, are read and dropped; each
    of them costs one more question; the lines after it are not read. *)
Theorem confirm_restore_first_answer t pre line rest b :
  cli.stdin t = pre ++ line :: rest ->
  cli.raises env (cli.input cli.restore_prompt) = None ->
  Forall (fun l => cli.answer (cli.response env l) = None) pre ->
  cli.answer (cli.response env line) = Some b ->
  exists t',
    cli._confirm_restore env t = (inr b, t') /\
    cli.stdin t' = rest /\
    cli.files t' = cli.files t /\
    cli.since t t' = replicate (S (length pre)) (cli.input cli.restore_prompt).
Proof.
  intros Hstdin Hin Hpre Hline. eexists. split.
  - unfold cli._confirm_restore. apply (confirm_loop_answer _ t pre line rest b); try done.
    rewrite Hstdin, length_app. simpl. lia.
  - split; [done|]. split; [done|]. unfold cli.since. simpl. by rewrite drop_app_length.
Qed.

(** X26: when no line of the input means something, [_confirm_restore]
    asks once for every line and once more, and raises [EOFError]: it
    never returns without an answer. *)
Theorem confirm_restore_without_answer t :
  cli.raises env (cli.input cli.restore_prompt) = None ->
  Forall (fun l => cli.answer (cli.response env l) = None) (cli.stdin t) ->
  cli._confirm_restore env t =
    (inl cli.EOFError,
     cli.set_stdin []
       (cli.set_trace
          (cli.trace t ++ replicate (S (length (cli.stdin t))) (cli.input cli.restore_prompt))
          t)).
Proof.
  intros Hin Hall. unfold cli._confirm_restore.
  remember (cli.stdin t) as lines eqn:Hlines.
  revert t Hlines. induction Hall as [|l lines Hl Hall IH]; intros t Hlines; simpl.
  - unfold cli.bind. fold cli.restore_prompt. rewrite read_input_eq, Hin, <- Hlines. simpl.
    unfold cli.set_stdin, cli.set_trace. simpl. by rewrite <- Hlines.
  - unfold cli.bind at 1. fold cli.restore_prompt. rewrite read_input_eq, Hin, <- Hlines. simpl.
    fold (cli.response env l). apply answer_None in Hl as [Hy Hn].
    rewrite (decide_False _ _ Hy), (decide_False _ _ Hn).
    rewrite IH by done. unfold cli.set_stdin, cli.set_trace. simpl.
    by rewrite <- app_assoc.
Qed.

(** X27: with [--force], [RestoreDefault.run] asks nothing: it reads no
    line of the input, and when the calls before it return it calls
    [restore_default]. *)
Theorem forced_restore_asks_nothing args t :
  cli.force args = true ->
  cli.stdin (cli.RestoreDefault_run env args t).2 = cli.stdin t /\
  Forall (fun c => cli.is_input c = false)
    (cli.since t (cli.RestoreDefault_run env args t).2) /\
  (cli.quiet env (cli.Database_calls args ++ [cli.create_default_manager]) ->
   cli.since t (cli.RestoreDefault_run env args t).2 =
     cli.Database_calls args ++ [cli.create_default_manager; cli.restore_default]).
Proof.
  intros Hforce.
  assert (Heq : cli.RestoreDefault_run env args t =
    cli.for_ (cli.Database_calls args ++ [cli.create_default_manager; cli.restore_default])
      (cli.do env) t).
  { unfold cli.RestoreDefault_run. rewrite cli_for_app.
    apply cli_bind_ext; [apply Database_run_eq|]. intros _ t1.
    rewrite Hforce. simpl. unfold cli.bind, cli.ret, cli.do.
    repeat (match goal with
            | |- context [cli.raises env ?c] => destruct (cli.raises env c); simpl
            end); done. }
  rewrite Heq, do_calls, first_raising_app. clear Heq.
  assert (Hdbin : Forall (fun c => cli.is_input c = false) (cli.Database_calls args)).
  { unfold cli.Database_calls. destruct (cli.db_command args); repeat constructor. }
  set (db := cli.Database_calls args) in *. clearbody db.
  destruct (cli.first_raising env db) as [[pre e]|] eqn:Hdb.
  - simpl. rewrite since_app. split; [done|]. split.
    + destruct (first_raising_prefix env _ _ _ Hdb) as (_ & post & Hcs & _).
      rewrite Hcs in Hdbin. by apply Forall_app in Hdbin as [Hdbin _].
    + intros Hq. apply quiet_app in Hq as [Hq _].
      by rewrite (first_raising_quiet env _ Hq) in Hdb.
  - simpl.
    destruct (cli.raises env cli.create_default_manager) eqn:Hcdm;
      [|destruct (cli.raises env cli.restore_default)];
      simpl; rewrite since_app; (split; [done|]); split;
      try (apply Forall_app; split; [done|repeat constructor]); try done.
    intros Hq. apply quiet_app in Hq as [_ Hq]. apply quiet_singleton in Hq. congruence.
Qed.

(** X28: without [--force], [RestoreDefault.run] follows the first
    answer that means something: the default database is restored when
    the answer is [y] or [yes], and the command returns without
    restoring when it is [n] or [no].  The manager is made before the
    question is asked. *)
Theorem restore_follows_the_answer args t pre line rest b :
  cli.force args = false ->
  cli.quiet env (cli.Database_calls args ++
                 [cli.create_default_manager; cli.input cli.restore_prompt]) ->
  cli.stdin t = pre ++ line :: rest ->
  Forall (fun l => cli.answer (cli.response env l) = None) pre ->
  cli.answer (cli.response env line) = Some b ->
  cli.RestoreDefault_run env args t =
    (if b then match cli.raises env cli.restore_default with
               | Some e => inl e
               | None => inr tt
               end
     else inr tt,
     cli.set_stdin rest
       (cli.set_trace
          (cli.trace t ++ cli.Database_calls args ++ [cli.create_default_manager] ++
           replicate (S (length pre)) (cli.input cli.restore_prompt) ++
           (if b then [cli.restore_default] else [])) t)).
Proof.
  intros Hforce Hq Hstdin Hpre Hline.
  apply quiet_app in Hq as [Hq1 Hq2].
  inversion Hq2 as [|? ? Ha Hq3]; subst. inversion Hq3 as [|? ? Hb _]; subst. clear Hq2 Hq3.
  unfold cli.RestoreDefault_run. unfold cli.bind at 1.
  rewrite Database_run_eq, do_calls, (first_raising_quiet env _ Hq1). clear Hq1.
  set (db := cli.Database_calls args). clearbody db.
  unfold cli.bind at 1. unfold cli.do at 1. rewrite Ha, Hforce. simpl.
  unfold cli.bind at 1.
  unfold cli._confirm_restore.
  rewrite (confirm_loop_answer _ _ pre line rest b);
    [|done|simpl; rewrite Hstdin, length_app; simpl; lia|done..].
  destruct b; simpl.
  - unfold cli.do. destruct (cli.raises env cli.restore_default);
      unfold cli.set_stdin, cli.set_trace; simpl; by rewrite <- !app_assoc.
  - unfold cli.ret, cli.set_stdin, cli.set_trace. simpl.
    by rewrite app_nil_r, <- !app_assoc.
Qed.

End Restore.

(** ** The further properties at work on the example data *)

Lemma constructor_nonpositive_threads_witness :
  let w := Example.world_of Example.d_res in
  0 <= 0 /\
  dict.get "pointfinder" (heap w !!! 0%nat) = Some None /\
  exists w',
    __init__ Example.tool_ok 0%nat (Some 0) (Some "out") w =
      (inl (ValueError "max_workers must be greater than 0"), w') /\
    fs w' = fs w /\
    heap w' = <[0%nat := dict.del "pointfinder" (heap w !!! 0%nat)]> (heap w).
Proof.
  intros w.
  assert (H1 : 0 <= 0) by lia.
  assert (H2 : dict.get "pointfinder" (heap w !!! 0%nat) = Some None)
    by (vm_compute; reflexivity).
  split; [exact H1|]. split; [exact H2|].
  exact (constructor_nonpositive_threads Example.tool_ok 0%nat 0 "out" w None H1 H2).
Defined.

Lemma constructor_mkdir_refused_witness :
  let w := Example.world_of Example.d_res in
  0 < 2 /\
  dict.get "pointfinder" (heap w !!! 0%nat) = Some None /\
  (path.join "out" "input-genomes" ∉ fs w) /\
  mkdir_errno Example.tool_no_mkdir (path.join "out" "input-genomes") = Some 13 /\
  exists w',
    __init__ Example.tool_no_mkdir 0%nat (Some 2) (Some "out") w =
      (inl (OSError 13 (path.join "out" "input-genomes")), w') /\
    fs w' = fs w /\
    heap w' = <[0%nat := dict.del "pointfinder" (heap w !!! 0%nat)]> (heap w).
Proof.
  intros w.
  assert (H1 : 0 < 2) by lia.
  assert (H2 : dict.get "pointfinder" (heap w !!! 0%nat) = Some None)
    by (vm_compute; reflexivity).
  assert (H3 : path.join "out" "input-genomes" ∉ fs w) by compute_done.
  assert (H4 : mkdir_errno Example.tool_no_mkdir (path.join "out" "input-genomes") = Some 13)
    by reflexivity.
  split; [exact H1|]. split; [exact H2|]. split; [exact H3|]. split; [exact H4|].
  exact (constructor_mkdir_refused Example.tool_no_mkdir 0%nat 2 "out" w None 13 H1 H2 H3 H4).
Defined.

Lemma reset_missing_directory_witness :
  let os := Example.tool_no_mkdir in
  let s := Example.s_no_dir in
  let r := (reset os s).1 in
  let s' := (reset os s).2 in
  0 < _threads s.1 /\
  (_input_genomes_tmp_dir s.1 ∉ fs s.2) /\
  reset os s = (r, s') /\
  let dir := _input_genomes_tmp_dir s.1 in
  match mkdir_errno os dir with
  | None => r = inr tt /\ fs s'.2 = {[ dir ]} ∪ fs s.2
  | Some n => r = inl (OSError n dir) /\ fs s'.2 = fs s.2
  end /\
  _blast_map s'.1 = ∅ /\ _future_blasts_map s'.1 = ∅ /\
  _thread_pool_executor s'.1 = Some {| _max_workers := _threads s.1; _work_queue := [] |}.
Proof.
  intros os s r s'.
  assert (H1 : 0 < _threads s.1) by (simpl; lia).
  assert (H2 : _input_genomes_tmp_dir s.1 ∉ fs s.2) by compute_done.
  assert (H3 : reset os s = (r, s')) by apply surjective_pairing.
  split; [exact H1|]. split; [exact H2|]. split; [exact H3|].
  exact (reset_missing_directory os s r s' H1 H2 H3).
Defined.

Lemma pool_has_configured_size_witness :
  let os := Example.tool_bad_index in
  let s := calls os [call_run_blasts ["y.fa"]; call_get_resfinder_outputs; call_reset]
             Example.s_res in
  reachable os s /\
  exists ex,
    _thread_pool_executor s.1 = Some ex /\
    _max_workers ex = _threads s.1 /\ 0 < _threads s.1.
Proof.
  intros os s.
  assert (H : reachable os s).
  { apply (reachable_call os _ call_reset),
          (reachable_call os _ call_get_resfinder_outputs),
          (reachable_call os _ (call_run_blasts ["y.fa"])).
    apply (reachable_init os 0%nat (Some 2) (Some "out") (Example.world_of Example.d_res)).
    vm_compute. reflexivity. }
  split; [exact H|].
  exact (pool_has_configured_size os s H).
Defined.

Lemma getters_only_wait_witness :
  let os := Example.tool_bad_blast in
  let s := (run_blasts os ["x.fa"] Example.s_res).2 in
  let name := "resfinder" in
  let get := get_resfinder_outputs os in
  let r := (get s).1 in
  let s' := (get s).2 in
  (name = "resfinder" /\ get = get_resfinder_outputs os \/
   name = "pointfinder" /\ get = get_pointfinder_outputs os) /\
  get s = (r, s') /\
  read_only s s' /\ (get s').1 = r.
Proof.
  intros os s name get r s'.
  assert (H1 : name = "resfinder" /\ get = get_resfinder_outputs os \/
               name = "pointfinder" /\ get = get_pointfinder_outputs os).
  { left. split; reflexivity. }
  assert (H2 : get s = (r, s')) by apply surjective_pairing.
  split; [exact H1|]. split; [exact H2|].
  exact (getters_only_wait os s name get r s' H1 H2).
Defined.

Lemma failure_stays_in_its_group_witness :
  let os := Example.tool_bad_blast in
  let s := (run_blasts os ["x.fa"] Example.s_both).2 in
  let name1 := "resfinder" in
  let get1 := get_resfinder_outputs os in
  let name2 := "pointfinder" in
  let get2 := get_pointfinder_outputs os in
  let r := (get1 s).1 in
  let s' := (get1 s).2 in
  (name1 = "resfinder" /\ get1 = get_resfinder_outputs os \/
   name1 = "pointfinder" /\ get1 = get_pointfinder_outputs os) /\
  (name2 = "resfinder" /\ get2 = get_resfinder_outputs os \/
   name2 = "pointfinder" /\ get2 = get_pointfinder_outputs os /\
     _pointfinder_configured s.1 = true) /\
  get1 s = (r, s') /\
  Forall (fun f => outcome os f = inr tt) (handles s name2) /\
  (exists e, r = inl e) /\
  (get2 s').1 = inr (group_results s name2).
Proof.
  intros os s name1 get1 name2 get2 r s'.
  assert (H1 : name1 = "resfinder" /\ get1 = get_resfinder_outputs os \/
               name1 = "pointfinder" /\ get1 = get_pointfinder_outputs os).
  { left. split; reflexivity. }
  assert (H2 : name2 = "resfinder" /\ get2 = get_resfinder_outputs os \/
               name2 = "pointfinder" /\ get2 = get_pointfinder_outputs os /\
                 _pointfinder_configured s.1 = true).
  { right. split; [reflexivity|]. split; [reflexivity|]. vm_compute. reflexivity. }
  assert (H3 : get1 s = (r, s')) by apply surjective_pairing.
  assert (H4 : Forall (fun f => outcome os f = inr tt) (handles s name2)).
  { vm_compute. repeat constructor. }
  split; [exact H1|]. split; [exact H2|]. split; [exact H3|]. split; [exact H4|].
  split; [eexists; vm_compute; reflexivity|].
  exact (failure_stays_in_its_group os s name1 get1 r s' name2 get2 H1 H2 H3 H4).
Defined.

Lemma pointfinder_configured_witness :
  let os := Example.tool_ok in
  let w := Example.world_of Example.d_both in
  let h := Example.s_both.1 in
  let w' := Example.s_both.2 in
  __init__ os 0%nat (Some 2) (Some "out") w = (inr h, w') /\
  dict.get "pointfinder" (heap w !!! 0%nat) = Some (Some Example.pointfinder) /\
  heap w' = heap w /\
  (get_pointfinder_outputs os (h, w')).1 = inr ∅ /\
  forall ms,
    let s := calls os ms (h, w') in
    dict.get "pointfinder" (working_dict s) = Some (Some Example.pointfinder) /\
    is_pointfinder_configured s = (inr true, s).
Proof.
  intros os w h w'.
  assert (H1 : __init__ os 0%nat (Some 2) (Some "out") w = (inr h, w'))
    by (vm_compute; reflexivity).
  assert (H2 : dict.get "pointfinder" (heap w !!! 0%nat) = Some (Some Example.pointfinder))
    by (vm_compute; reflexivity).
  split; [exact H1|]. split; [exact H2|].
  exact (pointfinder_configured os 0%nat (Some 2) (Some "out") w h w' Example.pointfinder H1 H2).
Defined.

(** An example state is ready for a run. *)
Ltac example_ready :=
  split; [split; [simpl; lia | compute_done | simpl; eauto] |];
  split; [apply check_configuration_valid; vm_compute; reflexivity|];
  split; [split; compute_done|];
  split; [repeat constructor|];
  compute_done.


Lemma run_blasts_registers_in_order_witness :
  let os := Example.tool_ok in
  let s := Example.s_both in
  let files := ["genomes/x.fa"; "y.fa"] in
  ready_to_run os s files /\
  let db_files := destination (_input_genomes_tmp_dir s.1) <$> files in
  let js := jobs (working_dict s) db_files in
  let s' := (run_blasts os files s).2 in
  (forall name,
     handles s' name =
       handles s name ++
       (job_future (_output_directory s.1) <$> filter (fun j => get_name j.1.2 = name) js)) /\
  (forall j, j ∈ js ->
     entry (_blast_map s'.1) (get_name j.1.2) (path.basename j.1.1) j.2 =
       Some (job_out (_output_directory s.1) j)).
Proof.
  intros os s files.
  assert (H : ready_to_run os s files) by example_ready.
  split; [exact H|].
  exact (run_blasts_registers_in_order os s files H).
Defined.

Lemma run_blasts_counts_witness :
  let os := Example.tool_ok in
  let s := Example.s_both in
  let files := ["genomes/x.fa"; "y.fa"] in
  ready_to_run os s files /\
  sub_database_count (working_dict s) = 3%nat /\
  exists ex ex',
    _thread_pool_executor s.1 = Some ex /\
    _thread_pool_executor (run_blasts os files s).2.1 = Some ex' /\
    length (_work_queue ex') =
      (length (_work_queue ex) + length files
       + length files * sub_database_count (working_dict s))%nat /\
    length (filter (fun f => is_launch_blast f = true) (_work_queue ex')) =
      (length (filter (fun f => is_launch_blast f = true) (_work_queue ex))
       + length files * sub_database_count (working_dict s))%nat.
Proof.
  intros os s files.
  assert (H : ready_to_run os s files) by example_ready.
  split; [exact H|].
  split; [vm_compute; reflexivity|].
  exact (run_blasts_counts os s files H).
Defined.

Lemma existing_link_stops_the_run_witness :
  let os := Example.tool_ok in
  let s := Example.s_res in
  let pre := ["a.fa"] in
  let file := "genomes/a.fa" in
  let post := ["b.fa"] in
  in_use s /\
  links_fresh os s pre /\
  let db_dir := _input_genomes_tmp_dir s.1 in
  (destination db_dir file ∈ fs s.2 \/ destination db_dir file ∈ destination db_dir <$> pre) /\
  exists s' ex,
    run_blasts os (pre ++ file :: post) s = (inl (FileExistsError (destination db_dir file)), s') /\
    _thread_pool_executor s.1 = Some ex /\
    _thread_pool_executor s'.1 =
      Some {| _max_workers := _max_workers ex;
              _work_queue := _work_queue ex ++
                (make_blast_db_future <$> (destination db_dir <$> pre)) |} /\
    waited s'.2 = waited s.2 /\
    _blast_map s'.1 = _blast_map s.1 /\
    _future_blasts_map s'.1 = _future_blasts_map s.1.
Proof.
  intros os s pre file post.
  assert (H1 : in_use s).
  { split; [simpl; lia | compute_done | simpl; eauto]. }
  assert (H2 : links_fresh os s pre).
  { split; compute_done. }
  assert (H3 : destination (_input_genomes_tmp_dir s.1) file ∈ fs s.2 \/
               destination (_input_genomes_tmp_dir s.1) file
                 ∈ destination (_input_genomes_tmp_dir s.1) <$> pre).
  { right. compute_done. }
  split; [exact H1|]. split; [exact H2|]. split; [exact H3|].
  exact (existing_link_stops_the_run os s pre file post H1 H2 H3).
Defined.

Lemma repeated_run_raises_witness :
  let os := Example.tool_ok in
  let s := Example.s_res in
  let files := ["x.fa"] in
  let s1 := (run_blasts os files s).2 in
  let ms := [call_get_resfinder_outputs; call_reset] in
  run_blasts os files s = (inr tt, s1) /\
  "x.fa" ∈ files /\
  path.basename "genomes/x.fa" = path.basename "x.fa" /\
  let s2 := calls os ms s1 in
  run_blasts os ["genomes/x.fa"; "z.fa"] s2 =
    (inl (FileExistsError (destination (_input_genomes_tmp_dir s.1) "x.fa")), s2).
Proof.
  intros os s files s1 ms.
  assert (H1 : run_blasts os files s = (inr tt, s1)) by (vm_compute; reflexivity).
  assert (H2 : "x.fa" ∈ files) by compute_done.
  assert (H3 : path.basename "genomes/x.fa" = path.basename "x.fa") by reflexivity.
  split; [exact H1|]. split; [exact H2|]. split; [exact H3|].
  exact (repeated_run_raises os s files s1 ms "x.fa" "genomes/x.fa" ["z.fa"] H1 H2 H3).
Defined.

Lemma entry_without_database_stops_every_run_witness :
  let os := Example.tool_ok in
  let s := Example.s_none in
  NoDup (dict.keys (working_dict s)) /\
  ("resfinder", None) ∈ working_dict s /\
  run_blasts os [] s = (inr tt, s) /\
  forall files r s', files <> [] -> run_blasts os files s = (r, s') -> exists e, r = inl e.
Proof.
  intros os s.
  assert (H1 : NoDup (dict.keys (working_dict s))) by compute_done.
  assert (H2 : ("resfinder", None) ∈ working_dict s).
  { apply dict_get_Some_elem. vm_compute. reflexivity. }
  split; [exact H1|]. split; [exact H2|].
  exact (entry_without_database_stops_every_run os s "resfinder" H1 H2).
Defined.

(** ** The properties of the [db] subcommands at work on the example data *)

Lemma build_refuses_existing_destination_witness :
  let env := DbExample.tools in
  let args := DbExample.args_build in
  let t := DbExample.terminal in
  cli.destination args ∈ cli.files t /\
  cli.quiet env (cli.Database_calls args) /\
  (forall r t', cli.Build_run env "/opt/staramr/databases" args t = (r, t') ->
     (exists e, r = inl e) /\ cli.files t' = cli.files t /\
     forall c, c ∈ cli.since t t' -> c ∈ cli.Database_calls args) /\
  cli.Build_run env "/opt/staramr/databases" args t =
    (inl (cli.CommandParseException "Error, destination [databases] already exists" None),
     cli.set_trace [cli.SubCommand_run] t).
Proof.
  intros env args t.
  assert (H : cli.destination args ∈ cli.files t) by compute_done.
  assert (Hq : cli.quiet env (cli.Database_calls args)).
  { vm_compute. repeat constructor. }
  split; [exact H|]. split; [exact Hq|].
  exact (conj (proj1 (build_refuses_existing_destination env "/opt/staramr/databases" args t H))
              (proj2 (build_refuses_existing_destination env "/opt/staramr/databases" args t H)
                 Hq)).
Defined.

Lemma build_makes_directory_then_builds_witness :
  let env := DbExample.tools in
  let args := DbExample.args_build in
  let t := DbExample.terminal_empty in
  (cli.destination args ∉ cli.files t) /\
  exists t',
    cli.Build_run env "/opt/staramr/databases" args t = (inr tt, t') /\
    cli.since t t' =
      [cli.SubCommand_run; cli.mkdir "databases"; cli.new_AMRDatabasesManager "databases";
       cli.get_database_handler (cli.manager_at "databases") None;
       cli.handler_build (cli.manager_at "databases", None) None (Some "abc")] /\
    (cli.destination args ∈ cli.files t' <->
     cli.quiet env (cli.Database_calls args ++ [cli.mkdir (cli.destination args)])).
Proof.
  intros env args t.
  assert (H : cli.destination args ∉ cli.files t) by compute_done.
  split; [exact H|].
  exact (build_makes_directory_then_builds env "/opt/staramr/databases" args t H).
Defined.

Lemma update_directories_leave_default_alone_witness :
  let env := DbExample.tools in
  let args := DbExample.args_update in
  let t := DbExample.terminal in
  cli.directories args <> [] /\
  cli.Update_run env (cli.set_update_default false args) t = cli.Update_run env args t /\
  Forall (fun c => cli.on_default c = false) (cli.since t (cli.Update_run env args t).2).
Proof.
  intros env args t.
  assert (H : cli.directories args <> []) by (simpl; discriminate).
  split; [exact H|].
  exact (update_directories_leave_default_alone env args t false H).
Defined.

Lemma update_stops_at_first_failure_witness :
  let env := DbExample.tools_failing in
  let args := DbExample.args_update in
  let t := DbExample.terminal in
  let cs := cli.update_calls args "b" in
  let e := cli.DatabaseErrorException "b" in
  cli.directories args = ["a"] ++ "b" :: ["c"] /\
  cli.quiet env (cli.Database_calls args ++ (["a"] ≫= cli.update_calls args)) /\
  cli.first_raising env (cli.update_calls args "b") = Some (cs, e) /\
  cli.Update_run env args t =
    (inl e, cli.set_trace (cli.trace t ++ cli.Database_calls args ++
                            (["a"] ≫= cli.update_calls args) ++ cs) t).
Proof.
  intros env args t cs e.
  assert (H1 : cli.directories args = ["a"] ++ "b" :: ["c"]) by reflexivity.
  assert (H2 : cli.quiet env (cli.Database_calls args ++ (["a"] ≫= cli.update_calls args))).
  { vm_compute. repeat constructor. }
  assert (H3 : cli.first_raising env (cli.update_calls args "b") = Some (cs, e)).
  { vm_compute. reflexivity. }
  split; [exact H1|]. split; [exact H2|]. split; [exact H3|].
  exact (update_stops_at_first_failure env args t ["a"] "b" ["c"] cs e H1 H2 H3).
Defined.

Lemma update_updates_every_directory_witness :
  let env := DbExample.tools in
  let args := DbExample.args_update in
  let t := DbExample.terminal in
  cli.directories args <> [] /\
  cli.quiet env (cli.Database_calls args ++ (cli.directories args ≫= cli.update_calls args)) /\
  cli.Update_run env args t =
    (inr tt, cli.set_trace (cli.trace t ++ cli.Database_calls args ++
                              (cli.directories args ≫= cli.update_calls args)) t).
Proof.
  intros env args t.
  assert (H1 : cli.directories args <> []) by (simpl; discriminate).
  assert (H2 : cli.quiet env (cli.Database_calls args
                              ++ (cli.directories args ≫= cli.update_calls args))).
  { vm_compute. repeat constructor. }
  split; [exact H1|]. split; [exact H2|].
  exact (update_updates_every_directory env args t H1 H2).
Defined.

Lemma update_without_directories_witness :
  let env := DbExample.tools_failing in
  let args := DbExample.args_update_default in
  let t := DbExample.terminal in
  cli.directories args = [] /\
  cli.quiet env (cli.Database_calls args) /\
  cli.Update_run env args t =
    (inl (cli.DatabaseErrorException "default"),
     cli.set_trace
       [cli.SubCommand_run; cli.create_default_manager;
        cli.get_database_handler cli.default_manager (Some true);
        cli.handler_update (cli.default_manager, Some true) None None;
        cli.logger_error
          "Could not update default database. Please try restoring with 'staramr db restore'"]
       t).
Proof.
  intros env args t.
  assert (H1 : cli.directories args = []) by reflexivity.
  assert (H2 : cli.quiet env (cli.Database_calls args)).
  { vm_compute. repeat constructor. }
  split; [exact H1|]. split; [exact H2|].
  exact (update_without_directories env args t H1 H2).
Defined.

Lemma info_reports_every_directory_witness :
  let env := DbExample.tools_missing in
  let args := DbExample.args_info in
  let t := DbExample.terminal in
  cli.directories args <> [] /\
  cli.quiet env (cli.Database_calls args ++ [cli.new_ARGDrugTable]) /\
  (forall directory c e,
     directory ∈ cli.directories args ->
     c ∈ cli.info_try_calls env directory -> cli.raises env c = Some e ->
     exists msg, e = cli.DatabaseNotFoundException msg) /\
  cli.Info_run env args t =
    (inr tt, cli.set_trace (cli.trace t ++ cli.Database_calls args ++ [cli.new_ARGDrugTable] ++
                              (cli.directories args ≫= cli.info_calls env)) t) /\
  omap cli.visited (cli.directories args ≫= cli.info_calls env) = cli.directories args.
Proof.
  intros env args t.
  assert (H1 : cli.directories args <> []) by (simpl; discriminate).
  assert (H2 : cli.quiet env (cli.Database_calls args ++ [cli.new_ARGDrugTable])).
  { vm_compute. repeat constructor. }
  assert (H3 : forall directory c e,
     directory ∈ cli.directories args ->
     c ∈ cli.info_try_calls env directory -> cli.raises env c = Some e ->
     exists msg, e = cli.DatabaseNotFoundException msg).
  { intros directory c e _ _. destruct c as [| | | |[]| | |[[] ?]| | | | | | | |]; simpl;
      try discriminate.
    - intros [= <-]. by eexists.
    - case_decide; [|discriminate]. intros [= <-]. by eexists. }
  split; [exact H1|]. split; [exact H2|]. split; [exact H3|].
  exact (info_reports_every_directory env args t H1 H2 H3).
Defined.

Lemma info_default_not_found_witness :
  let env := DbExample.tools_missing in
  let args := DbExample.args_info_default in
  let t := DbExample.terminal in
  cli.directories args = [] /\
  cli.quiet env (cli.Database_calls args ++ [cli.new_ARGDrugTable; cli.create_default_manager]) /\
  cli.Info_run env args t =
    (inl (cli.DatabaseNotFoundException "default"),
     cli.set_trace
       [cli.SubCommand_run; cli.new_ARGDrugTable; cli.create_default_manager;
        cli.get_database_handler cli.default_manager None] t).
Proof.
  intros env args t.
  assert (H1 : cli.directories args = []) by reflexivity.
  assert (H2 : cli.quiet env (cli.Database_calls args
                              ++ [cli.new_ARGDrugTable; cli.create_default_manager])).
  { vm_compute. repeat constructor. }
  split; [exact H1|]. split; [exact H2|].
  exact (proj1 (info_default_not_found env args t "default" H1 H2) eq_refl).
Defined.

Lemma confirm_restore_first_answer_witness :
  let env := DbExample.tools in
  let t := DbExample.terminal in
  cli.stdin t = ["maybe"] ++ " Yes " :: ["n"] /\
  cli.raises env (cli.input cli.restore_prompt) = None /\
  Forall (fun l => cli.answer (cli.response env l) = None) ["maybe"] /\
  cli.answer (cli.response env " Yes ") = Some true /\
  exists t',
    cli._confirm_restore env t = (inr true, t') /\
    cli.stdin t' = ["n"] /\
    cli.files t' = cli.files t /\
    cli.since t t' = replicate 2 (cli.input cli.restore_prompt).
Proof.
  intros env t.
  assert (H1 : cli.stdin t = ["maybe"] ++ " Yes " :: ["n"]) by reflexivity.
  assert (H2 : cli.raises env (cli.input cli.restore_prompt) = None) by reflexivity.
  assert (H3 : Forall (fun l => cli.answer (cli.response env l) = None) ["maybe"]).
  { repeat constructor. }
  assert (H4 : cli.answer (cli.response env " Yes ") = Some true).
  { vm_compute. reflexivity. }
  split; [exact H1|]. split; [exact H2|]. split; [exact H3|]. split; [exact H4|].
  exact (confirm_restore_first_answer env t ["maybe"] " Yes " ["n"] true H1 H2 H3 H4).
Defined.

Lemma confirm_restore_without_answer_witness :
  let env := DbExample.tools in
  let t := DbExample.terminal_empty in
  cli.raises env (cli.input cli.restore_prompt) = None /\
  Forall (fun l => cli.answer (cli.response env l) = None) (cli.stdin t) /\
  cli._confirm_restore env t =
    (inl cli.EOFError,
     cli.set_stdin []
       (cli.set_trace
          (cli.trace t ++ replicate (S (length (cli.stdin t))) (cli.input cli.restore_prompt))
          t)).
Proof.
  intros env t.
  assert (H1 : cli.raises env (cli.input cli.restore_prompt) = None) by reflexivity.
  assert (H2 : Forall (fun l => cli.answer (cli.response env l) = None) (cli.stdin t)).
  { repeat constructor. }
  split; [exact H1|]. split; [exact H2|].
  exact (confirm_restore_without_answer env t H1 H2).
Defined.

Lemma forced_restore_asks_nothing_witness :
  let env := DbExample.tools in
  let args := DbExample.args_restore true in
  let t := DbExample.terminal in
  cli.force args = true /\
  cli.quiet env (cli.Database_calls args ++ [cli.create_default_manager]) /\
  cli.stdin (cli.RestoreDefault_run env args t).2 = ["maybe"; " Yes "; "n"] /\
  Forall (fun c => cli.is_input c = false)
    (cli.since t (cli.RestoreDefault_run env args t).2) /\
  cli.since t (cli.RestoreDefault_run env args t).2 =
    [cli.SubCommand_run; cli.create_default_manager; cli.restore_default].
Proof.
  intros env args t.
  assert (H : cli.force args = true) by reflexivity.
  assert (Hq : cli.quiet env (cli.Database_calls args ++ [cli.create_default_manager])).
  { vm_compute. repeat constructor. }
  split; [exact H|]. split; [exact Hq|].
  exact (conj (proj1 (forced_restore_asks_nothing env args t H))
          (conj (proj1 (proj2 (forced_restore_asks_nothing env args t H)))
                (proj2 (proj2 (forced_restore_asks_nothing env args t H)) Hq))).
Defined.

Lemma restore_follows_the_answer_witness :
  let env := DbExample.tools in
  let args := DbExample.args_restore false in
  let t := cli.set_stdin ["maybe"; "NO"; "yes"] DbExample.terminal in
  cli.force args = false /\
  cli.quiet env (cli.Database_calls args ++
                 [cli.create_default_manager; cli.input cli.restore_prompt]) /\
  cli.stdin t = ["maybe"] ++ "NO" :: ["yes"] /\
  Forall (fun l => cli.answer (cli.response env l) = None) ["maybe"] /\
  cli.answer (cli.response env "NO") = Some false /\
  cli.RestoreDefault_run env args t =
    (inr tt,
     cli.set_stdin ["yes"]
       (cli.set_trace
          [cli.SubCommand_run; cli.create_default_manager;
           cli.input cli.restore_prompt; cli.input cli.restore_prompt] t)).
Proof.
  intros env args t.
  assert (H1 : cli.force args = false) by reflexivity.
  assert (H2 : cli.quiet env (cli.Database_calls args ++
                 [cli.create_default_manager; cli.input cli.restore_prompt])).
  { vm_compute. repeat constructor. }
  assert (H3 : cli.stdin t = ["maybe"] ++ "NO" :: ["yes"]) by reflexivity.
  assert (H4 : Forall (fun l => cli.answer (cli.response env l) = None) ["maybe"]).
  { repeat constructor. }
  assert (H5 : cli.answer (cli.response env "NO") = Some false).
  { vm_compute. reflexivity. }
  split; [exact H1|]. split; [exact H2|]. split; [exact H3|]. split; [exact H4|].
  split; [exact H5|].
  exact (restore_follows_the_answer env args t ["maybe"] "NO" ["yes"] false H1 H2 H3 H4 H5).
Defined.

Lemma getter_returns_after_run_witness :
  let os := Example.tool_bad_blast in
  let s := Example.s_both in
  let files := ["genomes/x.fa"] in
  let name := "pointfinder" in
  let get := get_pointfinder_outputs os in
  ready_to_run os s files /\
  handles s name = [] /\
  (name = "resfinder" /\ get = get_resfinder_outputs os \/
   name = "pointfinder" /\ get = get_pointfinder_outputs os /\
     _pointfinder_configured s.1 = true) /\
  let db_files := destination (_input_genomes_tmp_dir s.1) <$> files in
  let s' := (run_blasts os files s).2 in
  ((exists m, (get s').1 = inr m) <->
   forall j, j ∈ jobs (working_dict s) db_files -> get_name j.1.2 = name ->
     exists stdout,
       run_blastn os (get_path j.1.2 j.2) j.1.1 (job_out (_output_directory s.1) j)
       = (0, stdout, "")) /\
  (forall m, (get s').1 = inr m -> m = group_results s' name).
Proof.
  intros os s files name get.
  assert (H1 : ready_to_run os s files) by example_ready.
  assert (H2 : handles s name = []) by reflexivity.
  assert (H3 : name = "resfinder" /\ get = get_resfinder_outputs os \/
               name = "pointfinder" /\ get = get_pointfinder_outputs os /\
                 _pointfinder_configured s.1 = true).
  { right. repeat split. }
  split; [exact H1|]. split; [exact H2|]. split; [exact H3|].
  exact (getter_returns_after_run os s files name get H1 H2 H3).
Defined.
